(** * opu : URL extraction and GitHub URL inference

    A shallow embedding of the pure core of [index.js]
    ([findUrlsFromPackageJson], [detectGitHubUrls], [makeChoices]) and the
    properties its specification states about it.

    Conventions of the embedding.
    - A JavaScript string is a [string]: the sequence of the bytes of its
      UTF-8 encoding.  Every regular expression of the source starts with
      an ASCII literal (or [^]) and every run of [.] is followed by an
      ASCII literal, by [$] or by the end of the expression, so matching
      on bytes and matching on code points (the [u] flag) find the same
      matches; the line terminators that [.] refuses are recognised on
      their encodings.
    - A variable that holds a string, [null] or [undefined] is a [jsv].
    - An object is the list of its own properties in insertion order,
      which is the order of [Object.keys] and [Object.values].
    - A [throw] is the [Throw] constructor of [result]. *)

From Stdlib Require Import String Ascii List Bool Arith Lia QArith.
From Stdlib Require Import DecimalString.
Import ListNotations.
Open Scope string_scope.
Open Scope nat_scope.

(** ** Strings *)

Module Str.

(** [s.includes(t)] *)
Fixpoint includes (t s : string) : bool :=
  prefix t s ||
  match s with
  | EmptyString => false
  | String _ s' => includes t s'
  end.

Definition is_empty (s : string) : bool :=
  match s with EmptyString => true | String _ _ => false end.

(** Rest of [s] after its first [n] bytes. *)
Fixpoint drop (n : nat) (s : string) : string :=
  match n, s with
  | O, _ => s
  | S n', String _ s' => drop n' s'
  | S _, EmptyString => EmptyString
  end.

(** First [n] bytes of [s]. *)
Fixpoint take (n : nat) (s : string) : string :=
  match n, s with
  | S n', String c s' => String c (take n' s')
  | _, _ => EmptyString
  end.

(** [s.slice(i, j)] for [i <= j]. *)
Definition slice (i j : nat) (s : string) : string :=
  take (j - i) (drop i s).

(** Decimal rendering of a number, as a template literal prints it. *)
Definition of_nat (n : nat) : string :=
  NilEmpty.string_of_uint (Nat.to_uint n).

(** ECMAScript LineTerminator at the head of [s]: LF, CR, and the
    encodings E2 80 A8 (U+2028) and E2 80 A9 (U+2029). *)
Definition line_terminator_at (s : string) : bool :=
  match s with
  | String c r =>
      match nat_of_ascii c with
      | 10 | 13 => true
      | 226 =>
          match r with
          | String c1 (String c2 _) =>
              (nat_of_ascii c1 =? 128) &&
              ((nat_of_ascii c2 =? 168) || (nat_of_ascii c2 =? 169))
          | _ => false
          end
      | _ => false
      end
  | EmptyString => false
  end.

End Str.

(** ** Regular expressions

    The fragment of ECMAScript regular expressions that the source uses,
    with the backtracking semantics of the language: alternatives and
    quantifiers are tried in priority order, the first complete match
    wins.  The only quantified atoms of the source are [.] (as [.*],
    [.*?], [.+?]) and one optional group. *)

Module Regex.

Inductive t : Type :=
| Lit (s : string)          (* a sequence of literal characters *)
| AnyStar (greedy : bool)   (* [.*] and [.*?] *)
| AnyPlus (greedy : bool)   (* [.+] and [.+?] *)
| Bol                       (* [^] *)
| Eol                       (* [$] *)
| Seq (r1 r2 : t)
| Alt (r1 r2 : t)           (* [r1|r2] *)
| Opt (r : t)               (* [r?] *)
| Group (n : nat) (r : t).  (* the n-th capturing group *)

(** Position in the input, the input from there on, and the captures
    made so far as (group, (start, end)). *)
Record state : Type := mkState {
  pos : nat;
  rest : string;
  caps : list (nat * (nat * nat))
}.

Definition cont : Type := state -> option state.

Definition orelse (a : option state) (b : unit -> option state) : option state :=
  match a with
  | Some x => Some x
  | None => b tt
  end.

(** [.*?] : as few characters as the continuation allows. *)
Fixpoint lazy_any (k : cont) (cs : list (nat * (nat * nat)))
         (p : nat) (s : string) : option state :=
  orelse (k (mkState p s cs))
    (fun _ =>
       match s with
       | EmptyString => None
       | String _ s' =>
           if Str.line_terminator_at s then None
           else lazy_any k cs (S p) s'
       end).

(** [.*] : as many characters as the continuation allows. *)
Fixpoint greedy_any (k : cont) (cs : list (nat * (nat * nat)))
         (p : nat) (s : string) : option state :=
  match s with
  | EmptyString => k (mkState p s cs)
  | String _ s' =>
      if Str.line_terminator_at s then k (mkState p s cs)
      else orelse (greedy_any k cs (S p) s') (fun _ => k (mkState p s cs))
  end.

Definition any_star (greedy : bool) (k : cont) (st : state) : option state :=
  if greedy then greedy_any k (caps st) (pos st) (rest st)
  else lazy_any k (caps st) (pos st) (rest st).

(** One [.] *)
Definition any_one (k : cont) (st : state) : option state :=
  match rest st with
  | EmptyString => None
  | String _ s' =>
      if Str.line_terminator_at (rest st) then None
      else k (mkState (S (pos st)) s' (caps st))
  end.

Definition set_cap (n : nat) (from : nat) (st : state) : state :=
  mkState (pos st) (rest st) ((n, (from, pos st)) :: caps st).

(** [run r k st] matches [r] at [st] and hands the state reached to
    [k]; when [k] fails the next way of matching [r] is tried. *)
Fixpoint run (r : t) (k : cont) (st : state) : option state :=
  match r with
  | Lit s =>
      if prefix s (rest st)
      then k (mkState (pos st + String.length s) (Str.drop (String.length s) (rest st)) (caps st))
      else None
  | AnyStar g => any_star g k st
  | AnyPlus g => any_one (any_star g k) st
  | Bol => if pos st =? 0 then k st else None
  | Eol => if Str.is_empty (rest st) then k st else None
  | Seq r1 r2 => run r1 (run r2 k) st
  | Alt r1 r2 => orelse (run r1 k st) (fun _ => run r2 k st)
  | Opt r1 => orelse (run r1 k st) (fun _ => k st)
  | Group n r1 => run r1 (fun st' => k (set_cap n (pos st) st')) st
  end.

(** A match: where it starts, where it ends, what it captured. *)
Record found : Type := mkFound {
  start : nat;
  stop : nat;
  groups : list (nat * (nat * nat))
}.

(** Leftmost match: the start positions are tried from [p] on, the end
    of the input included. *)
Fixpoint search_from (r : t) (p : nat) (s : string) : option found :=
  match run r Some (mkState p s []) with
  | Some st => Some (mkFound p (pos st) (caps st))
  | None =>
      match s with
      | EmptyString => None
      | String _ s' => search_from r (S p) s'
      end
  end.

(** [RegExp.prototype.exec] of an expression without the [g] flag. *)
Definition exec (r : t) (s : string) : option found := search_from r 0 s.

Fixpoint lookup (n : nat) (cs : list (nat * (nat * nat))) : option (nat * nat) :=
  match cs with
  | [] => None
  | (m, se) :: cs' => if m =? n then Some se else lookup n cs'
  end.

(** [m[n]] of a match array: [None] is [undefined], the group took no
    part in the match. *)
Definition group (s : string) (m : found) (n : nat) : option string :=
  match lookup n (groups m) with
  | Some (i, j) => Some (Str.slice i j s)
  | None => None
  end.

(** [s.replace(r, '')] for an expression without the [g] flag: the
    first match is removed. *)
Definition remove_first (r : t) (s : string) : string :=
  match exec r s with
  | Some m => Str.take (start m) s ++ Str.drop (stop m) s
  | None => s
  end.

(** [s.replace(r, repl)] for an expression without the [g] flag and a
    replacement without [$]: the first match is replaced. *)
Definition replace_first (r : t) (repl s : string) : string :=
  match exec r s with
  | Some m => Str.take (start m) s ++ repl ++ Str.drop (stop m) s
  | None => s
  end.

(** Every capture of [cs] is still one of [cs']. *)
Definition keeps (cs cs' : list (nat * (nat * nat))) : Prop :=
  forall n, lookup n cs <> None -> lookup n cs' <> None.

(** The groups that take part in every match of an expression. *)
Fixpoint sets (n : nat) (r : t) : bool :=
  match r with
  | Group m r1 => (m =? n) || sets n r1
  | Seq r1 r2 => sets n r1 || sets n r2
  | Alt r1 r2 => sets n r1 && sets n r2
  | _ => false
  end.

Declare Scope regex_scope.
Delimit Scope regex_scope with re.
Bind Scope regex_scope with t.
Infix ">>" := Seq (at level 45, right associativity) : regex_scope.
Infix "<|>" := Alt (at level 55, right associativity) : regex_scope.

End Regex.

(** ** JavaScript values *)

(** What a variable of the source holds when it holds a string, [null]
    or [undefined]. *)
Inductive jsv : Type :=
| VUndefined
| VNull
| VString (s : string).

(** [!!v] *)
Definition truthy (v : jsv) : bool :=
  match v with
  | VString s => negb (Str.is_empty s)
  | _ => false
  end.

(** [`${v}`], also what [+] makes of [v] next to a string. *)
Definition to_string (v : jsv) : string :=
  match v with
  | VUndefined => "undefined"
  | VNull => "null"
  | VString s => s
  end.

(** [v === ''] *)
Definition is_empty_string (v : jsv) : bool :=
  match v with
  | VString s => Str.is_empty s
  | _ => false
  end.

(** [v == null] *)
Definition is_nullish (v : jsv) : bool :=
  match v with
  | VString _ => false
  | _ => true
  end.

(** [m[n]] as a value. *)
Definition capture (s : string) (m : Regex.found) (n : nat) : jsv :=
  match Regex.group s m n with
  | Some g => VString g
  | None => VUndefined
  end.

(** What [JSON.parse] returns.  A number is the value of the double; only
    whether it is zero is ever looked at. *)
#[local] Unset Elimination Schemes.
Inductive json : Type :=
| JNull
| JBool (b : bool)
| JNumber (x : Q)
| JString (s : string)
| JArray (items : list json)
| JObject (props : list (string * json)).
#[local] Set Elimination Schemes.

(** An object: its own properties, in insertion order. *)
Definition object (A : Type) : Type := list (string * A).

Fixpoint prop {A : Type} (key : string) (o : object A) : option A :=
  match o with
  | [] => None
  | (k, v) :: o' => if String.eqb k key then Some v else prop key o'
  end.

(** [o[key] = v]: an existing property keeps its place, a new one goes
    last. *)
Fixpoint set_prop {A : Type} (key : string) (v : A) (o : object A) : object A :=
  match o with
  | [] => [(key, v)]
  | (k, w) :: o' =>
      if String.eqb k key then (k, v) :: o' else (k, w) :: set_prop key v o'
  end.

(** [!!v] for a parsed value or [undefined] ([None]). *)
Definition json_truthy (v : option json) : bool :=
  match v with
  | None | Some JNull => false
  | Some (JBool b) => b
  | Some (JNumber x) => negb (Qeq_bool x 0)
  | Some (JString s) => negb (Str.is_empty s)
  | Some (JArray _) | Some (JObject _) => true
  end.

(** ** Exceptions *)

Inductive error : Type :=
| TypeError.

Inductive result (A : Type) : Type :=
| Ok (a : A)
| Throw (e : error).
Arguments Ok {A} a.
Arguments Throw {A} e.

Definition bind {A B : Type} (r : result A) (f : A -> result B) : result B :=
  match r with
  | Ok a => f a
  | Throw e => Throw e
  end.

Notation "x <- c ;; k" := (bind c (fun x => k))
  (at level 61, c at next level, right associativity).

(** [v[key]] for the property names the source reads ([homepage],
    [author], [repository], [bugs], [funding], [url]): reading a property
    of [null] throws, a string, number, boolean or array has none of
    them. *)
Definition get (v : json) (key : string) : result (option json) :=
  match v with
  | JNull => Throw TypeError
  | JObject props => Ok (prop key props)
  | _ => Ok None
  end.

(** [v?.url] *)
Definition get_url_opt (v : option json) : result (option json) :=
  match v with
  | None | Some JNull => Ok None
  | Some w => get w "url"
  end.

(** ** The regular expressions of the source *)

Module Re.
Import Regex.
Local Open Scope regex_scope.

(** The source writes "(\/|\?|#|$)". *)
Definition delimiter : Regex.t :=
  Lit "/" <|> Lit "?" <|> Lit "#" <|> Eol.

(** The source writes "/(#.*|\.git$)/u". *)
Definition fragment_or_git : Regex.t :=
  Group 1 (Lit "#" >> AnyStar true <|> Lit ".git" >> Eol).

(** The expression of the author field: an escaped opening parenthesis,
    the group "http.*" and an escaped closing parenthesis, flag u. *)
Definition parenthesized_http : Regex.t :=
  Lit "(" >> Group 1 (Lit "http" >> AnyStar true) >> Lit ")".

(** The source writes "/^git\+/u". *)
Definition git_plus : Regex.t :=
  Bol >> Lit "git+".

(** The source writes "/github\.com\/(.*?)(\/|\?|#|$)/u". *)
Definition user_name : Regex.t :=
  Lit "github.com/" >> Group 1 (AnyStar false) >> Group 2 delimiter.

(** The source writes "/github\.com\/(.*?)\/(.*?)(\/|\?|#|$)/u". *)
Definition repository_name : Regex.t :=
  Lit "github.com/" >> Group 1 (AnyStar false) >> Lit "/"
    >> Group 2 (AnyStar false) >> Group 3 delimiter.

(** The source writes "/:\/\/(.+?)\.github\.io(\/.*?)?(\/|\?|#|$)/u". *)
Definition github_pages : Regex.t :=
  Lit "://" >> Group 1 (AnyPlus false) >> Lit ".github.io"
    >> Opt (Group 2 (Lit "/" >> AnyStar false)) >> Group 3 delimiter.

(** The source writes "/\/\/.*@/u". *)
Definition userinfo : Regex.t :=
  Lit "//" >> AnyStar true >> Lit "@".

(** The source writes "/(\.git$)/u". *)
Definition git_suffix : Regex.t :=
  Group 1 (Lit ".git" >> Eol).

(** The source writes "/^\//u". *)
Definition leading_slash : Regex.t :=
  Bol >> Lit "/".

End Re.

(** ** URL extractor *)

(** The inner function of [findUrlsFromPackageJson]:
    [url] is the field itself when the field is a string and the [url]
    property of the field (read with [?.]) otherwise; a falsy [url] gives
    [null], any other has the first match of the expression removed.
    A truthy [url] that is not a string has no [replace] method, and the
    call throws. *)
Definition getFromUrlProperty (packageJson : json) (propertyName : string)
  : result jsv :=
  field <- get packageJson propertyName ;;
  url <- match field with
         | Some (JString s) => Ok (Some (JString s))
         | _ => get_url_opt field
         end ;;
  if negb (json_truthy url) then Ok VNull
  else match url with
       | Some (JString s) => Ok (VString (Regex.remove_first Re.fragment_or_git s))
       | _ => Throw TypeError
       end.

(** [(() => { const url = getFromUrlProperty('author'); ... })()] *)
Definition author_of (packageJson : json) : result jsv :=
  url <- getFromUrlProperty packageJson "author" ;;
  if negb (truthy url) then Ok VNull
  else
    let s := to_string url in
    match Regex.exec Re.parenthesized_http s with
    | Some m => Ok (capture s m 1)
    | None => Ok url
    end.

(** [(() => { const url = getFromUrlProperty('repository'); ... })()] *)
Definition repository_of (packageJson : json) : result jsv :=
  url <- getFromUrlProperty packageJson "repository" ;;
  if negb (truthy url) then Ok VNull
  else Ok (VString (Regex.remove_first Re.git_plus (to_string url))).

(** The fields are computed in the order of the source, so the first
    throw is the one that leaves the function. *)
Definition findUrlsFromPackageJson (packageJson : json) : result (object jsv) :=
  homepage <- getFromUrlProperty packageJson "homepage" ;;
  author <- author_of packageJson ;;
  repository <- repository_of packageJson ;;
  bugs <- getFromUrlProperty packageJson "bugs" ;;
  funding <- getFromUrlProperty packageJson "funding" ;;
  Ok [ ("homepage", homepage); ("author", author);
       ("repository", repository); ("bugs", bugs); ("funding", funding) ].

(** [if(gitRemoteUrl) urls.gitRemoteUrl = gitRemoteUrl;] of the main
    function. *)
Definition mergeGitRemoteUrl (gitRemoteUrl : jsv) (urls : object jsv) : object jsv :=
  if truthy gitRemoteUrl then set_prop "gitRemoteUrl" gitRemoteUrl urls
  else urls.

(** ** GitHub URL inferrer *)

(** The four [let] variables of [detectGitHubUrls]. *)
Record scan : Type := mkScan {
  s_userName : jsv;
  s_repositoryName : jsv;
  s_hasGitHubPages : bool;
  s_gitHubPagesUrl : jsv
}.

Definition scan0 : scan := mkScan VNull VNull false VNull.

Definition with_userName (v : jsv) (st : scan) : scan :=
  mkScan v (s_repositoryName st) (s_hasGitHubPages st) (s_gitHubPagesUrl st).
Definition with_repositoryName (v : jsv) (st : scan) : scan :=
  mkScan (s_userName st) v (s_hasGitHubPages st) (s_gitHubPagesUrl st).
Definition with_hasGitHubPages (b : bool) (st : scan) : scan :=
  mkScan (s_userName st) (s_repositoryName st) b (s_gitHubPagesUrl st).
Definition with_gitHubPagesUrl (v : jsv) (st : scan) : scan :=
  mkScan (s_userName st) (s_repositoryName st) (s_hasGitHubPages st) v.

(** The branch [if(url.includes('github.com'))]. *)
Definition scan_github_com (url : string) (st : scan) : scan :=
  let st1 :=
    if negb (truthy (s_userName st)) then
      match Regex.exec Re.user_name url with
      | Some m =>
          let matchUserName1 := capture url m 1 in
          if negb (is_empty_string matchUserName1)
          then with_userName matchUserName1 st
          else st
      | None => st
      end
    else st in
  if negb (truthy (s_repositoryName st1)) then
    match Regex.exec Re.repository_name url with
    | Some m =>
        let matchRepositoryName2 := capture url m 2 in
        if negb (is_empty_string matchRepositoryName2)
        then with_repositoryName matchRepositoryName2 st1
        else st1
    | None => st1
    end
  else st1.

(** The branch [else if(url.includes('github.io') && !gitHubPagesUrl)].
    [length] counts bytes where the source counts UTF-16 units; the
    second group starts with a slash, so it is longer than 1, or of
    length 1, in both counts at once. *)
Definition scan_github_io (url : string) (st : scan) : scan :=
  let st0 := with_hasGitHubPages true st in
  match Regex.exec Re.github_pages url with
  | None => st0
  | Some m =>
      let m1 := capture url m 1 in
      let m2 := capture url m 2 in
      let st1 :=
        if truthy m1 then
          let st' := with_gitHubPagesUrl (VString ("https://" ++ to_string m1 ++ ".github.io")) st0 in
          if negb (truthy (s_userName st')) then with_userName m1 st' else st'
        else st0 in
      if truthy m2 && (1 <? String.length (to_string m2)) then
        let st2 := with_gitHubPagesUrl
                     (VString (to_string (s_gitHubPagesUrl st1) ++ to_string m2)) st1 in
        if negb (truthy (s_repositoryName st2)) then
          let path := Regex.remove_first Re.leading_slash (to_string m2) in
          if negb (Str.includes "." path)
          then with_repositoryName (VString path) st2
          else st2
        else st2
      else if is_nullish m2 || (String.length (to_string m2) =? 1) then
        if negb (truthy (s_repositoryName st1))
        then with_repositoryName (VString (to_string m1 ++ ".github.io")) st1
        else st1
      else st1
  end.

(** The callback of [Object.values(urls).forEach]. *)
Definition scan_url (st : scan) (url : jsv) : scan :=
  if negb (truthy url) then st
  else
    let u := to_string url in
    if Str.includes "github.com" u then scan_github_com u st
    else if Str.includes "github.io" u && negb (truthy (s_gitHubPagesUrl st))
    then scan_github_io u st
    else st.

Record inference : Type := mkInference {
  userName : jsv;
  repositoryName : jsv;
  gitHubUserUrl : jsv;
  gitHubRepositoryUrl : jsv;
  hasGitHubPages : bool;
  gitHubPagesUrl : jsv
}.

(** What follows the loop in [detectGitHubUrls]. *)
Definition derive (st : scan) : inference :=
  let userName := s_userName st in
  let repositoryName := s_repositoryName st in
  let gitHubUserUrl :=
    if truthy userName
    then VString ("https://github.com/" ++ to_string userName)
    else VNull in
  let gitHubRepositoryUrl :=
    if truthy userName && truthy repositoryName
    then VString ("https://github.com/" ++ to_string userName ++ "/" ++ to_string repositoryName)
    else VNull in
  let gitHubPagesUrl :=
    if negb (truthy (s_gitHubPagesUrl st)) && truthy userName then
      let p := "https://" ++ to_string userName ++ ".github.io" in
      if truthy repositoryName
      then VString (p ++ "/" ++ to_string repositoryName)
      else VString p
    else s_gitHubPagesUrl st in
  mkInference userName repositoryName gitHubUserUrl gitHubRepositoryUrl
              (s_hasGitHubPages st) gitHubPagesUrl.

(** [Object.values(urls)] *)
Definition values {A : Type} (o : object A) : list A := map snd o.

Definition scan_urls (urls : object jsv) : scan :=
  fold_left scan_url (values urls) scan0.

Definition detectGitHubUrls (urls : object jsv) : inference :=
  derive (scan_urls urls).

(** ** Choice list builder *)

(** [value] of a choice: a URL, or [false] for the cancel entry. *)
Inductive choice_value : Type :=
| Url (url : string)
| Cancel.

Record choice : Type := mkChoice {
  name : string;
  value : choice_value
}.

(** [choices.push({ name: `[${choices.length + 1}]  ${text}`, value })] *)
Definition push (text : string) (v : choice_value) (choices : list choice)
  : list choice :=
  choices ++ [ mkChoice ("[" ++ Str.of_nat (length choices + 1) ++ "]  " ++ text) v ].

(** The callback of [Object.keys(urls).forEach]; the keys of an object
    are distinct, so [urls[key]] is the value listed with [key]. *)
Definition push_url (choices : list choice) (entry : string * jsv) : list choice :=
  let (key, url) := entry in
  if negb (truthy url) then choices
  else if String.eqb key "gitRemoteUrl"
  then push (to_string url ++ " ... Git Remote URL") (Url (to_string url)) choices
  else push (to_string url ++ " ... package.json " ++ key) (Url (to_string url)) choices.

Definition makeChoices (urls : object jsv) (gitHubUrls : inference) : list choice :=
  let choices := [] in
  let choices :=
    if truthy (gitHubRepositoryUrl gitHubUrls) then
      push (to_string (gitHubRepositoryUrl gitHubUrls)
              ++ " ... GitHub Repository Page ("
              ++ to_string (userName gitHubUrls) ++ "/"
              ++ to_string (repositoryName gitHubUrls) ++ ")")
           (Url (to_string (gitHubRepositoryUrl gitHubUrls))) choices
    else choices in
  let choices :=
    if truthy (gitHubUserUrl gitHubUrls) then
      push (to_string (gitHubUserUrl gitHubUrls)
              ++ " ... GitHub User Page ("
              ++ to_string (userName gitHubUrls) ++ ")")
           (Url (to_string (gitHubUserUrl gitHubUrls))) choices
    else choices in
  let choices :=
    if truthy (gitHubPagesUrl gitHubUrls) then
      push (to_string (gitHubPagesUrl gitHubUrls)
              ++ " ... GitHub Pages"
              ++ (if hasGitHubPages gitHubUrls then "" else " (Maybe Not Found)"))
           (Url (to_string (gitHubPagesUrl gitHubUrls))) choices
    else choices in
  let choices := fold_left push_url urls choices in
  if 0 <? length choices then push "Cancel" Cancel choices else choices.

(** The main function up to the prompt: extraction, the optional remote
    URL, inference, choices. *)
Definition choices_of (packageJson : json) (gitRemoteUrl : jsv)
  : result (list choice) :=
  urls0 <- findUrlsFromPackageJson packageJson ;;
  let urls := mergeGitRemoteUrl gitRemoteUrl urls0 in
  Ok (makeChoices urls (detectGitHubUrls urls)).

(** Extraction followed by inference. *)
Definition infer (packageJson : json) : result inference :=
  urls <- findUrlsFromPackageJson packageJson ;;
  Ok (detectGitHubUrls urls).

(** The record of a manifest in which nothing was found. *)
Definition no_urls : object jsv :=
  [ ("homepage", VNull); ("author", VNull); ("repository", VNull);
    ("bugs", VNull); ("funding", VNull) ].

(** ** Auxiliary definitions of the statements *)

(** What [getFromUrlProperty] makes of a string it has found. *)
Definition normalized (s : string) : jsv :=
  if Str.is_empty s then VNull
  else VString (Regex.remove_first Re.fragment_or_git s).

(** What extraction makes of a manifest with the homepage written without
    a scheme and a repository on github.com. *)
Definition urls_schemeless_pages : object jsv :=
  [ ("homepage", VString "acme.github.io"); ("author", VNull);
    ("repository", VString "https://github.com/acme/widget");
    ("bugs", VNull); ("funding", VNull) ].

(** What extraction makes of a manifest whose homepage is a bare
    fragment. *)
Definition urls_empty_homepage : object jsv :=
  [ ("homepage", VString ""); ("author", VNull); ("repository", VNull);
    ("bugs", VNull); ("funding", VNull) ].

(** A field whose [url] property, when the field is an object, is absent,
    falsy or a string. *)
Definition url_is_string_or_falsy (field : option json) : bool :=
  match field with
  | Some (JObject o) =>
      match prop "url" o with
      | Some (JString _) => true
      | v => negb (json_truthy v)
      end
  | _ => true
  end.

(** A variable that is [null] or a non-empty string. *)
Definition settled (v : jsv) : Prop := v = VNull \/ truthy v = true.

(** What holds of the variables of the scan all along. *)
Record scan_ok (st : scan) : Prop := mkScanOk {
  ok_userName : settled (s_userName st);
  ok_repositoryName : settled (s_repositoryName st);
  ok_gitHubPagesUrl : settled (s_gitHubPagesUrl st)
}.

(** ** The choice list of the specification *)

(** The choice list as the specification words it, to be compared with
    [makeChoices]: the entries in the order stated, a cancel entry after
    them when there is one at least, each numbered by its place.
    [present] says which URLs count as there. *)

(** An entry before it is numbered: the text after the number, and the
    value. *)
Definition entry : Type := (string * choice_value)%type.

(** The inferred repository, user and Pages URLs, each if present. *)
Definition inferred_entries (present : jsv -> bool) (g : inference) : list entry :=
  (if present (gitHubRepositoryUrl g)
   then [ (to_string (gitHubRepositoryUrl g) ++ " ... GitHub Repository Page ("
             ++ to_string (userName g) ++ "/" ++ to_string (repositoryName g) ++ ")",
           Url (to_string (gitHubRepositoryUrl g))) ]
   else [])
  ++ (if present (gitHubUserUrl g)
      then [ (to_string (gitHubUserUrl g) ++ " ... GitHub User Page ("
                ++ to_string (userName g) ++ ")",
              Url (to_string (gitHubUserUrl g))) ]
      else [])
  ++ (if present (gitHubPagesUrl g)
      then [ (to_string (gitHubPagesUrl g) ++ " ... GitHub Pages"
                ++ (if hasGitHubPages g then "" else " (Maybe Not Found)"),
              Url (to_string (gitHubPagesUrl g))) ]
      else []).

(** The entry of an extracted URL, if present. *)
Definition extracted_entry (present : jsv -> bool) (field : string * jsv)
  : list entry :=
  if present (snd field)
  then [ (to_string (snd field)
            ++ (if String.eqb (fst field) "gitRemoteUrl"
                then " ... Git Remote URL"
                else " ... package.json " ++ fst field),
          Url (to_string (snd field))) ]
  else [].

(** The cancel entry comes last, and only after some other entry. *)
Definition with_cancel (es : list entry) : list entry :=
  match es with
  | [] => []
  | _ :: _ => es ++ [("Cancel", Cancel)]
  end.

(** The number in a label is the place of the entry, counted from [i]. *)
Fixpoint number_from (i : nat) (es : list entry) : list choice :=
  match es with
  | [] => []
  | (text, v) :: es' =>
      mkChoice ("[" ++ Str.of_nat i ++ "]  " ++ text) v :: number_from (S i) es'
  end.

(** The list of the specification. *)
Definition specified_choices (present : jsv -> bool)
           (urls : object jsv) (g : inference) : list choice :=
  number_from 1
    (with_cancel (inferred_entries present g
                    ++ flat_map (extracted_entry present) urls)).

(** [v !== null], for a value that is a string or [null]. *)
Definition non_null (v : jsv) : bool := negb (is_nullish v).

(** ** Definitions of the further statements *)

(** A property of the URL record that the scan looks at: its value is
    truthy and contains github.com or github.io. *)
Definition relevant (field : string * jsv) : bool :=
  truthy (snd field) &&
  (Str.includes "github.com" (to_string (snd field)) ||
   Str.includes "github.io" (to_string (snd field))).

(** The Pages URL made after the scan from the names alone. *)
Definition synthesized_pages_url (user repository : jsv) : jsv :=
  if truthy user then
    if truthy repository
    then VString (("https://" ++ to_string user ++ ".github.io")
                    ++ "/" ++ to_string repository)
    else VString ("https://" ++ to_string user ++ ".github.io")
  else VNull.

(** The record in which nothing is inferred. *)
Definition nothing_inferred : inference :=
  mkInference VNull VNull VNull VNull false VNull.

(** [s.endsWith(t)] *)
Fixpoint ends_with (t s : string) : bool :=
  String.eqb s t ||
  match s with
  | EmptyString => false
  | String _ s' => ends_with t s'
  end.

(** The part of [s] before its first line terminator. *)
Fixpoint first_line (s : string) : string :=
  match s with
  | EmptyString => EmptyString
  | String c s' =>
      if Str.line_terminator_at s then EmptyString else String c (first_line s')
  end.

(** The part of [s] from its first line terminator on. *)
Fixpoint line_rest (s : string) : string :=
  match s with
  | EmptyString => EmptyString
  | String _ s' => if Str.line_terminator_at s then s else line_rest s'
  end.

(** [s] has no line terminator. *)
Definition single_line (s : string) : bool := Str.is_empty (line_rest s).

(** The field is the string [s], or an object whose [url] is [s]. *)
Definition holds_string (field : option json) (s : string) : Prop :=
  field = Some (JString s) \/
  exists o, field = Some (JObject o) /\ prop "url" o = Some (JString s).

(** The fields that the extractor reads, in the order of the record it
    returns. *)
Definition known_fields : list string :=
  [ "homepage"; "author"; "repository"; "bugs"; "funding" ].

(** The fields that the extractor stores as [getFromUrlProperty] returns
    them; the author and the repository are processed further. *)
Definition plain_fields : list string := [ "homepage"; "bugs"; "funding" ].

Definition is_ok {A : Type} (r : result A) : bool :=
  match r with
  | Ok _ => true
  | Throw _ => false
  end.

(** [showLinks]: the calls of [terminalLink(choice.name, choice.value)],
    one for each choice whose value is truthy, in the order of the
    list. *)
Definition showLinks (choices : list choice) : list (string * string) :=
  flat_map
    (fun c =>
       match value c with
       | Url u => if Str.is_empty u then [] else [(name c, u)]
       | Cancel => []
       end)
    choices.

(** The choice that a link shows: its label and, as its target, the URL
    that is the value of the choice. *)
Definition link_choice (link : string * string) : choice :=
  mkChoice (fst link) (Url (snd link)).

(** [!list.length] *)
Definition is_nil {A : Type} (l : list A) : bool :=
  match l with
  | [] => true
  | _ :: _ => false
  end.

(** The entries of the choice list before they are numbered and before
    the cancel entry is added. *)
Definition entries (urls : object jsv) (g : inference) : list entry :=
  inferred_entries truthy g ++ flat_map (extracted_entry truthy) urls.

(** The cancel entry that comes after [n] entries. *)
Definition cancel_after (n : nat) : choice :=
  mkChoice ("[" ++ Str.of_nat (n + 1) ++ "]  Cancel") Cancel.

(** ** The remote URL of the git configuration *)

(** The line feed, on which the output of git is split. *)
Definition LF : string := String (ascii_of_nat 10) EmptyString.

(** [s.split('\n')] *)
Fixpoint split_lines (s : string) : list string :=
  match s with
  | EmptyString => [EmptyString]
  | String c s' =>
      if nat_of_ascii c =? 10 then EmptyString :: split_lines s'
      else match split_lines s' with
           | line :: lines => String c line :: lines
           | [] => [String c EmptyString]
           end
  end.

(** The number of bytes of the white space or line terminator at the
    head of [s], 0 when there is none: what [trim] removes is TAB, LF,
    VT, FF, CR, SP, and, in their encodings, U+00A0, U+1680, U+2000 to
    U+200A, U+2028, U+2029, U+202F, U+205F, U+3000 and U+FEFF. *)
Definition whitespace_width (s : string) : nat :=
  match s with
  | EmptyString => 0
  | String c r =>
      let b := nat_of_ascii c in
      if ((9 <=? b) && (b <=? 13)) || (b =? 32) then 1
      else
        match r with
        | EmptyString => 0
        | String c1 r1 =>
            let b1 := nat_of_ascii c1 in
            if (b =? 194) && (b1 =? 160) then 2
            else
              match r1 with
              | EmptyString => 0
              | String c2 _ =>
                  let b2 := nat_of_ascii c2 in
                  if (b =? 225) && (b1 =? 154) && (b2 =? 128) then 3
                  else if (b =? 226) && (b1 =? 128) &&
                          (((128 <=? b2) && (b2 <=? 138))
                           || (b2 =? 168) || (b2 =? 169) || (b2 =? 175)) then 3
                  else if (b =? 226) && (b1 =? 129) && (b2 =? 159) then 3
                  else if (b =? 227) && (b1 =? 128) && (b2 =? 128) then 3
                  else if (b =? 239) && (b1 =? 187) && (b2 =? 191) then 3
                  else 0
              end
        end
  end.

(** [s], after its first [skip] bytes, is white space throughout. *)
Fixpoint blank_from (skip : nat) (s : string) : bool :=
  match s with
  | EmptyString => true
  | String _ s' =>
      match skip with
      | S k => blank_from k s'
      | O =>
          match whitespace_width s with
          | O => false
          | S k => blank_from k s'
          end
      end
  end.

(** [!s.trim()] *)
Definition blank (s : string) : bool := blank_from 0 s.

(** How the promise of [exec] settles. *)
Inductive exec_result : Type :=
| Rejected
| Resolved (stdout : string).

(** [findUrlFromGitConfig], given how
    [exec('git config remote.origin.url')] settled. *)
Definition findUrlFromGitConfig (result : exec_result) : jsv :=
  match result with
  | Rejected => VNull
  | Resolved stdout =>
      match find (fun line => negb (blank line)) (split_lines stdout) with
      | None => VNull
      | Some url =>
          VString (Regex.remove_first Re.git_suffix
                     (Regex.replace_first Re.userinfo "//" url))
      end
  end.

(** The first [k] bytes of [s] are there and are not ASCII. *)
Fixpoint high (k : nat) (s : string) : bool :=
  match k with
  | O => true
  | S k' =>
      match s with
      | EmptyString => false
      | String c s' => (128 <=? nat_of_ascii c) && high k' s'
      end
  end.

(** ** The earlier version of the program

    The version of the program without the remote URL of git, kept in
    the repository beside the current one.  Its [detectGitHubUrls] is the
    current one, but for visiting the values through [Object.keys]; its
    extractor and its choice builder are written differently. *)

Module Part000.

(** The inner function of [findUrls]: [url] starts as [null], becomes
    the field when the field is a string, and else the [url] property of
    the field when the field and that property are truthy. *)
Definition getFromUrlProperty (packageJson : json) (propertyName : string)
  : result jsv :=
  field <- get packageJson propertyName ;;
  url <- match field with
         | Some (JString s) => Ok (Some (JString s))
         | _ =>
             if json_truthy field then
               property <- match field with
                           | Some w => get w "url"
                           | None => Ok None
                           end ;;
               Ok (if json_truthy property then property else Some JNull)
             else Ok (Some JNull)
         end ;;
  if negb (json_truthy url) then Ok VNull
  else match url with
       | Some (JString s) => Ok (VString (Regex.remove_first Re.fragment_or_git s))
       | _ => Throw TypeError
       end.

Definition author_of (packageJson : json) : result jsv :=
  url <- getFromUrlProperty packageJson "author" ;;
  if negb (truthy url) then Ok VNull
  else
    let s := to_string url in
    match Regex.exec Re.parenthesized_http s with
    | Some m => Ok (capture s m 1)
    | None => Ok url
    end.

Definition repository_of (packageJson : json) : result jsv :=
  url <- getFromUrlProperty packageJson "repository" ;;
  if negb (truthy url) then Ok VNull
  else Ok (VString (Regex.remove_first Re.git_plus (to_string url))).

Definition findUrls (packageJson : json) : result (object jsv) :=
  homepage <- getFromUrlProperty packageJson "homepage" ;;
  author <- author_of packageJson ;;
  repository <- repository_of packageJson ;;
  bugs <- getFromUrlProperty packageJson "bugs" ;;
  funding <- getFromUrlProperty packageJson "funding" ;;
  Ok [ ("homepage", homepage); ("author", author);
       ("repository", repository); ("bugs", bugs); ("funding", funding) ].

(** The callback of [Object.keys(urls).forEach] in [makeChoicesUrl]. *)
Definition push_url (choices : list choice) (entry : string * jsv) : list choice :=
  let (key, url) := entry in
  if negb (truthy url) then choices
  else push (to_string url ++ " ... package.json " ++ key) (Url (to_string url)) choices.

Definition makeChoicesUrl (urls : object jsv) (gitHubUrls : inference) : list choice :=
  let choices := [] in
  let choices :=
    if truthy (gitHubRepositoryUrl gitHubUrls) then
      push (to_string (gitHubRepositoryUrl gitHubUrls)
              ++ " ... GitHub Repository Page ("
              ++ to_string (userName gitHubUrls) ++ "/"
              ++ to_string (repositoryName gitHubUrls) ++ ")")
           (Url (to_string (gitHubRepositoryUrl gitHubUrls))) choices
    else choices in
  let choices :=
    if truthy (gitHubUserUrl gitHubUrls) then
      push (to_string (gitHubUserUrl gitHubUrls)
              ++ " ... GitHub User Page ("
              ++ to_string (userName gitHubUrls) ++ ")")
           (Url (to_string (gitHubUserUrl gitHubUrls))) choices
    else choices in
  let choices :=
    if truthy (gitHubPagesUrl gitHubUrls) then
      push (to_string (gitHubPagesUrl gitHubUrls)
              ++ " ... GitHub Pages"
              ++ (if hasGitHubPages gitHubUrls then "" else " (Maybe Not Found)"))
           (Url (to_string (gitHubPagesUrl gitHubUrls))) choices
    else choices in
  let choices := fold_left push_url urls choices in
  if 0 <? length choices then push "Cancel" Cancel choices else choices.

(** The main function up to the prompt. *)
Definition choices_of (packageJson : json) : result (list choice) :=
  urls <- findUrls packageJson ;;
  Ok (makeChoicesUrl urls (detectGitHubUrls urls)).

End Part000.

(** ** Path segments *)

(** One of the characters that end a captured name: [/], [?], [#]. *)
Definition delimiter_char (c : ascii) : bool :=
  Ascii.eqb c "/" || Ascii.eqb c "?" || Ascii.eqb c "#".

Fixpoint no_delimiter (s : string) : bool :=
  match s with
  | EmptyString => true
  | String c s' => negb (delimiter_char c) && no_delimiter s'
  end.

(** A name as it stands in a URL: not empty, on one line, with none of
    the three characters. *)
Definition segment (s : string) : bool :=
  negb (Str.is_empty s) && single_line s && no_delimiter s.

(** What may follow the last name: nothing, or one of the three
    characters and anything after it. *)
Definition delimited (tail : string) : bool :=
  match tail with
  | EmptyString => true
  | String c _ => delimiter_char c
  end.

(** No character of [s] is one of [bad]. *)
Fixpoint none_of (bad : ascii -> bool) (s : string) : bool :=
  match s with
  | EmptyString => true
  | String c s' => negb (bad c) && none_of bad s'
  end.

(** [v] is empty or starts with an ASCII character. *)
Definition ascii_head (v : string) : bool :=
  match v with
  | EmptyString => true
  | String d _ => nat_of_ascii d <? 128
  end.

(** The subdomain of a Pages URL as the statements take it: not empty,
    on one line, without a dot. *)
Definition subdomain (s : string) : bool :=
  negb (Str.is_empty s) && single_line s && negb (Str.includes "." s).

(** * Properties *)

(** ** The extractor on the shapes of a field *)

Lemma getFromUrlProperty_absent (props : object json) (key : string) :
  prop key props = None ->
  getFromUrlProperty (JObject props) key = Ok VNull.
Proof.
  intros H. unfold getFromUrlProperty. cbn [get bind]. now rewrite H.
Qed.

Lemma getFromUrlProperty_string (props : object json) (key s : string) :
  prop key props = Some (JString s) ->
  getFromUrlProperty (JObject props) key = Ok (normalized s).
Proof.
  intros H. unfold getFromUrlProperty, normalized. cbn [get bind]. rewrite H.
  cbn [bind json_truthy]. now destruct s.
Qed.

Lemma getFromUrlProperty_object_url
      (props o : object json) (key s : string) :
  prop key props = Some (JObject o) ->
  prop "url" o = Some (JString s) ->
  getFromUrlProperty (JObject props) key = Ok (normalized s).
Proof.
  intros H Hu. unfold getFromUrlProperty, normalized. cbn [get bind]. rewrite H.
  cbn [get_url_opt get bind]. rewrite Hu. cbn [bind json_truthy]. now destruct s.
Qed.

Lemma author_of_absent (props : object json) :
  prop "author" props = None -> author_of (JObject props) = Ok VNull.
Proof.
  intros H. unfold author_of. now rewrite (getFromUrlProperty_absent _ _ H).
Qed.

Lemma repository_of_absent (props : object json) :
  prop "repository" props = None -> repository_of (JObject props) = Ok VNull.
Proof.
  intros H. unfold repository_of. now rewrite (getFromUrlProperty_absent _ _ H).
Qed.

(** The examples of the specification for the extractor. *)
Example extract_repository_git_plus :
  findUrlsFromPackageJson
    (JObject [("repository", JString "git+https://github.com/acme/widget.git")])
    = Ok [ ("homepage", VNull); ("author", VNull);
           ("repository", VString "https://github.com/acme/widget");
           ("bugs", VNull); ("funding", VNull) ].
Proof. reflexivity. Qed.

Example extract_author_parenthesized :
  author_of (JObject [("author", JString "Jane Doe (https://jane.dev)")])
    = Ok (VString "https://jane.dev").
Proof. reflexivity. Qed.

Example infer_homepage_with_fragment :
  findUrlsFromPackageJson
    (JObject [("homepage", JString "https://github.com/acme/widget#readme")])
    = Ok [ ("homepage", VString "https://github.com/acme/widget"); ("author", VNull);
           ("repository", VNull); ("bugs", VNull); ("funding", VNull) ] /\
  infer (JObject [("homepage", JString "https://github.com/acme/widget#readme")])
    = Ok (mkInference (VString "acme") (VString "widget")
            (VString "https://github.com/acme")
            (VString "https://github.com/acme/widget")
            false (VString "https://acme.github.io/widget")).
Proof. split; reflexivity. Qed.

(** Extraction returns, and does not throw, on every manifest whose
    known fields have a [url] property that is absent, falsy or a
    string. *)
Lemma getFromUrlProperty_returns (props : object json) (key : string) :
  url_is_string_or_falsy (prop key props) = true ->
  exists v, getFromUrlProperty (JObject props) key = Ok v.
Proof.
  unfold getFromUrlProperty, url_is_string_or_falsy. cbn [get bind].
  destruct (prop key props) as [[ | b | x | s | items | o] | ];
    cbn [get_url_opt get bind json_truthy negb]; try (eexists; reflexivity).
  - intros _. destruct (negb (Str.is_empty s)); eexists; reflexivity.
  - destruct (prop "url" o) as [[ | b | x | s | items | o'] | ];
      cbn [bind json_truthy negb]; try (eexists; reflexivity); try discriminate.
    + destruct b; [ discriminate | eexists; reflexivity ].
    + destruct (negb (Qeq_bool x 0)); [ discriminate | eexists; reflexivity ].
    + intros _. destruct (negb (Str.is_empty s)); eexists; reflexivity.
Qed.

Lemma findUrlsFromPackageJson_returns (props : object json) :
  url_is_string_or_falsy (prop "homepage" props) = true ->
  url_is_string_or_falsy (prop "author" props) = true ->
  url_is_string_or_falsy (prop "repository" props) = true ->
  url_is_string_or_falsy (prop "bugs" props) = true ->
  url_is_string_or_falsy (prop "funding" props) = true ->
  exists urls, findUrlsFromPackageJson (JObject props) = Ok urls.
Proof.
  intros Hh Ha Hr Hb Hf.
  destruct (getFromUrlProperty_returns _ _ Hh) as [h Eh].
  destruct (getFromUrlProperty_returns _ _ Ha) as [a Ea].
  destruct (getFromUrlProperty_returns _ _ Hr) as [r Er].
  destruct (getFromUrlProperty_returns _ _ Hb) as [b Eb].
  destruct (getFromUrlProperty_returns _ _ Hf) as [f Ef].
  unfold findUrlsFromPackageJson, author_of, repository_of.
  rewrite Eh, Ea, Er, Eb, Ef. cbn [bind].
  destruct (negb (truthy a)); cbn [bind].
  - destruct (negb (truthy r)); cbn [bind]; eexists; reflexivity.
  - destruct (Regex.exec Re.parenthesized_http (to_string a)); cbn [bind];
      destruct (negb (truthy r)); cbn [bind]; eexists; reflexivity.
Qed.

(** ** C1 *)

(** C1, as stated, fails: for the manifest whose only field is the
    homepage https://acme.github.io/widget/ the inferred Pages URL is not
    the homepage with its trailing slash. *)
Lemma pages_url_of_homepage_keeps_no_trailing_slash :
  ~ exists r : inference,
      infer (JObject [("homepage", JString "https://acme.github.io/widget/")]) = Ok r /\
      userName r = VString "acme" /\
      repositoryName r = VString "widget" /\
      hasGitHubPages r = true /\
      gitHubPagesUrl r = VString "https://acme.github.io/widget/" /\
      gitHubRepositoryUrl r = VString "https://github.com/acme/widget".
Proof.
  intros [r [H [_ [_ [_ [Hp _]]]]]].
  vm_compute in H. injection H as <-. discriminate Hp.
Qed.

(** C1, amended: for every manifest whose only known field is the
    homepage https://acme.github.io/widget/, extraction followed by
    inference yields the user name acme, the repository name widget,
    hasGitHubPages true, the repository URL
    https://github.com/acme/widget, and the Pages URL
    https://acme.github.io/widget, which is the host followed by the
    captured path, without the trailing slash. *)
Theorem infer_homepage_github_pages (props : object json) :
  prop "homepage" props = Some (JString "https://acme.github.io/widget/") ->
  prop "author" props = None ->
  prop "repository" props = None ->
  prop "bugs" props = None ->
  prop "funding" props = None ->
  exists r : inference,
    infer (JObject props) = Ok r /\
    userName r = VString "acme" /\
    repositoryName r = VString "widget" /\
    hasGitHubPages r = true /\
    gitHubPagesUrl r = VString "https://acme.github.io/widget" /\
    gitHubRepositoryUrl r = VString "https://github.com/acme/widget".
Proof.
  intros Hh Ha Hr Hb Hf.
  unfold infer, findUrlsFromPackageJson.
  rewrite (getFromUrlProperty_string _ _ _ Hh), (author_of_absent _ Ha),
    (repository_of_absent _ Hr), (getFromUrlProperty_absent _ _ Hb),
    (getFromUrlProperty_absent _ _ Hf).
  eexists. split; [ reflexivity | ]. vm_compute. repeat split.
Qed.

Lemma infer_homepage_github_pages_witness :
  exists r : inference,
    infer (JObject [ ("name", JString "widget");
                     ("homepage", JString "https://acme.github.io/widget/") ]) = Ok r /\
    userName r = VString "acme" /\
    repositoryName r = VString "widget" /\
    hasGitHubPages r = true /\
    gitHubPagesUrl r = VString "https://acme.github.io/widget" /\
    gitHubRepositoryUrl r = VString "https://github.com/acme/widget".
Proof.
  apply infer_homepage_github_pages; reflexivity.
Defined.

(** ** hasGitHubPages along the scan *)

Lemma scan_github_com_pages (url : string) (st : scan) :
  s_hasGitHubPages (scan_github_com url st) = s_hasGitHubPages st /\
  s_gitHubPagesUrl (scan_github_com url st) = s_gitHubPagesUrl st.
Proof.
  unfold scan_github_com.
  destruct (negb (truthy (s_userName st)));
    [ destruct (Regex.exec Re.user_name url) as [m | ];
      [ destruct (negb (is_empty_string (capture url m 1))) | ] | ];
    cbn;
    match goal with
    | |- context [ if ?b then _ else _ ] => destruct b
    end;
    try (destruct (Regex.exec Re.repository_name url) as [m' | ];
         [ destruct (negb (is_empty_string (capture url m' 2))) | ]);
    split; reflexivity.
Qed.

Lemma scan_github_io_flag (url : string) (st : scan) :
  s_hasGitHubPages (scan_github_io url st) = true.
Proof.
  unfold scan_github_io.
  destruct (Regex.exec Re.github_pages url) as [m | ]; [ | reflexivity ].
  cbv zeta.
  repeat match goal with
         | |- context [ if ?b then _ else _ ] => destruct b
         end; reflexivity.
Qed.

(** The flag is raised by a URL that contains github.io and not
    github.com, and by nothing else. *)
Lemma scan_url_flag (st : scan) (url : jsv) :
  s_hasGitHubPages (scan_url st url) = true ->
  s_hasGitHubPages st = true \/
  exists u, url = VString u /\
            Str.includes "github.io" u = true /\
            Str.includes "github.com" u = false.
Proof.
  unfold scan_url. destruct url as [ | | u]; cbn [truthy negb to_string]; auto.
  destruct (negb (negb (Str.is_empty u))); auto.
  destruct (Str.includes "github.com" u) eqn:C.
  - rewrite (proj1 (scan_github_com_pages u st)). auto.
  - destruct (Str.includes "github.io" u) eqn:I; cbn [andb]; auto.
    intros _. right. exists u. auto.
Qed.

Lemma fold_scan_flag (l : list jsv) : forall st,
  s_hasGitHubPages (fold_left scan_url l st) = true ->
  s_hasGitHubPages st = true \/
  exists u, In (VString u) l /\
            Str.includes "github.io" u = true /\
            Str.includes "github.com" u = false.
Proof.
  induction l as [ | url l IH]; intros st; cbn [fold_left]; auto.
  intros H. destruct (IH _ H) as [F | [u [Hin Hu]]].
  - destruct (scan_url_flag _ _ F) as [F' | [u [-> Hu]]]; auto.
    right. exists u. split; [ now left | exact Hu ].
  - right. exists u. split; [ now right | exact Hu ].
Qed.

(** The part of C2 that the code keeps: hasGitHubPages is true only if
    one of the URLs scanned contains github.io (and not github.com). *)
Lemma hasGitHubPages_observed (urls : object jsv) :
  hasGitHubPages (detectGitHubUrls urls) = true ->
  exists u, In (VString u) (values urls) /\
            Str.includes "github.io" u = true /\
            Str.includes "github.com" u = false.
Proof.
  intros H. destruct (fold_scan_flag _ _ H) as [F | E]; [ discriminate | exact E ].
Qed.

(** ** C2 *)

(** C2, evaluated where the code departs from it.  The homepage
    acme.github.io contains github.io, so the scan sets hasGitHubPages,
    but the Pages expression needs :// before the host and does not
    match: the scan ends with no Pages URL, and the URL returned is the
    one synthesized after the scan from the user and repository names of
    the repository field.  With the homepage alone, hasGitHubPages is
    true and the Pages URL is null. *)
Theorem hasGitHubPages_set_before_pages_match :
  findUrlsFromPackageJson
    (JObject [ ("homepage", JString "acme.github.io");
               ("repository", JString "https://github.com/acme/widget") ])
    = Ok urls_schemeless_pages /\
  s_gitHubPagesUrl (scan_urls urls_schemeless_pages) = VNull /\
  hasGitHubPages (detectGitHubUrls urls_schemeless_pages) = true /\
  gitHubPagesUrl (detectGitHubUrls urls_schemeless_pages)
    = VString "https://acme.github.io/widget" /\
  infer (JObject [("homepage", JString "acme.github.io")])
    = Ok (mkInference VNull VNull VNull VNull true VNull).
Proof. vm_compute. repeat split. Qed.

(** ** C3 *)

(** C3, evaluated where the code departs from it.  [replace] with an
    expression without the g flag removes one match, the leftmost: in a
    value that ends in .git#readme that is the fragment, after which the
    .git suffix stays, in the extracted URL and in the repository name
    inferred from it. *)
Theorem fragment_removed_git_suffix_kept :
  getFromUrlProperty
    (JObject [("homepage", JString "https://github.com/acme/widget.git#readme")])
    "homepage"
    = Ok (VString "https://github.com/acme/widget.git") /\
  findUrlsFromPackageJson
    (JObject [("repository",
               JObject [ ("type", JString "git");
                         ("url", JString "git+https://github.com/acme/widget.git#readme") ])])
    = Ok [ ("homepage", VNull); ("author", VNull);
           ("repository", VString "https://github.com/acme/widget.git");
           ("bugs", VNull); ("funding", VNull) ] /\
  (exists r : inference,
     infer (JObject [("repository",
                      JObject [ ("type", JString "git");
                                ("url", JString "git+https://github.com/acme/widget.git#readme") ])])
       = Ok r /\
     repositoryName r = VString "widget.git").
Proof.
  split; [ reflexivity | ]. split; [ reflexivity | ].
  eexists. split; reflexivity.
Qed.

(** ** C4 *)

(** C4, evaluated where the code departs from it.  A [url] property that
    is a non-zero number, [true], an array or an object is truthy and has
    no [replace] method: the call throws a TypeError, which leaves
    [findUrlsFromPackageJson] and with it the fields already and not yet
    extracted. *)
Theorem extraction_throws_on_non_string_url :
  getFromUrlProperty (JObject [("author", JObject [("url", JNumber 5)])]) "author"
    = Throw TypeError /\
  getFromUrlProperty (JObject [("bugs", JObject [("url", JObject [])])]) "bugs"
    = Throw TypeError /\
  findUrlsFromPackageJson
    (JObject [ ("homepage", JString "https://example.com");
               ("author", JObject [("name", JString "Jane"); ("url", JNumber 5)]);
               ("repository", JString "https://github.com/acme/widget") ])
    = Throw TypeError.
Proof. repeat split. Qed.

(** ** C5 *)

(** C5, as stated, fails: an author given as an object whose url holds a
    parenthesized http URL is not kept as normalized, the parenthesized
    content is taken from it. *)
Lemma author_object_url_is_searched :
  getFromUrlProperty
    (JObject [("author", JObject [("url", JString "Jane Doe (https://jane.dev)")])])
    "author"
    = Ok (VString "Jane Doe (https://jane.dev)") /\
  author_of
    (JObject [("author", JObject [("url", JString "Jane Doe (https://jane.dev)")])])
    = Ok (VString "https://jane.dev") /\
  author_of
    (JObject [("author", JObject [("url", JString "Jane Doe (https://jane.dev)")])])
    <> getFromUrlProperty
         (JObject [("author", JObject [("url", JString "Jane Doe (https://jane.dev)")])])
         "author".
Proof.
  split; [ reflexivity | ]. split; [ reflexivity | ].
  vm_compute. discriminate.
Qed.

(** The amended statement follows the facts on the author field,
    below. *)

(** ** Captures of a match *)

Module RegexFacts.
Import Regex.
#[local] Arguments Str.line_terminator_at : simpl never.

Lemma keeps_refl cs : keeps cs cs.
Proof. intros n H. exact H. Qed.

Lemma keeps_trans cs1 cs2 cs3 : keeps cs1 cs2 -> keeps cs2 cs3 -> keeps cs1 cs3.
Proof. intros H1 H2 n H. apply H2, H1, H. Qed.

Lemma keeps_cons cs c : keeps cs (c :: cs).
Proof.
  intros n H. destruct c as [m se]. cbn. destruct (m =? n); [ discriminate | exact H ].
Qed.

Lemma lazy_any_through k cs p s res :
  lazy_any k cs p s = Some res ->
  exists st1, k st1 = Some res /\ caps st1 = cs.
Proof.
  revert p. induction s as [ | c s IH]; intros p; cbn.
  - destruct (k (mkState p "" cs)) eqn:E; cbn; [ | discriminate ].
    intros [= <-]. eexists. split; [ exact E | reflexivity ].
  - destruct (k (mkState p (String c s) cs)) eqn:E; cbn.
    + intros [= <-]. eexists. split; [ exact E | reflexivity ].
    + destruct (Str.line_terminator_at (String c s)); [ discriminate | apply IH ].
Qed.

Lemma greedy_any_through k cs p s res :
  greedy_any k cs p s = Some res ->
  exists st1, k st1 = Some res /\ caps st1 = cs.
Proof.
  revert p. induction s as [ | c s IH]; intros p; cbn.
  - intros H. eexists. split; [ exact H | reflexivity ].
  - destruct (Str.line_terminator_at (String c s)).
    + intros H. eexists. split; [ exact H | reflexivity ].
    + destruct (greedy_any k cs (S p) s) eqn:E; cbn.
      * intros [= <-]. apply (IH _ E).
      * intros H. eexists. split; [ exact H | reflexivity ].
Qed.

Lemma any_star_through g k st res :
  any_star g k st = Some res ->
  exists st1, k st1 = Some res /\ caps st1 = caps st.
Proof.
  unfold any_star. destruct g; [ apply greedy_any_through | apply lazy_any_through ].
Qed.

(** A match goes through the continuation, and loses no capture on
    the way. *)
Lemma run_through r : forall k st res,
  run r k st = Some res ->
  exists st1, k st1 = Some res /\ keeps (caps st) (caps st1).
Proof.
  induction r as [ s | g | g | | | r1 IH1 r2 IH2 | r1 IH1 r2 IH2 | r1 IH1 | n r1 IH1 ];
    intros k st res; cbn.
  - destruct (prefix s (rest st)); [ | discriminate ].
    intros H. eexists. split; [ exact H | apply keeps_refl ].
  - intros H. destruct (any_star_through _ _ _ _ H) as [st1 [H1 E]].
    exists st1. split; [ exact H1 | rewrite E; apply keeps_refl ].
  - unfold any_one. destruct (rest st) as [ | c s']; [ discriminate | ].
    destruct (Str.line_terminator_at (String c s')); [ discriminate | ].
    intros H. destruct (any_star_through _ _ _ _ H) as [st1 [H1 E]].
    exists st1. split; [ exact H1 | rewrite E; apply keeps_refl ].
  - destruct (pos st =? 0); [ | discriminate ].
    intros H. exists st. split; [ exact H | apply keeps_refl ].
  - destruct (Str.is_empty (rest st)); [ | discriminate ].
    intros H. exists st. split; [ exact H | apply keeps_refl ].
  - intros H. destruct (IH1 _ _ _ H) as [st1 [H1 K1]].
    destruct (IH2 _ _ _ H1) as [st2 [H2 K2]].
    exists st2. split; [ exact H2 | exact (keeps_trans _ _ _ K1 K2) ].
  - destruct (run r1 k st) eqn:E; cbn.
    + intros [= <-]. apply (IH1 _ _ _ E).
    + apply IH2.
  - destruct (run r1 k st) eqn:E; cbn.
    + intros [= <-]. apply (IH1 _ _ _ E).
    + intros H. exists st. split; [ exact H | apply keeps_refl ].
  - intros H. destruct (IH1 _ _ _ H) as [st1 [H1 K1]].
    exists (set_cap n (pos st) st1). split; [ exact H1 | ].
    apply (keeps_trans _ _ _ K1). apply keeps_cons.
Qed.

Lemma run_sets n r : forall k st res,
  sets n r = true ->
  run r k st = Some res ->
  exists st1, k st1 = Some res /\ lookup n (caps st1) <> None.
Proof.
  induction r as [ s | g | g | | | r1 IH1 r2 IH2 | r1 IH1 r2 IH2 | r1 IH1 | m r1 IH1 ];
    intros k st res; cbn; try discriminate.
  - intros S H. apply orb_true_iff in S. destruct S as [S | S].
    + destruct (IH1 _ _ _ S H) as [st1 [H1 L1]].
      destruct (run_through _ _ _ _ H1) as [st2 [H2 K2]].
      exists st2. split; [ exact H2 | apply K2, L1 ].
    + destruct (run_through _ _ _ _ H) as [st1 [H1 _]].
      apply (IH2 _ _ _ S H1).
  - intros S. apply andb_true_iff in S. destruct S as [S1 S2].
    destruct (run r1 k st) eqn:E; cbn.
    + intros [= <-]. apply (IH1 _ _ _ S1 E).
    + apply (IH2 _ _ _ S2).
  - intros S H. destruct (m =? n) eqn:E.
    + destruct (run_through _ _ _ _ H) as [st1 [H1 _]].
      exists (set_cap m (pos st) st1). split; [ exact H1 | ].
      cbn. rewrite E. discriminate.
    + cbn in S. destruct (IH1 _ _ _ S H) as [st1 [H1 L1]].
      exists (set_cap m (pos st) st1). split; [ exact H1 | ].
      cbn. rewrite E. exact L1.
Qed.

Lemma search_from_sets n r s : forall p m,
  sets n r = true ->
  search_from r p s = Some m ->
  lookup n (groups m) <> None.
Proof.
  induction s as [ | c s IH]; intros p m S; cbn.
  - destruct (run r Some (mkState p "" [])) eqn:E; [ | discriminate ].
    intros [= <-]. cbn.
    destruct (run_sets _ _ _ _ _ S E) as [st1 [[= ->] L]]. exact L.
  - destruct (run r Some (mkState p (String c s) [])) eqn:E.
    + intros [= <-]. cbn.
      destruct (run_sets _ _ _ _ _ S E) as [st1 [[= ->] L]]. exact L.
    + apply IH, S.
Qed.

(** An expression anchored at the start matches nowhere else. *)
Lemma search_from_bol r s : forall p,
  search_from (Seq Bol r) (S p) s = None.
Proof.
  induction s as [ | c s IH]; intros p; cbn; [ reflexivity | apply IH ].
Qed.

End RegexFacts.

(** [m[n]] is a string when group [n] takes part in every match. *)
Lemma capture_is_string (r : Regex.t) (s : string) (m : Regex.found) (n : nat) :
  Regex.sets n r = true ->
  Regex.exec r s = Some m ->
  exists g, capture s m n = VString g.
Proof.
  intros S E. unfold capture, Regex.group.
  pose proof (RegexFacts.search_from_sets n r s 0 m S E) as L.
  destruct (Regex.lookup n (Regex.groups m)) as [[i j] | ]; [ | contradiction ].
  eexists. reflexivity.
Qed.

(** ** What the scan can hold *)

Lemma settled_string (s : string) : Str.is_empty s = false -> settled (VString s).
Proof. intros H. right. cbn. now rewrite H. Qed.

Lemma settled_inv (v : jsv) :
  settled v -> v <> VNull -> exists s, v = VString s /\ truthy v = true.
Proof.
  intros [-> | H] N; [ contradiction | ].
  destruct v as [ | | s]; try discriminate. now exists s.
Qed.

Lemma is_empty_app_l (a b : string) :
  Str.is_empty a = false -> Str.is_empty (a ++ b) = false.
Proof. now destruct a. Qed.

Lemma is_empty_app_r (a b : string) :
  Str.is_empty b = false -> Str.is_empty (a ++ b) = false.
Proof. destruct a; [ trivial | reflexivity ]. Qed.

(** A captured group that passed the test [m[n] !== ''] is a non-empty
    string. *)
Lemma capture_settled (r : Regex.t) (s : string) (m : Regex.found) (n : nat) :
  Regex.sets n r = true ->
  Regex.exec r s = Some m ->
  is_empty_string (capture s m n) = false ->
  settled (capture s m n).
Proof.
  intros S E H. destruct (capture_is_string r s m n S E) as [g Hg].
  rewrite Hg in *. now apply settled_string.
Qed.

(** Removing a leading slash leaves something of a string longer than
    one character. *)
Lemma remove_leading_slash_nonempty (s : string) :
  (1 <? String.length s) = true ->
  Str.is_empty (Regex.remove_first Re.leading_slash s) = false.
Proof.
  destruct s as [ | c [ | c' s']]; try discriminate. intros _.
  unfold Regex.remove_first, Regex.exec, Re.leading_slash.
  cbn [Regex.search_from Regex.run Regex.pos Regex.rest Nat.eqb].
  destruct (prefix "/" (String c (String c' s'))); [ reflexivity | ].
  now rewrite RegexFacts.search_from_bol.
Qed.

Lemma scan0_ok : scan_ok scan0.
Proof. split; now left. Qed.

Lemma scan_github_com_ok (url : string) (st : scan) :
  scan_ok st -> scan_ok (scan_github_com url st).
Proof.
  intros [Hu Hr Hp]. unfold scan_github_com.
  set (st1 := if negb (truthy (s_userName st)) then _ else st).
  assert (H1 : scan_ok st1).
  { subst st1. destruct (negb (truthy (s_userName st))); [ | now split ].
    destruct (Regex.exec Re.user_name url) as [m | ] eqn:E; [ | now split ].
    destruct (is_empty_string (capture url m 1)) eqn:N; cbn [negb]; [ now split | ].
    split; cbn; try assumption.
    now apply (capture_settled Re.user_name). }
  destruct H1 as [Hu1 Hr1 Hp1].
  destruct (negb (truthy (s_repositoryName st1))); [ | now split ].
  destruct (Regex.exec Re.repository_name url) as [m | ] eqn:E; [ | now split ].
  destruct (is_empty_string (capture url m 2)) eqn:N; cbn [negb]; [ now split | ].
  split; cbn; try assumption.
  now apply (capture_settled Re.repository_name).
Qed.

Lemma scan_github_io_ok (url : string) (st : scan) :
  scan_ok st -> scan_ok (scan_github_io url st).
Proof.
  intros [Hu Hr Hp]. unfold scan_github_io.
  destruct (Regex.exec Re.github_pages url) as [m | ] eqn:E; [ | now split ].
  set (m1 := capture url m 1). set (m2 := capture url m 2).
  set (st1 := if truthy m1 then _ else with_hasGitHubPages true st).
  assert (H1 : scan_ok st1).
  { subst st1. destruct (truthy m1) eqn:T1; [ | now split ].
    destruct (negb (truthy _)); split; cbn; try assumption;
      try (now apply settled_string); now right. }
  clearbody st1. destruct H1 as [Hu1 Hr1 Hp1].
  destruct (truthy m2 && (1 <? String.length (to_string m2))) eqn:C.
  - apply andb_true_iff in C. destruct C as [T2 L2].
    assert (P : settled (VString (to_string (s_gitHubPagesUrl st1) ++ to_string m2))).
    { apply settled_string, is_empty_app_r.
      destruct m2 as [ | | g]; try discriminate. cbn in *.
      now destruct (Str.is_empty g). }
    destruct (negb (truthy _)); [ destruct (negb (Str.includes "." _)) | ];
      split; cbn; try assumption.
    now apply settled_string, remove_leading_slash_nonempty.
  - destruct (is_nullish m2 || (String.length (to_string m2) =? 1)); [ | now split ].
    destruct (negb (truthy _)); split; cbn; try assumption.
    now apply settled_string, is_empty_app_r.
Qed.

Lemma scan_url_ok (st : scan) (url : jsv) : scan_ok st -> scan_ok (scan_url st url).
Proof.
  intros H. unfold scan_url.
  destruct (negb (truthy url)); [ exact H | ].
  destruct (Str.includes "github.com" (to_string url)).
  - now apply scan_github_com_ok.
  - destruct (_ && _); [ now apply scan_github_io_ok | exact H ].
Qed.

Lemma fold_scan_ok (l : list jsv) : forall st, scan_ok st -> scan_ok (fold_left scan_url l st).
Proof.
  induction l as [ | url l IH]; intros st H; cbn; [ exact H | ].
  apply IH, scan_url_ok, H.
Qed.

Lemma scan_urls_ok (urls : object jsv) : scan_ok (scan_urls urls).
Proof. apply fold_scan_ok, scan0_ok. Qed.

(** ** C6 *)

(** The derived URLs of a scan whose names are settled. *)
Lemma derive_user_url (st : scan) :
  settled (s_userName st) ->
  s_userName st <> VNull ->
  gitHubUserUrl (derive st)
    = VString ("https://github.com/" ++ to_string (s_userName st)).
Proof.
  intros H N. destruct (settled_inv _ H N) as [u [_ T]].
  unfold derive. cbn. now rewrite T.
Qed.

(** The user name of an inference is [null] or a non-empty string, never
    [undefined] and never empty; so are the repository name and, before
    the fallback, the Pages URL. *)
Lemma detectGitHubUrls_settled (urls : object jsv) :
  settled (userName (detectGitHubUrls urls)) /\
  settled (repositoryName (detectGitHubUrls urls)).
Proof.
  destruct (scan_urls_ok urls) as [Hu Hr _]. now split.
Qed.

(** C6: the repository URL of an inference is non-null only if its user
    URL is non-null; and whenever the user name is set and the repository
    name is not, the repository URL is null while the user URL is
    https://github.com/ followed by the user name. *)
Theorem repository_url_only_with_user_url (urls : object jsv) :
  (gitHubRepositoryUrl (detectGitHubUrls urls) <> VNull ->
   gitHubUserUrl (detectGitHubUrls urls) <> VNull) /\
  (userName (detectGitHubUrls urls) <> VNull ->
   repositoryName (detectGitHubUrls urls) = VNull ->
   gitHubRepositoryUrl (detectGitHubUrls urls) = VNull /\
   gitHubUserUrl (detectGitHubUrls urls)
     = VString ("https://github.com/" ++ to_string (userName (detectGitHubUrls urls)))).
Proof.
  unfold detectGitHubUrls. destruct (scan_urls_ok urls) as [Hu _ _].
  set (st := scan_urls urls) in *. split.
  - unfold derive. cbn. destruct (truthy (s_userName st)); cbn.
    + discriminate.
    + intros H. now contradiction H.
  - cbn [userName repositoryName derive]. intros N R. split.
    + unfold derive. cbn. rewrite R. cbn. now rewrite andb_false_r.
    + now apply derive_user_url.
Qed.

Lemma repository_url_only_with_user_url_witness :
  gitHubUserUrl
    (detectGitHubUrls [("repository", VString "https://github.com/acme/widget")])
    <> VNull /\
  (gitHubRepositoryUrl
     (detectGitHubUrls [("homepage", VString "https://github.com/acme")]) = VNull /\
   gitHubUserUrl
     (detectGitHubUrls [("homepage", VString "https://github.com/acme")])
     = VString ("https://github.com/" ++
                to_string (userName
                  (detectGitHubUrls [("homepage", VString "https://github.com/acme")])))).
Proof.
  split.
  - apply (proj1 (repository_url_only_with_user_url
                    [("repository", VString "https://github.com/acme/widget")])).
    vm_compute. discriminate.
  - apply (proj2 (repository_url_only_with_user_url
                    [("homepage", VString "https://github.com/acme")])).
    + vm_compute. discriminate.
    + reflexivity.
Defined.

(** ** C7 *)

(** C7: for every manifest in which homepage, author, repository, bugs
    and funding are all absent, extraction yields the record with all
    five fields null, and the choice list built from it with no remote
    URL is empty: it holds no entry, and no cancel entry. *)
Theorem no_known_field_no_choice (props : object json) :
  prop "homepage" props = None ->
  prop "author" props = None ->
  prop "repository" props = None ->
  prop "bugs" props = None ->
  prop "funding" props = None ->
  findUrlsFromPackageJson (JObject props) = Ok no_urls /\
  makeChoices no_urls (detectGitHubUrls no_urls) = [] /\
  choices_of (JObject props) VNull = Ok [].
Proof.
  intros Hh Ha Hr Hb Hf.
  assert (E : findUrlsFromPackageJson (JObject props) = Ok no_urls).
  { unfold findUrlsFromPackageJson.
    now rewrite (getFromUrlProperty_absent _ _ Hh), (author_of_absent _ Ha),
      (repository_of_absent _ Hr), (getFromUrlProperty_absent _ _ Hb),
      (getFromUrlProperty_absent _ _ Hf). }
  split; [ exact E | ]. split; [ reflexivity | ].
  unfold choices_of. now rewrite E.
Qed.

Lemma no_known_field_no_choice_witness :
  findUrlsFromPackageJson
    (JObject [("name", JString "widget"); ("version", JString "1.0.0")]) = Ok no_urls /\
  makeChoices no_urls (detectGitHubUrls no_urls) = [] /\
  choices_of
    (JObject [("name", JString "widget"); ("version", JString "1.0.0")]) VNull = Ok [].
Proof.
  apply no_known_field_no_choice; reflexivity.
Defined.

(** ** What extraction reads *)

(** Extraction reads the five known fields of the manifest and nothing
    else. *)
Lemma findUrlsFromPackageJson_reads_known_fields (props props' : object json) :
  prop "homepage" props = prop "homepage" props' ->
  prop "author" props = prop "author" props' ->
  prop "repository" props = prop "repository" props' ->
  prop "bugs" props = prop "bugs" props' ->
  prop "funding" props = prop "funding" props' ->
  findUrlsFromPackageJson (JObject props) = findUrlsFromPackageJson (JObject props').
Proof.
  intros Hh Ha Hr Hb Hf.
  unfold findUrlsFromPackageJson, author_of, repository_of, getFromUrlProperty.
  cbn [get]. now rewrite Hh, Ha, Hr, Hb, Hf.
Qed.

(** ** C10 *)

(** C10: the github.com matches for the user name and for the
    repository name are independent.  In the manifest below both URLs
    contain github.com, so that each is scanned by the github.com branch
    and by nothing else.  The user-name expression matches the first
    URL, the homepage, and gives the user name; the repository-name
    expression does not match it.  The repository-name expression
    matches the second URL, the repository field, scanned later, and
    gives the repository name, while the user segment of that URL,
    another name, is not taken.  The repository URL joins the two
    names, which no input URL holds together: the first URL does not
    contain the repository name, nor the second the user name. *)
Theorem names_from_different_urls :
  exists (first second user repo other : string) (urls : object jsv),
    findUrlsFromPackageJson
      (JObject [ ("homepage", JString first); ("repository", JString second) ])
      = Ok urls /\
    values urls = [VString first; VNull; VString second; VNull; VNull] /\
    Str.includes "github.com" first = true /\
    Str.includes "github.com" second = true /\
    scan_url scan0 (VString first) = scan_github_com first scan0 /\
    scan_url (scan_github_com first scan0) (VString second)
      = scan_github_com second (scan_github_com first scan0) /\
    option_map (fun m => capture first m 1) (Regex.exec Re.user_name first)
      = Some (VString user) /\
    Regex.exec Re.repository_name first = None /\
    option_map (fun m => capture second m 1) (Regex.exec Re.user_name second)
      = Some (VString other) /\
    option_map (fun m => capture second m 2) (Regex.exec Re.repository_name second)
      = Some (VString repo) /\
    String.eqb other user = false /\
    scan_github_com first scan0 = mkScan (VString user) VNull false VNull /\
    scan_github_com second (scan_github_com first scan0)
      = mkScan (VString user) (VString repo) false VNull /\
    scan_urls urls = mkScan (VString user) (VString repo) false VNull /\
    userName (detectGitHubUrls urls) = VString user /\
    repositoryName (detectGitHubUrls urls) = VString repo /\
    gitHubRepositoryUrl (detectGitHubUrls urls)
      = VString ("https://github.com/" ++ user ++ "/" ++ repo) /\
    Str.includes repo first = false /\
    Str.includes user second = false /\
    String.eqb first second = false.
Proof.
  exists "https://github.com/acme", "https://github.com/other/widget",
         "acme", "widget", "other".
  eexists. split; [ reflexivity | ].
  vm_compute. repeat split.
Qed.

(** ** C8 *)

Lemma length_number_from (es : list entry) : forall i,
  length (number_from i es) = length es.
Proof.
  induction es as [ | [text v] es IH]; intros i; cbn; [ reflexivity | ].
  now rewrite IH.
Qed.

Lemma number_from_app (a b : list entry) : forall i,
  number_from i (a ++ b)%list = (number_from i a ++ number_from (i + length a) b)%list.
Proof.
  induction a as [ | [text v] a IH]; intros i; cbn.
  - now rewrite Nat.add_0_r.
  - rewrite IH. now rewrite Nat.add_succ_r.
Qed.

Lemma push_number_from (text : string) (v : choice_value) (es : list entry) :
  push text v (number_from 1 es) = number_from 1 (es ++ [(text, v)])%list.
Proof.
  unfold push. rewrite number_from_app, length_number_from. cbn [number_from].
  now rewrite (Nat.add_comm (length es) 1).
Qed.

Lemma push_url_number_from (es : list entry) (field : string * jsv) :
  push_url (number_from 1 es) field
    = number_from 1 (es ++ extracted_entry truthy field)%list.
Proof.
  destruct field as [key url]. unfold push_url, extracted_entry. cbn [fst snd].
  destruct (truthy url); cbn [negb].
  - destruct (String.eqb key "gitRemoteUrl"); apply push_number_from.
  - now rewrite app_nil_r.
Qed.

Lemma fold_push_url_number_from (urls : object jsv) : forall es,
  fold_left push_url urls (number_from 1 es)
    = number_from 1 (es ++ flat_map (extracted_entry truthy) urls)%list.
Proof.
  induction urls as [ | field urls IH]; intros es; cbn [fold_left flat_map].
  - now rewrite app_nil_r.
  - rewrite push_url_number_from, IH. now rewrite <- app_assoc.
Qed.

Lemma cancel_number_from (urls : object jsv) (es : list entry) :
  (if 0 <? length (fold_left push_url urls (number_from 1 es))
   then push "Cancel" Cancel (fold_left push_url urls (number_from 1 es))
   else fold_left push_url urls (number_from 1 es))
    = number_from 1 (with_cancel (es ++ flat_map (extracted_entry truthy) urls)%list).
Proof.
  rewrite fold_push_url_number_from, length_number_from.
  destruct (es ++ flat_map (extracted_entry truthy) urls)%list as [ | e all] eqn:A.
  - reflexivity.
  - cbn [length Nat.ltb Nat.leb with_cancel]. apply push_number_from.
Qed.

Lemma nth_error_number_from (es : list entry) : forall k i c,
  nth_error (number_from k es) i = Some c ->
  exists text, name c = "[" ++ Str.of_nat (k + i) ++ "]  " ++ text.
Proof.
  induction es as [ | [text v] es IH]; intros k i c; cbn.
  - destruct i; discriminate.
  - destruct i as [ | i]; cbn.
    + intros [= <-]. exists text. cbn. now rewrite Nat.add_0_r.
    + intros H. destruct (IH _ _ _ H) as [t Ht]. exists t.
      now rewrite Nat.add_succ_r.
Qed.

(** C8, as stated, fails: an extracted URL can be the empty string, which
    is not null (the homepage #top is normalized to it), and the list
    has no entry for it; here the list is empty where the order stated
    gives an entry and a cancel entry. *)
Lemma empty_extracted_url_is_no_choice :
  findUrlsFromPackageJson (JObject [("homepage", JString "#top")])
    = Ok urls_empty_homepage /\
  makeChoices urls_empty_homepage (detectGitHubUrls urls_empty_homepage) = [] /\
  specified_choices non_null urls_empty_homepage (detectGitHubUrls urls_empty_homepage)
    = [ mkChoice "[1]   ... package.json homepage" (Url "");
        mkChoice "[2]  Cancel" Cancel ] /\
  makeChoices urls_empty_homepage (detectGitHubUrls urls_empty_homepage)
    <> specified_choices non_null urls_empty_homepage (detectGitHubUrls urls_empty_homepage).
Proof.
  vm_compute. repeat split. discriminate.
Qed.

(** C8, amended: for every record of extracted URLs and every inference
    the choice list is, in this order, the inferred repository URL, the
    inferred user URL and the inferred Pages URL, each if present (the
    Pages label ending in (Maybe Not Found) exactly when hasGitHubPages
    is false), then each extracted URL that is neither null nor the
    empty string, in the order of the fields (the git remote URL
    labelled differently from the manifest fields), then a cancel entry
    when there is an entry before it; and the number in each label is
    the place of the entry in the list, counted from 1.  Present, as
    the code tests it, is neither null nor the empty string. *)
Theorem makeChoices_specified (urls : object jsv) (g : inference) :
  makeChoices urls g = specified_choices truthy urls g /\
  (forall (i : nat) (c : choice),
     nth_error (makeChoices urls g) i = Some c ->
     exists text, name c = "[" ++ Str.of_nat (i + 1) ++ "]  " ++ text).
Proof.
  assert (E : makeChoices urls g = specified_choices truthy urls g).
  { unfold makeChoices, specified_choices, inferred_entries. cbv zeta.
    destruct (truthy (gitHubRepositoryUrl g)), (truthy (gitHubUserUrl g)),
      (truthy (gitHubPagesUrl g));
      change (@nil choice) with (number_from 1 []);
      rewrite ?push_number_from; apply cancel_number_from. }
  split; [ exact E | ].
  intros i c H. rewrite E in H. unfold specified_choices in H.
  destruct (nth_error_number_from _ _ _ _ H) as [text Ht].
  exists text. now rewrite Nat.add_comm.
Qed.

Lemma makeChoices_specified_witness :
  nth_error
    (makeChoices [("homepage", VString "https://example.com")]
       (detectGitHubUrls [("homepage", VString "https://example.com")])) 1
    = Some (mkChoice "[2]  Cancel" Cancel) /\
  exists text,
    name (mkChoice "[2]  Cancel" Cancel)
      = "[" ++ Str.of_nat (1 + 1) ++ "]  " ++ text.
Proof.
  split; [ reflexivity | ].
  apply (proj2 (makeChoices_specified
                  [("homepage", VString "https://example.com")]
                  (detectGitHubUrls [("homepage", VString "https://example.com")]))
               1 (mkChoice "[2]  Cancel" Cancel)).
  reflexivity.
Defined.

(** * Further properties of the inferrer *)

(** ** First match wins *)

Ltac split_ifs :=
  repeat match goal with
         | |- context [ if ?b then _ else _ ] => destruct b
         end.

Lemma scan_github_com_keeps (url : string) (st : scan) :
  (truthy (s_userName st) = true ->
   s_userName (scan_github_com url st) = s_userName st) /\
  (truthy (s_repositoryName st) = true ->
   s_repositoryName (scan_github_com url st) = s_repositoryName st).
Proof.
  unfold scan_github_com. split; intros T.
  - rewrite T. cbn [negb].
    destruct (negb (truthy (s_repositoryName st))); [ | reflexivity ].
    destruct (Regex.exec Re.repository_name url) as [m | ]; [ | reflexivity ].
    destruct (negb (is_empty_string (capture url m 2))); reflexivity.
  - destruct (negb (truthy (s_userName st)));
      [ destruct (Regex.exec Re.user_name url) as [m | ];
        [ destruct (negb (is_empty_string (capture url m 1))) | ] | ];
      cbn [s_repositoryName with_userName]; rewrite T; reflexivity.
Qed.

Lemma scan_github_io_keeps (url : string) (st : scan) :
  (truthy (s_userName st) = true ->
   s_userName (scan_github_io url st) = s_userName st) /\
  (truthy (s_repositoryName st) = true ->
   s_repositoryName (scan_github_io url st) = s_repositoryName st).
Proof.
  unfold scan_github_io.
  destruct (Regex.exec Re.github_pages url) as [m | ]; [ | split; reflexivity ].
  cbv zeta. split; intros T.
  - destruct (truthy (capture url m 1));
      cbn [s_userName with_gitHubPagesUrl with_hasGitHubPages];
      rewrite ?T; cbn [negb]; split_ifs; reflexivity.
  - destruct (truthy (capture url m 1));
      cbn [s_userName s_repositoryName with_gitHubPagesUrl with_hasGitHubPages
             with_userName];
      [ destruct (negb (truthy (s_userName st))) | ];
      cbn [s_userName s_repositoryName with_gitHubPagesUrl with_hasGitHubPages
             with_userName];
      rewrite ?T; cbn [negb]; split_ifs; reflexivity.
Qed.

Lemma scan_url_keeps (st : scan) (url : jsv) :
  (truthy (s_userName st) = true ->
   s_userName (scan_url st url) = s_userName st) /\
  (truthy (s_repositoryName st) = true ->
   s_repositoryName (scan_url st url) = s_repositoryName st) /\
  (truthy (s_gitHubPagesUrl st) = true ->
   s_gitHubPagesUrl (scan_url st url) = s_gitHubPagesUrl st).
Proof.
  unfold scan_url.
  destruct (negb (truthy url)); [ repeat split; reflexivity | ].
  destruct (Str.includes "github.com" (to_string url)).
  - destruct (scan_github_com_keeps (to_string url) st) as [Hu Hr].
    repeat split; try assumption.
    intros _. apply (proj2 (scan_github_com_pages (to_string url) st)).
  - destruct (Str.includes "github.io" (to_string url)); cbn [andb];
      [ | repeat split; reflexivity ].
    destruct (truthy (s_gitHubPagesUrl st)) eqn:P; cbn [negb].
    + repeat split; reflexivity.
    + destruct (scan_github_io_keeps (to_string url) st) as [Hu Hr].
      repeat split; try assumption. discriminate.
Qed.

Lemma fold_scan_keeps (l : list jsv) : forall st,
  (truthy (s_userName st) = true ->
   s_userName (fold_left scan_url l st) = s_userName st) /\
  (truthy (s_repositoryName st) = true ->
   s_repositoryName (fold_left scan_url l st) = s_repositoryName st) /\
  (truthy (s_gitHubPagesUrl st) = true ->
   s_gitHubPagesUrl (fold_left scan_url l st) = s_gitHubPagesUrl st).
Proof.
  induction l as [ | url l IH]; intros st; cbn [fold_left].
  - repeat split; reflexivity.
  - destruct (IH (scan_url st url)) as [Iu [Ir Ip]].
    destruct (scan_url_keeps st url) as [Su [Sr Sp]].
    repeat split; intros T.
    + rewrite Iu; rewrite (Su T); [ reflexivity | exact T ].
    + rewrite Ir; rewrite (Sr T); [ reflexivity | exact T ].
    + rewrite Ip; rewrite (Sp T); [ reflexivity | exact T ].
Qed.

Lemma scan_urls_app (urls more : object jsv) :
  scan_urls (urls ++ more)%list = fold_left scan_url (values more) (scan_urls urls).
Proof.
  unfold scan_urls, values. now rewrite map_app, fold_left_app.
Qed.

Lemma settled_truthy (v : jsv) : settled v -> v <> VNull -> truthy v = true.
Proof. intros [-> | T] N; [ contradiction | exact T ]. Qed.

(** First match wins: a user name, a repository name or a Pages URL that
    the scan of some fields has found is not changed by the fields that
    come after them. *)
Theorem first_match_wins (urls more : object jsv) :
  (userName (detectGitHubUrls urls) <> VNull ->
   userName (detectGitHubUrls (urls ++ more)%list)
     = userName (detectGitHubUrls urls)) /\
  (repositoryName (detectGitHubUrls urls) <> VNull ->
   repositoryName (detectGitHubUrls (urls ++ more)%list)
     = repositoryName (detectGitHubUrls urls)) /\
  (s_gitHubPagesUrl (scan_urls urls) <> VNull ->
   gitHubPagesUrl (detectGitHubUrls (urls ++ more)%list)
     = gitHubPagesUrl (detectGitHubUrls urls)).
Proof.
  destruct (scan_urls_ok urls) as [Hu Hr Hp].
  destruct (fold_scan_keeps (values more) (scan_urls urls)) as [Ku [Kr Kp]].
  unfold detectGitHubUrls. rewrite scan_urls_app.
  cbn [userName repositoryName derive].
  split; [ | split ]; intros N.
  - apply Ku, settled_truthy; assumption.
  - apply Kr, settled_truthy; assumption.
  - pose proof (settled_truthy _ Hp N) as T.
    unfold derive. cbn [gitHubPagesUrl]. rewrite (Kp T), T. reflexivity.
Qed.

Lemma first_match_wins_witness :
  userName (detectGitHubUrls
              ([("homepage", VString "https://github.com/acme")]
               ++ [("repository", VString "https://github.com/other/widget")])%list)
    = userName (detectGitHubUrls [("homepage", VString "https://github.com/acme")]) /\
  repositoryName (detectGitHubUrls
                    ([("homepage", VString "https://github.com/acme/widget")]
                     ++ [("repository", VString "https://github.com/other/gadget")])%list)
    = repositoryName (detectGitHubUrls [("homepage", VString "https://github.com/acme/widget")]) /\
  gitHubPagesUrl (detectGitHubUrls
                    ([("homepage", VString "https://acme.github.io/widget/")]
                     ++ [("bugs", VString "https://other.github.io/gadget/")])%list)
    = gitHubPagesUrl (detectGitHubUrls [("homepage", VString "https://acme.github.io/widget/")]).
Proof.
  split; [ | split ].
  - apply (proj1 (first_match_wins
                    [("homepage", VString "https://github.com/acme")]
                    [("repository", VString "https://github.com/other/widget")])).
    vm_compute. discriminate.
  - apply (proj1 (proj2 (first_match_wins
                    [("homepage", VString "https://github.com/acme/widget")]
                    [("repository", VString "https://github.com/other/gadget")]))).
    vm_compute. discriminate.
  - apply (proj2 (proj2 (first_match_wins
                    [("homepage", VString "https://acme.github.io/widget/")]
                    [("bugs", VString "https://other.github.io/gadget/")]))).
    vm_compute. discriminate.
Defined.

(** ** What the scan ignores *)

Lemma scan_url_irrelevant (st : scan) (field : string * jsv) :
  relevant field = false -> scan_url st (snd field) = st.
Proof.
  unfold relevant, scan_url. destruct (truthy (snd field)); cbn [andb negb].
  - intros H. apply orb_false_iff in H. destruct H as [-> ->]. reflexivity.
  - reflexivity.
Qed.

Lemma fold_scan_relevant (urls : object jsv) : forall st,
  fold_left scan_url (values (filter relevant urls)) st
    = fold_left scan_url (values urls) st.
Proof.
  induction urls as [ | field urls IH]; intros st; cbn [filter values map fold_left].
  - reflexivity.
  - destruct (relevant field) eqn:R.
    + cbn [map fold_left]. apply IH.
    + rewrite (scan_url_irrelevant st field R). apply IH.
Qed.

(** The inference looks only at the values that are non-empty strings
    containing github.com or github.io: dropping every other field (the
    null ones, the empty ones, the URLs of other sites) changes nothing,
    and the names of the fields play no part. *)
Theorem detectGitHubUrls_relevant_fields (urls : object jsv) :
  detectGitHubUrls (filter relevant urls) = detectGitHubUrls urls.
Proof.
  unfold detectGitHubUrls, scan_urls. now rewrite fold_scan_relevant.
Qed.

(** From URLs none of which mentions github.com or github.io nothing is
    inferred: every field of the inference is null and hasGitHubPages is
    false. *)
Theorem detectGitHubUrls_no_github (urls : object jsv) :
  forallb (fun field => negb (relevant field)) urls = true ->
  detectGitHubUrls urls = nothing_inferred.
Proof.
  intros H. unfold detectGitHubUrls, scan_urls. rewrite <- fold_scan_relevant.
  replace (filter relevant urls) with (@nil (string * jsv)); [ reflexivity | ].
  induction urls as [ | field urls IH]; [ reflexivity | ].
  cbn [forallb] in H. apply andb_true_iff in H. destruct H as [R H].
  cbn [filter]. destruct (relevant field); [ discriminate | now apply IH ].
Qed.

Lemma detectGitHubUrls_no_github_witness :
  detectGitHubUrls
    [ ("homepage", VString "https://example.com/widget"); ("author", VNull);
      ("repository", VString "https://gitlab.com/acme/widget");
      ("bugs", VString ""); ("funding", VNull) ]
    = nothing_inferred.
Proof.
  apply detectGitHubUrls_no_github. reflexivity.
Defined.

(** ** The derived URLs *)

(** The derived URLs follow the names, in one of three ways: no user
    name, and then no user URL and no repository URL; a user name and no
    repository name, and then the user URL alone; both names, and then
    both URLs, the repository URL being the user URL, a slash and the
    repository name.  The names are null or non-empty strings. *)
Theorem derived_urls_follow_names (urls : object jsv) :
  (userName (detectGitHubUrls urls) = VNull /\
   gitHubUserUrl (detectGitHubUrls urls) = VNull /\
   gitHubRepositoryUrl (detectGitHubUrls urls) = VNull)
  \/
  (exists user : string,
     Str.is_empty user = false /\
     userName (detectGitHubUrls urls) = VString user /\
     gitHubUserUrl (detectGitHubUrls urls) = VString ("https://github.com/" ++ user) /\
     ((repositoryName (detectGitHubUrls urls) = VNull /\
       gitHubRepositoryUrl (detectGitHubUrls urls) = VNull)
      \/
      (exists repository : string,
         Str.is_empty repository = false /\
         repositoryName (detectGitHubUrls urls) = VString repository /\
         gitHubRepositoryUrl (detectGitHubUrls urls)
           = VString ("https://github.com/" ++ user ++ "/" ++ repository)))).
Proof.
  unfold detectGitHubUrls. destruct (scan_urls_ok urls) as [Hu Hr _].
  set (st := scan_urls urls) in *. clearbody st.
  unfold derive. cbn [userName repositoryName gitHubUserUrl gitHubRepositoryUrl].
  destruct Hu as [Eu | Tu].
  - left. rewrite Eu. cbn. auto.
  - right. destruct (s_userName st) as [ | | user]; try discriminate.
    exists user. cbn in Tu. apply negb_true_iff in Tu.
    split; [ exact Tu | ]. split; [ reflexivity | ].
    cbn [truthy to_string]. rewrite Tu. cbn [negb andb].
    split; [ reflexivity | ].
    destruct Hr as [Er | Tr].
    + left. rewrite Er. cbn. auto.
    + right. destruct (s_repositoryName st) as [ | | repository]; try discriminate.
      exists repository. cbn in Tr. apply negb_true_iff in Tr.
      split; [ exact Tr | ]. split; [ reflexivity | ].
      cbn [truthy to_string]. now rewrite Tr.
Qed.

(** ** The Pages URL *)

Lemma scan_url_pages_flag (st : scan) (url : jsv) :
  (s_gitHubPagesUrl st <> VNull -> s_hasGitHubPages st = true) ->
  s_gitHubPagesUrl (scan_url st url) <> VNull ->
  s_hasGitHubPages (scan_url st url) = true.
Proof.
  intros H. unfold scan_url.
  destruct (negb (truthy url)); [ exact H | ].
  destruct (Str.includes "github.com" (to_string url)).
  - destruct (scan_github_com_pages (to_string url) st) as [-> ->]. exact H.
  - destruct (_ && _); [ | exact H ].
    intros _. apply scan_github_io_flag.
Qed.

Lemma fold_scan_pages_flag (l : list jsv) : forall st,
  (s_gitHubPagesUrl st <> VNull -> s_hasGitHubPages st = true) ->
  s_gitHubPagesUrl (fold_left scan_url l st) <> VNull ->
  s_hasGitHubPages (fold_left scan_url l st) = true.
Proof.
  induction l as [ | url l IH]; intros st H; cbn [fold_left]; [ exact H | ].
  apply IH. now apply scan_url_pages_flag.
Qed.

(** A Pages URL found by the scan raises the flag. *)
Lemma observed_pages_url_is_flagged (urls : object jsv) :
  s_gitHubPagesUrl (scan_urls urls) <> VNull ->
  hasGitHubPages (detectGitHubUrls urls) = true.
Proof.
  apply fold_scan_pages_flag. intros N. now contradiction N.
Qed.

(** When hasGitHubPages is false the Pages URL is the guess made from the
    names: https://USER.github.io, followed by /REPOSITORY when a
    repository name is known, or null when no user name is known.  And
    whenever a user name is known there is a Pages URL, found or
    guessed. *)
Theorem pages_url_when_not_observed (urls : object jsv) :
  (hasGitHubPages (detectGitHubUrls urls) = false ->
   gitHubPagesUrl (detectGitHubUrls urls)
     = synthesized_pages_url (userName (detectGitHubUrls urls))
                             (repositoryName (detectGitHubUrls urls))) /\
  (userName (detectGitHubUrls urls) <> VNull ->
   gitHubPagesUrl (detectGitHubUrls urls) <> VNull).
Proof.
  destruct (scan_urls_ok urls) as [Hu Hr Hp].
  pose proof (observed_pages_url_is_flagged urls) as F.
  unfold detectGitHubUrls in *. set (st := scan_urls urls) in *. clearbody st.
  unfold derive in *. cbn [hasGitHubPages gitHubPagesUrl userName repositoryName] in *.
  unfold synthesized_pages_url. split.
  - intros N. destruct Hp as [Ep | Tp].
    + rewrite Ep. cbn [truthy negb andb].
      destruct (truthy (s_userName st)); [ | reflexivity ].
      destruct (truthy (s_repositoryName st)); reflexivity.
    + rewrite F in N; [ discriminate | ].
      intros E. rewrite E in Tp. discriminate.
  - intros N. pose proof (settled_truthy _ Hu N) as T. rewrite T.
    destruct Hp as [Ep | Tp].
    + rewrite Ep. cbn [truthy negb andb].
      destruct (truthy (s_repositoryName st)); discriminate.
    + rewrite Tp. cbn [negb andb]. intros E. rewrite E in Tp. discriminate.
Qed.

Lemma pages_url_when_not_observed_witness :
  gitHubPagesUrl (detectGitHubUrls [("repository", VString "https://github.com/acme/widget")])
    = synthesized_pages_url
        (userName (detectGitHubUrls [("repository", VString "https://github.com/acme/widget")]))
        (repositoryName (detectGitHubUrls [("repository", VString "https://github.com/acme/widget")])) /\
  gitHubPagesUrl (detectGitHubUrls [("repository", VString "https://github.com/acme/widget")])
    <> VNull.
Proof.
  split.
  - apply (proj1 (pages_url_when_not_observed
                    [("repository", VString "https://github.com/acme/widget")])).
    reflexivity.
  - apply (proj2 (pages_url_when_not_observed
                    [("repository", VString "https://github.com/acme/widget")])).
    vm_compute. discriminate.
Defined.

Lemma hasGitHubPages_observed_witness :
  exists u, In (VString u) (values [("homepage", VString "https://acme.github.io/widget/")]) /\
            Str.includes "github.io" u = true /\
            Str.includes "github.com" u = false.
Proof.
  apply hasGitHubPages_observed. reflexivity.
Defined.

(** A URL that contains github.com is read as a github.com URL even when
    it contains github.io as well: it neither raises hasGitHubPages nor
    gives a Pages URL. *)
Theorem github_com_url_is_no_pages_url (st : scan) (url : string) :
  Str.includes "github.com" url = true ->
  s_hasGitHubPages (scan_url st (VString url)) = s_hasGitHubPages st /\
  s_gitHubPagesUrl (scan_url st (VString url)) = s_gitHubPagesUrl st.
Proof.
  intros C. unfold scan_url. cbn [to_string].
  destruct (negb (truthy (VString url))); [ split; reflexivity | ].
  rewrite C. apply scan_github_com_pages.
Qed.

Lemma github_com_url_is_no_pages_url_witness :
  s_hasGitHubPages (scan_url scan0 (VString "https://github.com/acme/acme.github.io"))
    = s_hasGitHubPages scan0 /\
  s_gitHubPagesUrl (scan_url scan0 (VString "https://github.com/acme/acme.github.io"))
    = s_gitHubPagesUrl scan0.
Proof.
  apply github_com_url_is_no_pages_url. reflexivity.
Defined.

(** * Further properties of the extractor *)

(** ** Strings *)

Lemma append_nil_r (s : string) : s ++ "" = s.
Proof. induction s as [ | c s IH]; cbn; [ reflexivity | now rewrite IH ]. Qed.

Lemma append_assoc (a b c : string) : (a ++ b) ++ c = a ++ b ++ c.
Proof. induction a as [ | x a IH]; cbn; [ reflexivity | now rewrite IH ]. Qed.

Lemma length_append (a b : string) :
  String.length (a ++ b) = String.length a + String.length b.
Proof. induction a as [ | x a IH]; cbn; [ reflexivity | now rewrite IH ]. Qed.

Lemma take_append (t x : string) : Str.take (String.length t) (t ++ x) = t.
Proof. induction t as [ | c t IH]; cbn; [ now destruct x | now rewrite IH ]. Qed.

Lemma drop_append (t x : string) (n : nat) :
  Str.drop (String.length t + n) (t ++ x) = Str.drop n x.
Proof. induction t as [ | c t IH]; cbn; [ reflexivity | exact IH ]. Qed.

Lemma drop_first_line (s : string) :
  Str.drop (String.length (first_line s)) s = line_rest s.
Proof.
  induction s as [ | c s IH]; [ reflexivity | ].
  cbn [first_line line_rest].
  destruct (Str.line_terminator_at (String c s)); [ reflexivity | exact IH ].
Qed.

Lemma prefix_nil (s : string) : prefix "" s = true.
Proof. now destruct s. Qed.

Lemma prefix_one (a c : ascii) (x y : string) :
  prefix (String a "") (String c x) = prefix (String a "") (String c y).
Proof.
  cbn [prefix]. destruct (ascii_dec a c); [ now destruct x, y | reflexivity ].
Qed.

Lemma prefix_exact (u s : string) :
  prefix u s = true -> Str.is_empty (Str.drop (String.length u) s) = true -> s = u.
Proof.
  revert s. induction u as [ | a u IH]; intros s; cbn [String.length Str.drop].
  - now destruct s.
  - destruct s as [ | c s]; cbn [prefix Str.drop]; [ discriminate | ].
    destruct (ascii_dec a c) as [-> | ]; [ | discriminate ].
    intros P E. now rewrite (IH s P E).
Qed.

Lemma includes_one_cons (a c : ascii) (x : string) :
  Str.includes (String a "") (String c x) = false ->
  (forall y, prefix (String a "") (String c y) = false) /\
  Str.includes (String a "") x = false.
Proof.
  cbn [Str.includes]. intros H. apply orb_false_iff in H. destruct H as [P I].
  split; [ | exact I ]. intros y. now rewrite (prefix_one a c y x).
Qed.

Lemma includes_one_append (a : ascii) (t x : string) :
  Str.includes (String a "") (t ++ String a x) = true.
Proof.
  induction t as [ | c t IH]; cbn [append Str.includes].
  - cbn [prefix]. destruct (ascii_dec a a); [ now destruct x | contradiction ].
  - rewrite IH. apply orb_true_r.
Qed.

(** ** The expressions of the extractor, computed *)

Lemma greedy_any_some (g : Regex.state -> Regex.state)
      (cs : list (nat * (nat * nat))) (s : string) : forall p,
  Regex.greedy_any (fun st => Some (g st)) cs p s
    = Some (g (Regex.mkState (p + String.length (first_line s)) (line_rest s) cs)).
Proof.
  induction s as [ | c s IH]; intros p; cbn [Regex.greedy_any first_line line_rest].
  - cbn. now rewrite Nat.add_0_r.
  - destruct (Str.line_terminator_at (String c s)).
    + cbn. now rewrite Nat.add_0_r.
    + rewrite IH. cbn. now rewrite Nat.add_succ_r.
Qed.

Lemma run_fragment_or_git (p : nat) (s : string) :
  Regex.run Re.fragment_or_git Some (Regex.mkState p s [])
    = if prefix "#" s then
        Some (Regex.mkState
                (p + 1 + String.length (first_line (Str.drop 1 s)))
                (line_rest (Str.drop 1 s))
                [(1, (p, p + 1 + String.length (first_line (Str.drop 1 s))))])
      else if prefix ".git" s && Str.is_empty (Str.drop 4 s) then
        Some (Regex.mkState (p + 4) (Str.drop 4 s) [(1, (p, p + 4))])
      else None.
Proof.
  unfold Re.fragment_or_git.
  cbn [Regex.run Regex.pos Regex.rest Regex.caps Regex.any_star String.length].
  destruct (prefix "#" s).
  - rewrite greedy_any_some. reflexivity.
  - cbn [Regex.orelse]. destruct (prefix ".git" s); [ | reflexivity ].
    cbn [andb]. destruct (Str.is_empty (Str.drop 4 s)); reflexivity.
Qed.

(** No [#] and no [.git] at the end: the expression matches nowhere. *)
Lemma search_fragment_or_git_none (s : string) : forall p,
  Str.includes "#" s = false ->
  ends_with ".git" s = false ->
  Regex.search_from Re.fragment_or_git p s = None.
Proof.
  induction s as [ | c s IH]; intros p I E; cbn [Regex.search_from];
    rewrite run_fragment_or_git.
  - reflexivity.
  - destruct (includes_one_cons _ _ _ I) as [P I'].
    rewrite (P s).
    cbn [ends_with] in E. apply orb_false_iff in E. destruct E as [E E'].
    destruct (prefix ".git" (String c s) && _) eqn:G.
    + apply andb_true_iff in G. destruct G as [G1 G2].
      rewrite (prefix_exact ".git" _ G1 G2) in E. discriminate.
    + now apply IH.
Qed.

(** No [#] before a final [.git]: the first match is that suffix. *)
Lemma search_fragment_or_git_suffix (t : string) : forall p,
  Str.includes "#" t = false ->
  Regex.search_from Re.fragment_or_git p (t ++ ".git")
    = Some (Regex.mkFound (p + String.length t) (p + String.length t + 4)
              [(1, (p + String.length t, p + String.length t + 4))]).
Proof.
  induction t as [ | c t IH]; intros p I; cbn [append Regex.search_from];
    rewrite run_fragment_or_git.
  - cbn. now rewrite Nat.add_0_r.
  - destruct (includes_one_cons _ _ _ I) as [P I'].
    rewrite (P (t ++ ".git")).
    destruct (prefix ".git" (String c (t ++ ".git")) && _) eqn:G.
    + apply andb_true_iff in G. destruct G as [G1 G2].
      pose proof (f_equal String.length (prefix_exact ".git" _ G1 G2)) as L.
      cbn [String.length] in L. rewrite length_append in L. cbn in L. lia.
    + rewrite (IH (S p) I'). cbn [String.length].
      now rewrite !Nat.add_succ_r.
Qed.

(** No [#] before the first one: the first match is the fragment, up to
    the end of its line. *)
Lemma search_fragment_or_git_fragment (t f : string) : forall p,
  Str.includes "#" t = false ->
  Regex.search_from Re.fragment_or_git p (t ++ "#" ++ f)
    = Some (Regex.mkFound (p + String.length t)
              (p + String.length t + 1 + String.length (first_line f))
              [(1, (p + String.length t,
                    p + String.length t + 1 + String.length (first_line f)))]).
Proof.
  induction t as [ | c t IH]; intros p I; cbn [append Regex.search_from];
    rewrite run_fragment_or_git.
  - cbn. rewrite prefix_nil. now rewrite Nat.add_0_r.
  - destruct (includes_one_cons _ _ _ I) as [P I'].
    rewrite (P (t ++ String "#" f)).
    destruct (prefix ".git" (String c (t ++ String "#" f)) && _) eqn:G.
    + apply andb_true_iff in G. destruct G as [G1 G2].
      pose proof (prefix_exact ".git" _ G1 G2) as X.
      injection X as _ X.
      pose proof (includes_one_append "#" t f) as Y. rewrite X in Y. discriminate.
    + pose proof (IH (S p) I') as H. cbn [append] in H. rewrite H.
      cbn [String.length]. now rewrite !Nat.add_succ_r.
Qed.

Lemma remove_fragment_or_git_none (s : string) :
  Str.includes "#" s = false ->
  ends_with ".git" s = false ->
  Regex.remove_first Re.fragment_or_git s = s.
Proof.
  intros I E. unfold Regex.remove_first, Regex.exec.
  now rewrite search_fragment_or_git_none.
Qed.

Lemma remove_fragment_or_git_suffix (t : string) :
  Str.includes "#" t = false ->
  Regex.remove_first Re.fragment_or_git (t ++ ".git") = t.
Proof.
  intros I. unfold Regex.remove_first, Regex.exec.
  rewrite search_fragment_or_git_suffix by exact I.
  cbn [Regex.start Regex.stop Nat.add].
  rewrite take_append, drop_append. cbn. apply append_nil_r.
Qed.

Lemma remove_fragment_or_git_fragment (t f : string) :
  Str.includes "#" t = false ->
  Regex.remove_first Re.fragment_or_git (t ++ "#" ++ f) = t ++ line_rest f.
Proof.
  intros I. unfold Regex.remove_first, Regex.exec.
  rewrite search_fragment_or_git_fragment by exact I.
  cbn [Regex.start Regex.stop Nat.add].
  rewrite take_append, <- Nat.add_assoc, drop_append.
  cbn [Nat.add Str.drop append]. now rewrite drop_first_line.
Qed.

(** ** Normalization of a field *)

Lemma getFromUrlProperty_holds (props : object json) (key s : string) :
  holds_string (prop key props) s ->
  getFromUrlProperty (JObject props) key = Ok (normalized s).
Proof.
  intros [H | [o [H Hu]]].
  - now apply getFromUrlProperty_string.
  - now apply (getFromUrlProperty_object_url props o).
Qed.

(** The homepage, the bugs and the funding field of the record are what
    [getFromUrlProperty] returns for them. *)
Lemma findUrlsFromPackageJson_plain_field
      (packageJson : json) (urls : object jsv) (key : string) (v : jsv) :
  In key plain_fields ->
  findUrlsFromPackageJson packageJson = Ok urls ->
  getFromUrlProperty packageJson key = Ok v ->
  prop key urls = Some v.
Proof.
  unfold findUrlsFromPackageJson. intros K.
  destruct (getFromUrlProperty packageJson "homepage") as [h | ] eqn:Eh;
    cbn [bind]; [ | discriminate ].
  destruct (author_of packageJson) as [a | ]; cbn [bind]; [ | discriminate ].
  destruct (repository_of packageJson) as [r | ]; cbn [bind]; [ | discriminate ].
  destruct (getFromUrlProperty packageJson "bugs") as [b | ] eqn:Eb;
    cbn [bind]; [ | discriminate ].
  destruct (getFromUrlProperty packageJson "funding") as [f | ] eqn:Ef;
    cbn [bind]; [ | discriminate ].
  intros [= <-] G.
  destruct K as [<- | [<- | [<- | []]]]; rewrite G in *; cbn; congruence.
Qed.

Lemma normalized_kept (s : string) :
  Str.is_empty s = false ->
  Str.includes "#" s = false ->
  ends_with ".git" s = false ->
  normalized s = VString s.
Proof.
  intros N I E. unfold normalized. rewrite N.
  now rewrite remove_fragment_or_git_none.
Qed.

Lemma normalized_fragment (t f : string) :
  Str.includes "#" t = false ->
  normalized (t ++ "#" ++ f) = VString (t ++ line_rest f).
Proof.
  intros I. unfold normalized. rewrite is_empty_app_r by reflexivity.
  now rewrite remove_fragment_or_git_fragment.
Qed.

(** What the generic normalization of a field, [getFromUrlProperty],
    returns for a field, given as a string or as the url of an object,
    that is not empty, holds no [#] and does not end in [.git]: the
    field as it is.  So the homepage, the bugs and the funding field of
    the record that extraction returns, which are stored as returned,
    hold the field unchanged.  (The author and the repository are
    processed further.) *)
Theorem field_without_suffix_is_kept (props : object json) (key s : string) :
  holds_string (prop key props) s ->
  Str.is_empty s = false ->
  Str.includes "#" s = false ->
  ends_with ".git" s = false ->
  getFromUrlProperty (JObject props) key = Ok (VString s) /\
  (In key plain_fields ->
   forall urls : object jsv,
     findUrlsFromPackageJson (JObject props) = Ok urls ->
     prop key urls = Some (VString s)).
Proof.
  intros H N I E.
  assert (G : getFromUrlProperty (JObject props) key = Ok (VString s)).
  { rewrite (getFromUrlProperty_holds _ _ _ H). now rewrite normalized_kept. }
  split; [ exact G | ].
  intros K urls F. exact (findUrlsFromPackageJson_plain_field _ _ _ _ K F G).
Qed.

Lemma field_without_suffix_is_kept_witness :
  getFromUrlProperty
    (JObject [("bugs", JObject [("url", JString "https://github.com/acme/widget/issues")])])
    "bugs"
    = Ok (VString "https://github.com/acme/widget/issues") /\
  prop "bugs"
       [ ("homepage", VNull); ("author", VNull); ("repository", VNull);
         ("bugs", VString "https://github.com/acme/widget/issues");
         ("funding", VNull) ]
    = Some (VString "https://github.com/acme/widget/issues").
Proof.
  destruct (field_without_suffix_is_kept
              [("bugs", JObject [("url", JString "https://github.com/acme/widget/issues")])]
              "bugs" "https://github.com/acme/widget/issues"
              (or_intror (ex_intro _ _ (conj eq_refl eq_refl)))
              eq_refl eq_refl eq_refl) as [G R].
  split; [ exact G | ].
  apply R; [ right; left; reflexivity | reflexivity ].
Defined.

Lemma field_git_suffix_is_stripped_aux (props : object json) (key t : string) :
  holds_string (prop key props) (t ++ ".git") ->
  Str.includes "#" t = false ->
  getFromUrlProperty (JObject props) key = Ok (VString t).
Proof.
  intros H I. rewrite (getFromUrlProperty_holds _ _ _ H).
  unfold normalized. rewrite is_empty_app_r by reflexivity.
  now rewrite remove_fragment_or_git_suffix.
Qed.

(** What the generic normalization of a field, [getFromUrlProperty],
    returns for a field that ends in [.git] and holds no [#]: the field
    without that suffix; one suffix is removed, and what is left may be
    the empty string.  So the homepage, the bugs and the funding field
    of the record that extraction returns hold the field without the
    suffix.  (The author and the repository are processed further.) *)
Theorem field_git_suffix_is_stripped (props : object json) (key t : string) :
  holds_string (prop key props) (t ++ ".git") ->
  Str.includes "#" t = false ->
  getFromUrlProperty (JObject props) key = Ok (VString t) /\
  (In key plain_fields ->
   forall urls : object jsv,
     findUrlsFromPackageJson (JObject props) = Ok urls ->
     prop key urls = Some (VString t)).
Proof.
  intros H I.
  pose proof (field_git_suffix_is_stripped_aux props key t H I) as G.
  split; [ exact G | ].
  intros K urls F. exact (findUrlsFromPackageJson_plain_field _ _ _ _ K F G).
Qed.

Lemma field_git_suffix_is_stripped_witness :
  getFromUrlProperty
    (JObject [("homepage", JString ("https://github.com/acme/widget" ++ ".git"))])
    "homepage"
    = Ok (VString "https://github.com/acme/widget") /\
  prop "homepage"
       [ ("homepage", VString "https://github.com/acme/widget");
         ("author", VNull); ("repository", VNull); ("bugs", VNull);
         ("funding", VNull) ]
    = Some (VString "https://github.com/acme/widget").
Proof.
  destruct (field_git_suffix_is_stripped
              [("homepage", JString ("https://github.com/acme/widget" ++ ".git"))]
              "homepage" "https://github.com/acme/widget"
              (or_introl eq_refl) eq_refl) as [G R].
  split; [ exact G | ].
  apply R; [ left; reflexivity | reflexivity ].
Defined.

(** What the generic normalization of a field, [getFromUrlProperty],
    returns for a field with a [#]: the field up to its first [#]; what
    is removed goes from there to the end of the line, so that
    everything after is removed when the fragment holds no line
    terminator.  The normalization removes nothing else, not a [.git]
    before the [#] either.  So the homepage, the bugs and the funding
    field of the record that extraction returns hold the field up to
    its first [#].  (The author and the repository are processed
    further.) *)
Theorem field_fragment_is_stripped (props : object json) (key t f : string) :
  holds_string (prop key props) (t ++ "#" ++ f) ->
  Str.includes "#" t = false ->
  getFromUrlProperty (JObject props) key = Ok (VString (t ++ line_rest f)) /\
  (single_line f = true ->
   getFromUrlProperty (JObject props) key = Ok (VString t)) /\
  (In key plain_fields ->
   forall urls : object jsv,
     findUrlsFromPackageJson (JObject props) = Ok urls ->
     prop key urls = Some (VString (t ++ line_rest f)) /\
     (single_line f = true -> prop key urls = Some (VString t))).
Proof.
  intros H I.
  assert (G : getFromUrlProperty (JObject props) key = Ok (VString (t ++ line_rest f))).
  { rewrite (getFromUrlProperty_holds _ _ _ H). now rewrite normalized_fragment. }
  assert (L : single_line f = true -> t ++ line_rest f = t).
  { unfold single_line. intros L. destruct (line_rest f); [ | discriminate ].
    apply append_nil_r. }
  split; [ exact G | ]. split.
  - intros S1. now rewrite (L S1) in G.
  - intros K urls F.
    pose proof (findUrlsFromPackageJson_plain_field _ _ _ _ K F G) as R.
    split; [ exact R | ].
    intros S1. now rewrite (L S1) in R.
Qed.

Lemma field_fragment_is_stripped_witness :
  getFromUrlProperty
    (JObject [("homepage", JString ("https://github.com/acme/widget.git" ++ "#" ++ "readme"))])
    "homepage"
    = Ok (VString "https://github.com/acme/widget.git") /\
  prop "homepage"
       [ ("homepage", VString "https://github.com/acme/widget.git");
         ("author", VNull); ("repository", VNull); ("bugs", VNull);
         ("funding", VNull) ]
    = Some (VString "https://github.com/acme/widget.git").
Proof.
  destruct (field_fragment_is_stripped
              [("homepage", JString ("https://github.com/acme/widget.git" ++ "#" ++ "readme"))]
              "homepage" "https://github.com/acme/widget.git" "readme"
              (or_introl eq_refl) eq_refl) as [_ [G R]].
  split; [ exact (G eq_refl) | ].
  apply (R (or_introl eq_refl)); reflexivity.
Defined.

(** ** The repository field *)

Lemma remove_git_plus (s : string) :
  Regex.remove_first Re.git_plus s = if prefix "git+" s then Str.drop 4 s else s.
Proof.
  unfold Regex.remove_first, Regex.exec, Re.git_plus.
  destruct s as [ | c s].
  - reflexivity.
  - cbn [Regex.search_from Regex.run Regex.pos Regex.rest Regex.caps Nat.eqb].
    destruct (prefix "git+" (String c s)).
    + reflexivity.
    + now rewrite RegexFacts.search_from_bol.
Qed.

(** The repository given as git+ followed by a URL and .git, with no [#]
    in it, is extracted as the URL alone; so is it when the field is an
    object whose url is that string. *)
Theorem repository_git_plus_and_suffix_stripped (props : object json) (t : string) :
  holds_string (prop "repository" props) ("git+" ++ t ++ ".git") ->
  Str.includes "#" t = false ->
  repository_of (JObject props) = Ok (VString t).
Proof.
  intros H I. unfold repository_of.
  rewrite (field_git_suffix_is_stripped_aux props "repository" ("git+" ++ t) H).
  - cbn [bind truthy Str.is_empty append negb to_string].
    rewrite remove_git_plus. cbn. now rewrite prefix_nil.
  - cbn. exact I.
Qed.

Lemma repository_git_plus_and_suffix_stripped_witness :
  repository_of
    (JObject [("repository",
               JObject [ ("type", JString "git");
                         ("url", JString ("git+" ++ "https://github.com/acme/widget" ++ ".git")) ])])
    = Ok (VString "https://github.com/acme/widget").
Proof.
  apply repository_git_plus_and_suffix_stripped; [ | reflexivity ].
  right. eexists. split; reflexivity.
Defined.

(** ** When extraction throws *)

Lemma getFromUrlProperty_is_ok (props : object json) (key : string) :
  is_ok (getFromUrlProperty (JObject props) key)
    = url_is_string_or_falsy (prop key props).
Proof.
  unfold getFromUrlProperty, url_is_string_or_falsy. cbn [get bind].
  destruct (prop key props) as [[ | b | x | s | items | o] | ];
    cbn [get_url_opt get bind json_truthy negb is_ok]; try reflexivity.
  - now destruct (negb (Str.is_empty s)).
  - destruct (prop "url" o) as [[ | b | x | s | items | o'] | ];
      cbn [bind json_truthy negb is_ok]; try reflexivity.
    + now destruct b.
    + now destruct (negb (Qeq_bool x 0)).
    + now destruct (negb (Str.is_empty s)).
Qed.

Lemma author_of_is_ok (pj : json) :
  is_ok (author_of pj) = is_ok (getFromUrlProperty pj "author").
Proof.
  unfold author_of. destruct (getFromUrlProperty pj "author") as [url | e];
    cbn [bind is_ok]; [ | reflexivity ].
  destruct (negb (truthy url)); [ reflexivity | ].
  now destruct (Regex.exec Re.parenthesized_http (to_string url)).
Qed.

Lemma repository_of_is_ok (pj : json) :
  is_ok (repository_of pj) = is_ok (getFromUrlProperty pj "repository").
Proof.
  unfold repository_of. destruct (getFromUrlProperty pj "repository") as [url | e];
    cbn [bind is_ok]; [ | reflexivity ].
  now destruct (negb (truthy url)).
Qed.

(** Extraction returns a record exactly when, in each of the five known
    fields that is an object, the url property is absent, falsy or a
    string; one field with any other url (a non-zero number, true, an
    array, an object) makes the whole extraction throw. *)
Theorem extraction_returns_iff_urls_are_strings (props : object json) :
  is_ok (findUrlsFromPackageJson (JObject props))
    = forallb (fun key => url_is_string_or_falsy (prop key props)) known_fields.
Proof.
  cbn [forallb known_fields]. rewrite <- !getFromUrlProperty_is_ok.
  rewrite <- author_of_is_ok, <- repository_of_is_ok.
  unfold findUrlsFromPackageJson.
  destruct (getFromUrlProperty (JObject props) "homepage"); cbn [bind is_ok andb];
    [ | reflexivity ].
  destruct (author_of (JObject props)); cbn [bind is_ok andb]; [ | reflexivity ].
  destruct (repository_of (JObject props)); cbn [bind is_ok andb]; [ | reflexivity ].
  destruct (getFromUrlProperty (JObject props) "bugs"); cbn [bind is_ok andb];
    [ | reflexivity ].
  destruct (getFromUrlProperty (JObject props) "funding"); reflexivity.
Qed.

(** ** The record that extraction returns *)

Lemma getFromUrlProperty_defined (pj : json) (key : string) (v : jsv) :
  getFromUrlProperty pj key = Ok v -> v <> VUndefined.
Proof.
  unfold getFromUrlProperty.
  destruct (get pj key) as [field | e]; cbn [bind]; [ | discriminate ].
  destruct (match field with
            | Some (JString s) => Ok (Some (JString s))
            | _ => get_url_opt field
            end) as [url | e]; cbn [bind]; [ | discriminate ].
  destruct (negb (json_truthy url)); [ intros [= <-]; discriminate | ].
  destruct url as [[ | b | x | s | items | o] | ]; try discriminate.
  intros [= <-]. discriminate.
Qed.

Lemma author_of_defined (pj : json) (v : jsv) :
  author_of pj = Ok v -> v <> VUndefined.
Proof.
  unfold author_of.
  destruct (getFromUrlProperty pj "author") as [url | e] eqn:E; cbn [bind];
    [ | discriminate ].
  destruct (negb (truthy url)); [ intros [= <-]; discriminate | ].
  destruct (Regex.exec Re.parenthesized_http (to_string url)) as [m | ] eqn:M.
  - intros [= <-].
    destruct (capture_is_string Re.parenthesized_http _ _ 1 eq_refl M) as [g ->].
    discriminate.
  - intros [= <-]. apply (getFromUrlProperty_defined _ _ _ E).
Qed.

Lemma repository_of_defined (pj : json) (v : jsv) :
  repository_of pj = Ok v -> v <> VUndefined.
Proof.
  unfold repository_of.
  destruct (getFromUrlProperty pj "repository") as [url | e]; cbn [bind];
    [ | discriminate ].
  destruct (negb (truthy url)); intros [= <-]; discriminate.
Qed.

Lemma findUrlsFromPackageJson_shape (packageJson : json) (urls : object jsv) :
  findUrlsFromPackageJson packageJson = Ok urls ->
  map fst urls = known_fields /\
  Forall (fun v => v <> VUndefined) (values urls).
Proof.
  unfold findUrlsFromPackageJson.
  destruct (getFromUrlProperty packageJson "homepage") as [h | ] eqn:Eh;
    cbn [bind]; [ | discriminate ].
  destruct (author_of packageJson) as [a | ] eqn:Ea; cbn [bind]; [ | discriminate ].
  destruct (repository_of packageJson) as [r | ] eqn:Er; cbn [bind]; [ | discriminate ].
  destruct (getFromUrlProperty packageJson "bugs") as [b | ] eqn:Eb;
    cbn [bind]; [ | discriminate ].
  destruct (getFromUrlProperty packageJson "funding") as [f | ] eqn:Ef;
    cbn [bind]; [ | discriminate ].
  intros [= <-]. split; [ reflexivity | ].
  cbn [values map snd].
  repeat constructor;
    eauto using getFromUrlProperty_defined, author_of_defined, repository_of_defined.
Qed.

(** Whatever the manifest, a record that extraction returns has the five
    known fields and no other, in the order homepage, author, repository,
    bugs, funding, and each of its values is null or a string, never
    undefined. *)
Theorem extracted_record_shape (packageJson : json) (urls : object jsv) :
  findUrlsFromPackageJson packageJson = Ok urls ->
  map fst urls = known_fields /\
  Forall (fun v => v <> VUndefined) (values urls).
Proof. apply findUrlsFromPackageJson_shape. Qed.

Lemma extracted_record_shape_witness :
  map fst [ ("homepage", VString "https://example.com"); ("author", VString "https://jane.dev");
            ("repository", VNull); ("bugs", VNull); ("funding", VNull) ]
    = known_fields /\
  Forall (fun v => v <> VUndefined)
    (values [ ("homepage", VString "https://example.com"); ("author", VString "https://jane.dev");
              ("repository", VNull); ("bugs", VNull); ("funding", VNull) ]).
Proof.
  apply (extracted_record_shape
           (JObject [ ("author", JString "Jane Doe (https://jane.dev)");
                      ("homepage", JString "https://example.com") ])).
  reflexivity.
Defined.

(** ** Line terminators and the greedy dot *)

Lemma line_terminator_at_cons (c : ascii) (r : string) :
  Str.line_terminator_at (String c r)
    = (nat_of_ascii c =? 10) || (nat_of_ascii c =? 13) ||
      ((nat_of_ascii c =? 226) &&
       match r with
       | String c1 (String c2 _) =>
           (nat_of_ascii c1 =? 128) &&
           ((nat_of_ascii c2 =? 168) || (nat_of_ascii c2 =? 169))
       | _ => false
       end).
Proof.
  unfold Str.line_terminator_at. generalize (nat_of_ascii c). intros n.
  do 227 (destruct n as [ | n]; [ reflexivity | ]). reflexivity.
Qed.

(** Whether a line terminator starts a string is not changed by an ASCII
    character put after it. *)
Lemma line_terminator_at_append (c d : ascii) (u v : string) :
  nat_of_ascii d < 128 ->
  Str.line_terminator_at (String c u) = false ->
  Str.line_terminator_at (String c (u ++ String d v)) = false.
Proof.
  intros D. rewrite !line_terminator_at_cons.
  destruct (nat_of_ascii c =? 10), (nat_of_ascii c =? 13); try discriminate.
  cbn [orb]. destruct (nat_of_ascii c =? 226); [ | reflexivity ]. cbn [andb].
  destruct u as [ | c1 [ | c2 u]]; cbn [append].
  - intros _. destruct (nat_of_ascii d =? 128) eqn:E; [ | now destruct v ].
    apply Nat.eqb_eq in E. lia.
  - intros _. destruct (nat_of_ascii c1 =? 128); [ | reflexivity ]. cbn [andb].
    destruct (nat_of_ascii d =? 168) eqn:E1; [ apply Nat.eqb_eq in E1; lia | ].
    destruct (nat_of_ascii d =? 169) eqn:E2; [ apply Nat.eqb_eq in E2; lia | ].
    reflexivity.
  - intros H. exact H.
Qed.

Lemma single_line_cons (c : ascii) (u : string) :
  single_line (String c u) = true ->
  Str.line_terminator_at (String c u) = false /\ single_line u = true.
Proof.
  unfold single_line. cbn [line_rest].
  destruct (Str.line_terminator_at (String c u)); [ discriminate | auto ].
Qed.

(** The greedy dot runs over a line; if from its end on the rest can be
    matched, it is matched there or later. *)
Lemma greedy_any_over (k : Regex.cont) (cs : list (nat * (nat * nat)))
      (d : ascii) (v : string) (res : Regex.state) (u : string) : forall p,
  nat_of_ascii d < 128 ->
  single_line u = true ->
  Regex.greedy_any k cs (p + String.length u) (String d v) = Some res ->
  Regex.greedy_any k cs p (u ++ String d v) = Some res.
Proof.
  induction u as [ | c u IH]; intros p D L H.
  - cbn [String.length append] in *. now rewrite Nat.add_0_r in H.
  - destruct (single_line_cons _ _ L) as [T L'].
    cbn [append Regex.greedy_any].
    rewrite (line_terminator_at_append c d u v D T).
    rewrite (IH (S p) D L'); [ reflexivity | ].
    cbn [String.length] in H. now rewrite Nat.add_succ_r in H.
Qed.

(** The greedy dot followed by a literal that does not occur. *)
Lemma greedy_any_literal_none (t : string) (F : Regex.state -> option Regex.state)
      (cs : list (nat * (nat * nat))) (v : string) : forall q,
  Str.includes t v = false ->
  Regex.greedy_any
    (fun st => if prefix t (Regex.rest st) then F st else None) cs q v = None.
Proof.
  induction v as [ | c v IH]; intros q I; cbn [Str.includes] in I;
    apply orb_false_iff in I; destruct I as [P I]; cbn [Regex.greedy_any Regex.rest].
  - now rewrite P.
  - destruct (Str.line_terminator_at (String c v)); [ now rewrite P | ].
    rewrite (IH (S q) I). cbn [Regex.orelse]. now rewrite P.
Qed.

(** The greedy dot followed by a one-character ASCII literal stops at
    the last occurrence of the literal. *)
Lemma greedy_any_last (d : ascii) (F : Regex.state -> option Regex.state)
      (cs : list (nat * (nat * nat))) (u v : string) (p : nat) (res : Regex.state) :
  nat_of_ascii d < 128 ->
  Str.line_terminator_at (String d v) = false ->
  single_line u = true ->
  Str.includes (String d "") v = false ->
  F (Regex.mkState (p + String.length u) (String d v) cs) = Some res ->
  Regex.greedy_any
    (fun st => if prefix (String d "") (Regex.rest st) then F st else None)
    cs p (u ++ String d v) = Some res.
Proof.
  intros D T L I H. apply greedy_any_over; try assumption.
  cbn [Regex.greedy_any]. rewrite T.
  rewrite (greedy_any_literal_none _ F cs v _ I). cbn [Regex.orelse Regex.rest].
  cbn [prefix]. destruct (ascii_dec d d); [ | contradiction ].
  rewrite prefix_nil. exact H.
Qed.

Lemma prefix_cons_split (a : ascii) (t s : string) :
  prefix (String a t) s = prefix (String a "") s && prefix t (Str.drop 1 s).
Proof.
  destruct s as [ | c s]; cbn [prefix Str.drop]; [ reflexivity | ].
  destruct (ascii_dec a c); [ now rewrite prefix_nil | reflexivity ].
Qed.

(** ** The author field *)

Lemma run_parenthesized_http (p : nat) (s : string) :
  Regex.run Re.parenthesized_http Some (Regex.mkState p s [])
    = if prefix "(" s then
        if prefix "http" (Str.drop 1 s) then
          Regex.greedy_any
            (fun st =>
               if prefix ")" (Regex.rest st)
               then Some (Regex.mkState (Regex.pos st + 1)
                            (Str.drop 1 (Regex.rest st))
                            ((1, (p + 1, Regex.pos st)) :: Regex.caps st))
               else None)
            [] (p + 1 + 4) (Str.drop 4 (Str.drop 1 s))
        else None
      else None.
Proof. reflexivity. Qed.

Lemma search_parenthesized_http_none (s : string) : forall p,
  Str.includes "(http" s = false ->
  Regex.search_from Re.parenthesized_http p s = None.
Proof.
  induction s as [ | c s IH]; intros p I; cbn [Str.includes] in I;
    apply orb_false_iff in I; destruct I as [P I];
    cbn [Regex.search_from]; rewrite run_parenthesized_http;
    rewrite prefix_cons_split in P.
  - destruct (prefix "(" ""); [ | reflexivity ].
    cbn [andb] in P. now rewrite P.
  - destruct (prefix "(" (String c s)).
    + cbn [andb] in P. rewrite P. now apply IH.
    + now apply IH.
Qed.

Lemma search_parenthesized_http (a u b : string) : forall p,
  Str.includes "(" a = false ->
  single_line u = true ->
  Str.includes ")" b = false ->
  Regex.search_from Re.parenthesized_http p (a ++ "(http" ++ u ++ ")" ++ b)
    = Some (Regex.mkFound (p + String.length a)
              (p + String.length a + 5 + String.length u + 1)
              [(1, (p + String.length a + 1, p + String.length a + 5 + String.length u))]).
Proof.
  induction a as [ | c a IH]; intros p I L B; cbn [append Regex.search_from];
    rewrite run_parenthesized_http.
  - cbn [prefix Str.drop]. cbn. rewrite prefix_nil.
    match goal with
    | |- context [ Regex.greedy_any ?k ?cs ?q ?x ] =>
        assert (H : Regex.greedy_any k cs q x
                    = Some (Regex.mkState (p + 1 + 4 + String.length u + 1) b
                              [(1, (p + 1, p + 1 + 4 + String.length u))]))
    end.
    { apply (greedy_any_last ")"); try assumption; try reflexivity. cbn. lia. }
    rewrite H. cbn. rewrite Nat.add_0_r.
    replace (p + 1 + 4) with (p + 5) by lia. reflexivity.
  - destruct (includes_one_cons _ _ _ I) as [P I'].
    match goal with
    | |- context [ prefix "(" (String c ?x) ] => rewrite (P x)
    end.
    pose proof (IH (S p) I' L B) as H. cbn [append] in H. rewrite H.
    cbn [String.length]. now rewrite !Nat.add_succ_r.
Qed.

Lemma slice_middle (a m b : string) :
  Str.slice (String.length a) (String.length a + String.length m) (a ++ m ++ b) = m.
Proof.
  unfold Str.slice.
  replace (String.length a + String.length m - String.length a)
    with (String.length m) by lia.
  rewrite <- (Nat.add_0_r (String.length a)) at 1.
  rewrite drop_append. cbn [Str.drop]. apply take_append.
Qed.

Lemma author_of_holds_parenthesized (props : object json) (a u b : string) :
  holds_string (prop "author" props) (a ++ "(http" ++ u ++ ")" ++ b) ->
  Str.includes "(" a = false ->
  single_line u = true ->
  Str.includes ")" b = false ->
  Str.includes "#" (a ++ "(http" ++ u ++ ")" ++ b) = false ->
  ends_with ".git" (a ++ "(http" ++ u ++ ")" ++ b) = false ->
  author_of (JObject props) = Ok (VString ("http" ++ u)).
Proof.
  intros H A U B I E. unfold author_of.
  rewrite (getFromUrlProperty_holds _ _ _ H). unfold normalized.
  rewrite is_empty_app_r by reflexivity.
  rewrite remove_fragment_or_git_none by assumption.
  cbn [bind truthy to_string]. rewrite is_empty_app_r by reflexivity.
  cbn [negb]. unfold Regex.exec.
  rewrite (search_parenthesized_http a u b 0 A U B).
  unfold capture, Regex.group. cbn [Regex.groups Regex.lookup Nat.eqb Nat.add].
  f_equal. f_equal.
  replace (String.length a + 5 + String.length u)
    with (String.length (a ++ "(") + String.length ("http" ++ u))
    by (rewrite !length_append; cbn [String.length]; lia).
  replace (String.length a + 1) with (String.length (a ++ "("))
    by (rewrite length_append; reflexivity).
  replace (a ++ "(http" ++ u ++ ")" ++ b) with ((a ++ "(") ++ ("http" ++ u) ++ ")" ++ b).
  - apply slice_middle.
  - rewrite !append_assoc. reflexivity.
Qed.

Lemma author_of_holds_plain (props : object json) (s : string) :
  holds_string (prop "author" props) s ->
  Str.is_empty s = false ->
  Str.includes "(http" s = false ->
  Str.includes "#" s = false ->
  ends_with ".git" s = false ->
  author_of (JObject props) = Ok (VString s).
Proof.
  intros H N P I E. unfold author_of.
  rewrite (getFromUrlProperty_holds _ _ _ H). unfold normalized. rewrite N.
  rewrite remove_fragment_or_git_none by assumption.
  cbn [bind truthy to_string]. rewrite N. cbn [negb]. unfold Regex.exec.
  now rewrite search_parenthesized_http_none.
Qed.

(** An author that normalization empties or finds empty gives null:
    the empty string, [.git] alone, and a [#] followed by no line
    terminator. *)
Lemma author_of_holds_nothing (props : object json) (s : string) :
  holds_string (prop "author" props) s ->
  s = "" \/ s = ".git" \/ (exists f, s = "#" ++ f /\ single_line f = true) ->
  author_of (JObject props) = Ok VNull.
Proof.
  intros H C. unfold author_of. rewrite (getFromUrlProperty_holds _ _ _ H).
  destruct C as [-> | [-> | [f [-> L]]]]; [ reflexivity | reflexivity | ].
  change (normalized ("#" ++ f)) with (normalized ("" ++ "#" ++ f)).
  rewrite (normalized_fragment "" f eq_refl).
  cbn [append bind truthy]. unfold single_line in L. now rewrite L.
Qed.

(** The author written in the usual way, a name followed by a URL in
    parentheses, as a string or as the url of an object: when the text
    before the opening parenthesis holds no other one, the URL starts
    with http and holds no line terminator, and no closing parenthesis
    comes after the one that ends it, the URL between the parentheses is
    what is extracted.  (The value holds no [#] and does not end in
    [.git], so that normalization leaves it as it is.) *)
Theorem author_parenthesized_url (props : object json) (a u b : string) :
  holds_string (prop "author" props) (a ++ "(http" ++ u ++ ")" ++ b) ->
  Str.includes "(" a = false ->
  single_line u = true ->
  Str.includes ")" b = false ->
  Str.includes "#" (a ++ "(http" ++ u ++ ")" ++ b) = false ->
  ends_with ".git" (a ++ "(http" ++ u ++ ")" ++ b) = false ->
  author_of (JObject props) = Ok (VString ("http" ++ u)).
Proof. apply author_of_holds_parenthesized. Qed.

Lemma author_parenthesized_url_witness :
  author_of
    (JObject [("author", JString ("Jane Doe <jane@example.com> "
                                    ++ "(http" ++ "s://jane.dev" ++ ")" ++ ""))])
    = Ok (VString ("http" ++ "s://jane.dev")).
Proof.
  apply (author_parenthesized_url _ "Jane Doe <jane@example.com> " "s://jane.dev" "");
    try reflexivity.
  left. reflexivity.
Defined.

(** An author that is not empty and holds neither [(http], nor [#], nor
    a final [.git] is extracted as it is, as a string or as the url of
    an object. *)
Theorem author_without_parenthesized_url (props : object json) (s : string) :
  holds_string (prop "author" props) s ->
  Str.is_empty s = false ->
  Str.includes "(http" s = false ->
  Str.includes "#" s = false ->
  ends_with ".git" s = false ->
  author_of (JObject props) = Ok (VString s).
Proof. apply author_of_holds_plain. Qed.

Lemma author_without_parenthesized_url_witness :
  author_of (JObject [("author", JObject [("name", JString "Jane"); ("url", JString "https://jane.dev")])])
    = Ok (VString "https://jane.dev").
Proof.
  apply author_without_parenthesized_url; try reflexivity.
  right. eexists. split; reflexivity.
Defined.

(** C5, amended: the search for a parenthesized URL is applied to the
    author whatever its source.  An author given as an object whose url
    is the string s yields exactly what the author given as the string s
    yields, and that is:
    - when s is A(httpU)B, with no opening parenthesis in A, no line
      terminator in U and no closing parenthesis in B, and s holds no
      [#] and does not end in [.git]: the parenthesized content httpU,
      not s;
    - when s is not empty and holds neither [(http], nor [#], nor a
      final [.git]: s as it is;
    - when s is empty, is [.git] alone, or is a [#] followed by no line
      terminator: null. *)
Theorem author_search_ignores_source
        (props props' o : object json) (s : string) :
  prop "author" props = Some (JString s) ->
  prop "author" props' = Some (JObject o) ->
  prop "url" o = Some (JString s) ->
  author_of (JObject props') = author_of (JObject props) /\
  (forall a u b : string,
     s = a ++ "(http" ++ u ++ ")" ++ b ->
     Str.includes "(" a = false ->
     single_line u = true ->
     Str.includes ")" b = false ->
     Str.includes "#" s = false ->
     ends_with ".git" s = false ->
     author_of (JObject props') = Ok (VString ("http" ++ u))) /\
  (Str.is_empty s = false ->
   Str.includes "(http" s = false ->
   Str.includes "#" s = false ->
   ends_with ".git" s = false ->
   author_of (JObject props') = Ok (VString s)) /\
  (s = "" \/ s = ".git" \/ (exists f, s = "#" ++ f /\ single_line f = true) ->
   author_of (JObject props') = Ok VNull).
Proof.
  intros Hs Ho Hu.
  assert (H' : holds_string (prop "author" props') s)
    by (right; exists o; split; assumption).
  split; [ | split; [ | split ] ].
  - unfold author_of.
    rewrite (getFromUrlProperty_object_url _ _ _ _ Ho Hu).
    now rewrite (getFromUrlProperty_string _ _ _ Hs).
  - intros a u b -> A U B I E. now apply (author_of_holds_parenthesized props' a u b).
  - intros N P I E. now apply author_of_holds_plain.
  - intros C. now apply (author_of_holds_nothing props' s).
Qed.

Lemma author_search_ignores_source_witness :
  author_of (JObject [("author", JObject [("url", JString "Jane Doe (https://jane.dev)")])])
    = author_of (JObject [("author", JString "Jane Doe (https://jane.dev)")]) /\
  author_of (JObject [("author", JObject [("url", JString "Jane Doe (https://jane.dev)")])])
    = Ok (VString ("http" ++ "s://jane.dev")).
Proof.
  destruct (author_search_ignores_source
              [("author", JString "Jane Doe (https://jane.dev)")]
              [("author", JObject [("url", JString "Jane Doe (https://jane.dev)")])]
              [("url", JString "Jane Doe (https://jane.dev)")]
              "Jane Doe (https://jane.dev)" eq_refl eq_refl eq_refl) as [E [P _]].
  split; [ exact E | ].
  apply (P "Jane Doe " "s://jane.dev" ""); reflexivity.
Defined.

(** * Further properties of the choice list *)

Lemma makeChoices_numbered (urls : object jsv) (g : inference) :
  makeChoices urls g = number_from 1 (with_cancel (entries urls g)).
Proof.
  unfold makeChoices, entries, inferred_entries. cbv zeta.
  destruct (truthy (gitHubRepositoryUrl g)), (truthy (gitHubUserUrl g)),
    (truthy (gitHubPagesUrl g));
    change (@nil choice) with (number_from 1 []);
    rewrite ?push_number_from; apply cancel_number_from.
Qed.

Lemma extracted_entry_url (field : string * jsv) :
  Forall (fun e : entry => exists u, snd e = Url u /\ Str.is_empty u = false)
         (extracted_entry truthy field).
Proof.
  unfold extracted_entry. destruct (truthy (snd field)) eqn:T; constructor; [ | constructor ].
  exists (to_string (snd field)). split; [ reflexivity | ].
  destruct (snd field) as [ | | s]; try discriminate. cbn in *.
  now apply negb_true_iff in T.
Qed.

Lemma truthy_to_string (v : jsv) :
  truthy v = true -> Str.is_empty (to_string v) = false.
Proof.
  destruct v as [ | | s]; try discriminate. cbn. apply negb_true_iff.
Qed.

Lemma entries_url (urls : object jsv) (g : inference) :
  Forall (fun e : entry => exists u, snd e = Url u /\ Str.is_empty u = false)
         (entries urls g).
Proof.
  assert (one : forall (v : jsv) (text : string),
             Forall (fun e : entry => exists u, snd e = Url u /\ Str.is_empty u = false)
                    (if truthy v then [(text, Url (to_string v))] else [])).
  { intros v text. destruct (truthy v) eqn:T; constructor; [ | constructor ].
    exists (to_string v). split; [ reflexivity | now apply truthy_to_string ]. }
  unfold entries, inferred_entries.
  apply Forall_app. split.
  - apply Forall_app. split; [ apply one | ].
    apply Forall_app. split; apply one.
  - induction urls as [ | field urls IH]; cbn [flat_map]; [ constructor | ].
    apply Forall_app. split; [ apply extracted_entry_url | exact IH ].
Qed.

Lemma number_from_url (es : list entry) : forall i,
  Forall (fun e : entry => exists u, snd e = Url u /\ Str.is_empty u = false) es ->
  Forall (fun c => exists u, value c = Url u /\ Str.is_empty u = false)
         (number_from i es).
Proof.
  induction es as [ | [text v] es IH]; intros i H; cbn [number_from];
    [ constructor | ].
  inversion H as [ | e es' He Hes]; subst. constructor; [ exact He | now apply IH ].
Qed.

(** The choice list is empty, or it is one or more URL entries followed
    by the cancel entry: the cancel entry comes last and nowhere else, a
    list is never the cancel entry alone, and the value of every other
    entry is a non-empty URL. *)
Theorem makeChoices_cancel_is_last (urls : object jsv) (g : inference) :
  makeChoices urls g = [] \/
  exists first others,
    makeChoices urls g
      = ((first :: others) ++ [cancel_after (length (first :: others))])%list /\
    Forall (fun c => exists u, value c = Url u /\ Str.is_empty u = false)
           (first :: others).
Proof.
  rewrite makeChoices_numbered.
  pose proof (entries_url urls g) as U.
  destruct (entries urls g) as [ | [text v] es]; [ now left | right ].
  cbn [with_cancel]. rewrite number_from_app. cbn [number_from].
  exists (mkChoice ("[" ++ Str.of_nat 1 ++ "]  " ++ text) v), (number_from 2 es).
  split.
  - unfold cancel_after. cbn [length]. rewrite length_number_from.
    replace (1 + S (length es)) with (S (length es) + 1) by lia. reflexivity.
  - apply (number_from_url ((text, v) :: es) 1 U).
Qed.

(** ** When no URL is detected *)

Lemma extracted_entries_nil (urls : object jsv) :
  is_nil (flat_map (extracted_entry truthy) urls)
    = forallb (fun field => negb (truthy (snd field))) urls.
Proof.
  induction urls as [ | field urls IH]; cbn [flat_map forallb]; [ reflexivity | ].
  unfold extracted_entry at 1. destruct (truthy (snd field)); cbn; [ reflexivity | exact IH ].
Qed.

Lemma falsy_is_irrelevant (urls : object jsv) :
  forallb (fun field => negb (truthy (snd field))) urls = true ->
  filter relevant urls = [].
Proof.
  induction urls as [ | field urls IH]; cbn [forallb filter]; [ reflexivity | ].
  intros H. apply andb_true_iff in H. destruct H as [T H].
  unfold relevant. apply negb_true_iff in T. rewrite T. cbn [andb]. now apply IH.
Qed.

Lemma is_nil_number_from (es : list entry) (i : nat) :
  is_nil (number_from i es) = is_nil es.
Proof. destruct es as [ | [text v] es]; reflexivity. Qed.

Lemma is_nil_with_cancel (es : list entry) : is_nil (with_cancel es) = is_nil es.
Proof. destruct es; reflexivity. Qed.

Lemma is_nil_app {A : Type} (a b : list A) :
  is_nil (a ++ b)%list = is_nil a && is_nil b.
Proof. destruct a; reflexivity. Qed.

(** The list of the choices made from a record of URLs and from what is
    inferred from it is empty, which is when the program reports that no
    URL was detected, exactly when every URL of the record is null or
    the empty string. *)
Theorem no_choice_iff_no_url (urls : object jsv) :
  is_nil (makeChoices urls (detectGitHubUrls urls))
    = forallb (fun field => negb (truthy (snd field))) urls.
Proof.
  rewrite makeChoices_numbered, is_nil_number_from, is_nil_with_cancel.
  unfold entries. rewrite is_nil_app, extracted_entries_nil.
  destruct (forallb (fun field => negb (truthy (snd field))) urls) eqn:F;
    [ | apply andb_false_r ].
  unfold detectGitHubUrls, scan_urls.
  rewrite <- fold_scan_relevant, (falsy_is_irrelevant urls F). reflexivity.
Qed.

(** ** The links shown *)

Lemma showLinks_app (a b : list choice) :
  showLinks (a ++ b)%list = (showLinks a ++ showLinks b)%list.
Proof. unfold showLinks. apply flat_map_app. Qed.

Lemma showLinks_urls (cs : list choice) :
  Forall (fun c => exists u, value c = Url u /\ Str.is_empty u = false) cs ->
  map link_choice (showLinks cs) = cs.
Proof.
  induction cs as [ | [text v] cs IH]; intros H; [ reflexivity | ].
  inversion H as [ | c' cs' [u [Hu Nu]] Hcs]; subst.
  cbn [value] in Hu. subst v.
  unfold showLinks in *. cbn [flat_map value name]. rewrite Nu.
  cbn [app map link_choice fst snd]. now rewrite (IH Hcs).
Qed.

(** [showLinks] on a choice list shows a link for every entry but the
    cancel entry and for no other, in the order of the list: the label
    of each link is the label of its entry and its target is the URL of
    that entry.  A list that is not empty has one entry more than there
    are links, the cancel entry; for the empty list nothing is shown. *)
Theorem showLinks_all_but_cancel (urls : object jsv) (g : inference) :
  map link_choice (showLinks (makeChoices urls g))
    = removelast (makeChoices urls g) /\
  (makeChoices urls g = [] /\ showLinks (makeChoices urls g) = [] \/
   length (makeChoices urls g) = length (showLinks (makeChoices urls g)) + 1 /\
   exists label, last (makeChoices urls g) (mkChoice "" (Url "")) = mkChoice label Cancel).
Proof.
  rewrite makeChoices_numbered.
  pose proof (entries_url urls g) as U.
  destruct (entries urls g) as [ | [text v] es]; [ split; [ | left; split ]; reflexivity | ].
  cbn [with_cancel]. rewrite number_from_app.
  pose proof (number_from_url _ 1 U) as V.
  match type of V with
  | Forall _ ?l => set (cs := l) in *
  end.
  clearbody cs.
  pose proof (showLinks_urls _ V) as L.
  cbn [number_from].
  rewrite showLinks_app.
  cbn [showLinks flat_map value map name length app].
  rewrite app_nil_r, removelast_last, last_last. split; [ exact L | right ].
  split.
  - rewrite length_app. cbn [length]. f_equal.
    rewrite <- L at 1. now rewrite length_map.
  - eexists. reflexivity.
Qed.

(** ** The remote URL among the choices *)

Lemma prop_absent {A : Type} (key : string) (o : object A) :
  forallb (fun k => negb (String.eqb k key)) (map fst o) = true ->
  prop key o = None.
Proof.
  induction o as [ | [k v] o IH]; cbn [map fst forallb prop]; [ reflexivity | ].
  intros H. apply andb_true_iff in H. destruct H as [K H].
  apply negb_true_iff in K. rewrite K. now apply IH.
Qed.

Lemma set_prop_new {A : Type} (key : string) (v : A) (o : object A) :
  prop key o = None -> set_prop key v o = (o ++ [(key, v)])%list.
Proof.
  induction o as [ | [k w] o IH]; cbn [prop set_prop app]; [ reflexivity | ].
  destruct (String.eqb k key); [ discriminate | ].
  intros H. now rewrite (IH H).
Qed.

Lemma with_cancel_snoc (es : list entry) (e : entry) :
  with_cancel (es ++ [e])%list = ((es ++ [e]) ++ [("Cancel", Cancel)])%list.
Proof. now destruct es. Qed.

(** The remote URL of the git configuration, when there is one, is added
    to the record that extraction returns as its last field, and it is
    the last choice before the cancel entry, under the label Git Remote
    URL. *)
Theorem remote_url_is_last_choice (packageJson : json) (urls : object jsv) (r : string) :
  findUrlsFromPackageJson packageJson = Ok urls ->
  Str.is_empty r = false ->
  mergeGitRemoteUrl (VString r) urls = (urls ++ [("gitRemoteUrl", VString r)])%list /\
  exists before,
    choices_of packageJson (VString r)
      = Ok (before
            ++ [ mkChoice ("[" ++ Str.of_nat (length before + 1) ++ "]  " ++ r
                             ++ " ... Git Remote URL") (Url r);
                 cancel_after (length before + 1) ])%list.
Proof.
  intros H N.
  assert (M : mergeGitRemoteUrl (VString r) urls
              = (urls ++ [("gitRemoteUrl", VString r)])%list).
  { unfold mergeGitRemoteUrl. cbn [truthy]. rewrite N. cbn [negb].
    apply set_prop_new, prop_absent.
    now rewrite (proj1 (findUrlsFromPackageJson_shape _ _ H)). }
  split; [ exact M | ].
  unfold choices_of. rewrite H. cbn [bind]. rewrite M.
  set (g := detectGitHubUrls _). clearbody g.
  rewrite makeChoices_numbered. unfold entries.
  rewrite flat_map_app. cbn [flat_map]. unfold extracted_entry at 2.
  cbn [fst snd truthy to_string String.eqb Ascii.eqb Bool.eqb]. rewrite N.
  cbn [negb app]. rewrite app_assoc.
  set (es := (inferred_entries truthy g ++ flat_map (extracted_entry truthy) urls)%list).
  clearbody es.
  rewrite with_cancel_snoc, !number_from_app.
  cbn [number_from length].
  exists (number_from 1 es).
  rewrite length_number_from, length_app. cbn [length].
  rewrite <- app_assoc. cbn [app]. unfold cancel_after.
  replace (1 + length es) with (length es + 1) by lia.
  replace (1 + (length es + 1)) with (length es + 1 + 1) by lia.
  reflexivity.
Qed.

Lemma remote_url_is_last_choice_witness :
  mergeGitRemoteUrl (VString "https://example.com/acme/widget") no_urls
    = (no_urls ++ [("gitRemoteUrl", VString "https://example.com/acme/widget")])%list /\
  exists before,
    choices_of (JObject []) (VString "https://example.com/acme/widget")
      = Ok (before
            ++ [ mkChoice ("[" ++ Str.of_nat (length before + 1) ++ "]  "
                             ++ "https://example.com/acme/widget"
                             ++ " ... Git Remote URL")
                          (Url "https://example.com/acme/widget");
                 cancel_after (length before + 1) ])%list.
Proof.
  apply remote_url_is_last_choice; reflexivity.
Defined.

(** ** The URLs offered *)

Lemma in_number_from (es : list entry) (text : string) (v : choice_value) : forall i,
  In (text, v) es ->
  exists n, In (mkChoice ("[" ++ Str.of_nat n ++ "]  " ++ text) v) (number_from i es).
Proof.
  induction es as [ | [t w] es IH]; intros i; cbn [In number_from]; [ contradiction | ].
  intros [[= -> ->] | H].
  - exists i. now left.
  - destruct (IH (S i) H) as [n Hn]. exists n. now right.
Qed.

Lemma in_number_from_inv (es : list entry) (c : choice) : forall i,
  In c (number_from i es) -> exists text, In (text, value c) es.
Proof.
  induction es as [ | [t w] es IH]; intros i; cbn [In number_from]; [ contradiction | ].
  intros [<- | H].
  - exists t. now left.
  - destruct (IH (S i) H) as [text Ht]. exists text. now right.
Qed.

Lemma in_with_cancel (es : list entry) (e : entry) :
  In e es -> In e (with_cancel es).
Proof.
  destruct es as [ | e' es]; [ contradiction | ].
  intros H. cbn [with_cancel]. apply in_or_app. now left.
Qed.

Lemma in_with_cancel_inv (es : list entry) (e : entry) :
  In e (with_cancel es) -> In e es \/ e = ("Cancel", Cancel).
Proof.
  destruct es as [ | e' es]; [ contradiction | ].
  cbn [with_cancel]. intros H. apply in_app_or in H.
  destruct H as [H | [<- | []]]; auto.
Qed.

(** Every URL of the record that is a non-empty string is among the
    choices, under a label that shows the URL and names its field. *)
Theorem extracted_url_is_offered
        (urls : object jsv) (g : inference) (key u : string) :
  In (key, VString u) urls ->
  Str.is_empty u = false ->
  exists n,
    In (mkChoice ("[" ++ Str.of_nat n ++ "]  " ++ u
                    ++ (if String.eqb key "gitRemoteUrl"
                        then " ... Git Remote URL"
                        else " ... package.json " ++ key))
                 (Url u))
       (makeChoices urls g).
Proof.
  intros H N. rewrite makeChoices_numbered.
  apply in_number_from, in_with_cancel. unfold entries.
  apply in_or_app. right. apply in_flat_map.
  exists (key, VString u). split; [ exact H | ].
  unfold extracted_entry. cbn [fst snd truthy to_string]. rewrite N. now left.
Qed.

Lemma extracted_url_is_offered_witness :
  exists n,
    In (mkChoice ("[" ++ Str.of_nat n ++ "]  " ++ "https://example.com/issues"
                    ++ (if String.eqb "bugs" "gitRemoteUrl"
                        then " ... Git Remote URL"
                        else " ... package.json " ++ "bugs"))
                 (Url "https://example.com/issues"))
       (makeChoices
          [ ("homepage", VString "https://example.com"); ("bugs", VString "https://example.com/issues") ]
          nothing_inferred).
Proof.
  apply extracted_url_is_offered; [ | reflexivity ]. right. now left.
Defined.

(** Nothing else is offered: the URL of a choice is the repository URL,
    the user URL or the Pages URL of the inference, or a URL of the
    record. *)
Theorem offered_url_is_inferred_or_extracted
        (urls : object jsv) (g : inference) (c : choice) (u : string) :
  In c (makeChoices urls g) ->
  value c = Url u ->
  gitHubRepositoryUrl g = VString u \/
  gitHubUserUrl g = VString u \/
  gitHubPagesUrl g = VString u \/
  exists key, In (key, VString u) urls.
Proof.
  intros H V. rewrite makeChoices_numbered in H.
  destruct (in_number_from_inv _ _ _ H) as [text Ht]. rewrite V in Ht.
  destruct (in_with_cancel_inv _ _ Ht) as [He | [= ]].
  unfold entries, inferred_entries in He.
  assert (one : forall (v : jsv) (t : string),
             In (text, Url u) (if truthy v then [(t, Url (to_string v))] else []) ->
             v = VString u).
  { intros v t. destruct v as [ | | s]; cbn; try contradiction.
    destruct (negb (Str.is_empty s)); [ | contradiction ].
    intros [[= _ ->] | []]. reflexivity. }
  apply in_app_or in He. destruct He as [He | He].
  - apply in_app_or in He. destruct He as [He | He]; [ left; now apply (one _ _ He) | ].
    apply in_app_or in He. destruct He as [He | He];
      [ right; left; now apply (one _ _ He) | right; right; left; now apply (one _ _ He) ].
  - right. right. right. apply in_flat_map in He. destruct He as [[key v] [Hin He]].
    exists key. unfold extracted_entry in He. cbn [fst snd] in He.
    now rewrite <- (one _ _ He).
Qed.

Lemma offered_url_is_inferred_or_extracted_witness :
  gitHubRepositoryUrl nothing_inferred = VString "https://example.com" \/
  gitHubUserUrl nothing_inferred = VString "https://example.com" \/
  gitHubPagesUrl nothing_inferred = VString "https://example.com" \/
  exists key, In (key, VString "https://example.com") [("homepage", VString "https://example.com")].
Proof.
  apply (offered_url_is_inferred_or_extracted
           [("homepage", VString "https://example.com")] nothing_inferred
           (mkChoice "[1]  https://example.com ... package.json homepage"
                     (Url "https://example.com"))).
  - left. reflexivity.
  - reflexivity.
Defined.

(** * Properties of the remote URL *)

Lemma not_line_feed (c : ascii) (x : string) :
  prefix LF (String c x) = false -> (nat_of_ascii c =? 10) = false.
Proof.
  unfold LF. cbn [prefix]. destruct (ascii_dec (ascii_of_nat 10) c) as [<- | N].
  - now rewrite prefix_nil.
  - intros _. apply Nat.eqb_neq. intros E. apply N.
    rewrite <- E. now rewrite ascii_nat_embedding.
Qed.

Lemma split_lines_single (line : string) :
  Str.includes LF line = false -> split_lines line = [line].
Proof.
  induction line as [ | c line IH]; [ reflexivity | ].
  cbn [Str.includes split_lines]. intros H. apply orb_false_iff in H.
  destruct H as [P I]. rewrite (not_line_feed _ _ P), (IH I). reflexivity.
Qed.

Lemma split_lines_first (line rest : string) :
  Str.includes LF line = false ->
  split_lines (line ++ LF ++ rest) = line :: split_lines rest.
Proof.
  induction line as [ | c line IH]; [ reflexivity | ].
  cbn [Str.includes]. intros H. apply orb_false_iff in H. destruct H as [P I].
  cbn [append split_lines]. rewrite (not_line_feed _ _ P), (IH I). reflexivity.
Qed.

(** The first line of the output, when it is not blank, is the URL that
    is normalized; what follows it is not looked at. *)
Lemma findUrlFromGitConfig_first_line (line rest : string) :
  Str.includes LF line = false ->
  blank line = false ->
  findUrlFromGitConfig (Resolved (line ++ LF ++ rest))
    = VString (Regex.remove_first Re.git_suffix
                 (Regex.replace_first Re.userinfo "//" line)).
Proof.
  intros I B. unfold findUrlFromGitConfig.
  rewrite (split_lines_first _ _ I). cbn [find]. now rewrite B.
Qed.

(** ** The final .git *)

Lemma run_git_suffix (p : nat) (s : string) :
  Regex.run Re.git_suffix Some (Regex.mkState p s [])
    = if prefix ".git" s && Str.is_empty (Str.drop 4 s)
      then Some (Regex.mkState (p + 4) (Str.drop 4 s) [(1, (p, p + 4))])
      else None.
Proof.
  unfold Re.git_suffix.
  cbn [Regex.run Regex.pos Regex.rest Regex.caps String.length].
  destruct (prefix ".git" s); [ | reflexivity ].
  destruct (Str.is_empty (Str.drop 4 s)); reflexivity.
Qed.

Lemma search_git_suffix (t : string) : forall p,
  Regex.search_from Re.git_suffix p (t ++ ".git")
    = Some (Regex.mkFound (p + String.length t) (p + String.length t + 4)
              [(1, (p + String.length t, p + String.length t + 4))]).
Proof.
  induction t as [ | c t IH]; intros p; cbn [append Regex.search_from];
    rewrite run_git_suffix.
  - cbn. now rewrite Nat.add_0_r.
  - destruct (prefix ".git" (String c (t ++ ".git")) && _) eqn:G.
    + apply andb_true_iff in G. destruct G as [G1 G2].
      pose proof (f_equal String.length (prefix_exact ".git" _ G1 G2)) as L.
      cbn [String.length] in L. rewrite length_append in L. cbn in L. lia.
    + rewrite (IH (S p)). cbn [String.length]. now rewrite !Nat.add_succ_r.
Qed.

Lemma search_git_suffix_none (s : string) : forall p,
  ends_with ".git" s = false ->
  Regex.search_from Re.git_suffix p s = None.
Proof.
  induction s as [ | c s IH]; intros p E; cbn [Regex.search_from];
    rewrite run_git_suffix.
  - reflexivity.
  - cbn [ends_with] in E. apply orb_false_iff in E. destruct E as [E E'].
    destruct (prefix ".git" (String c s) && _) eqn:G.
    + apply andb_true_iff in G. destruct G as [G1 G2].
      rewrite (prefix_exact ".git" _ G1 G2) in E. discriminate.
    + now apply IH.
Qed.

Lemma remove_git_suffix (t : string) :
  Regex.remove_first Re.git_suffix (t ++ ".git") = t.
Proof.
  unfold Regex.remove_first, Regex.exec. rewrite search_git_suffix.
  cbn [Regex.start Regex.stop Nat.add].
  rewrite take_append, drop_append. cbn. apply append_nil_r.
Qed.

Lemma remove_git_suffix_none (s : string) :
  ends_with ".git" s = false -> Regex.remove_first Re.git_suffix s = s.
Proof.
  intros E. unfold Regex.remove_first, Regex.exec.
  now rewrite search_git_suffix_none.
Qed.

(** ** The credentials *)

Lemma run_userinfo (p : nat) (s : string) :
  Regex.run Re.userinfo Some (Regex.mkState p s [])
    = if prefix "//" s then
        Regex.greedy_any
          (fun st =>
             if prefix "@" (Regex.rest st)
             then Some (Regex.mkState (Regex.pos st + 1)
                          (Str.drop 1 (Regex.rest st)) (Regex.caps st))
             else None)
          [] (p + 2) (Str.drop 2 s)
      else None.
Proof. reflexivity. Qed.

Lemma includes_drop (t s : string) : forall n,
  Str.includes t s = false -> Str.includes t (Str.drop n s) = false.
Proof.
  induction s as [ | c s IH]; intros n I.
  - now destruct n.
  - destruct n as [ | n]; [ exact I | ]. cbn [Str.drop]. apply IH.
    cbn [Str.includes] in I. apply orb_false_iff in I. tauto.
Qed.

Lemma search_userinfo_none (s : string) : forall p,
  Str.includes "//" s = false \/ Str.includes "@" s = false ->
  Regex.search_from Re.userinfo p s = None.
Proof.
  induction s as [ | c s IH]; intros p H; cbn [Regex.search_from];
    rewrite run_userinfo.
  - reflexivity.
  - assert (H' : Str.includes "//" s = false \/ Str.includes "@" s = false).
    { destruct H as [H | H]; cbn [Str.includes] in H;
        apply orb_false_iff in H; tauto. }
    destruct (prefix "//" (String c s)) eqn:P; [ | now apply IH ].
    destruct H as [H | H].
    + cbn [Str.includes] in H. rewrite P in H. discriminate.
    + rewrite greedy_any_literal_none; [ now apply IH | ].
      now apply includes_drop.
Qed.

Lemma search_userinfo (scheme cred host : string) : forall p,
  Str.includes "/" scheme = false ->
  single_line cred = true ->
  Str.includes "@" host = false ->
  Regex.search_from Re.userinfo p (scheme ++ "//" ++ cred ++ "@" ++ host)
    = Some (Regex.mkFound (p + String.length scheme)
              (p + String.length scheme + 2 + String.length cred + 1) []).
Proof.
  induction scheme as [ | c scheme IH]; intros p I L A;
    cbn [append Regex.search_from]; rewrite run_userinfo.
  - cbn [prefix Str.drop]. cbn. rewrite prefix_nil.
    match goal with
    | |- context [ Regex.greedy_any ?k ?cs ?q ?x ] =>
        assert (H : Regex.greedy_any k cs q x
                    = Some (Regex.mkState (p + 2 + String.length cred + 1) host []))
    end.
    { apply (greedy_any_last "@"); try assumption; try reflexivity. cbn. lia. }
    rewrite H. cbn. now rewrite Nat.add_0_r.
  - destruct (includes_one_cons _ _ _ I) as [P I'].
    match goal with
    | |- context [ prefix "//" (String c ?x) ] =>
        rewrite (prefix_cons_split "/" "/" (String c x)), (P x)
    end.
    cbn [andb].
    pose proof (IH (S p) I' L A) as H. cbn [append] in H. rewrite H.
    cbn [String.length]. now rewrite !Nat.add_succ_r.
Qed.

Lemma replace_userinfo (scheme cred host : string) :
  Str.includes "/" scheme = false ->
  single_line cred = true ->
  Str.includes "@" host = false ->
  Regex.replace_first Re.userinfo "//" (scheme ++ "//" ++ cred ++ "@" ++ host)
    = scheme ++ "//" ++ host.
Proof.
  intros I L A. unfold Regex.replace_first, Regex.exec.
  rewrite (search_userinfo scheme cred host 0 I L A).
  cbn [Regex.start Regex.stop Nat.add].
  rewrite take_append.
  replace (String.length scheme + 2 + String.length cred + 1)
    with (String.length scheme + (String.length ("//" ++ cred ++ "@") + 0))
    by (rewrite !length_append; cbn [String.length]; lia).
  rewrite drop_append.
  replace ("//" ++ cred ++ "@" ++ host) with (("//" ++ cred ++ "@") ++ host)
    by (now rewrite !append_assoc).
  rewrite drop_append. reflexivity.
Qed.

Lemma replace_userinfo_none (s : string) :
  Str.includes "//" s = false \/ Str.includes "@" s = false ->
  Regex.replace_first Re.userinfo "//" s = s.
Proof.
  intros H. unfold Regex.replace_first, Regex.exec.
  now rewrite search_userinfo_none.
Qed.

Lemma includes_one_app_false (a : ascii) (x y : string) :
  Str.includes (String a "") x = false ->
  Str.includes (String a "") y = false ->
  Str.includes (String a "") (x ++ y) = false.
Proof.
  intros X Y. induction x as [ | c x IH]; [ exact Y | ].
  destruct (includes_one_cons _ _ _ X) as [P X'].
  cbn [append Str.includes]. rewrite (P (x ++ y)). now apply IH.
Qed.

(** A remote URL with credentials, SCHEME//CREDENTIALS@REST.git on the
    first line of the output of git, gives SCHEME//REST: the credentials
    and the final .git are removed.  (The scheme holds no slash, the
    credentials no line terminator, and what follows them no [@].) *)
Theorem remote_credentials_and_suffix_stripped
        (scheme cred host more : string) :
  Str.includes "/" scheme = false ->
  single_line cred = true ->
  Str.includes "@" host = false ->
  Str.includes LF (scheme ++ "//" ++ cred ++ "@" ++ host ++ ".git") = false ->
  blank (scheme ++ "//" ++ cred ++ "@" ++ host ++ ".git") = false ->
  findUrlFromGitConfig
    (Resolved ((scheme ++ "//" ++ cred ++ "@" ++ host ++ ".git") ++ LF ++ more))
    = VString (scheme ++ "//" ++ host).
Proof.
  intros I L A N B. rewrite (findUrlFromGitConfig_first_line _ _ N B).
  rewrite (replace_userinfo scheme cred (host ++ ".git") I L).
  - replace (scheme ++ "//" ++ host ++ ".git") with ((scheme ++ "//" ++ host) ++ ".git")
      by (now rewrite !append_assoc).
    now rewrite remove_git_suffix.
  - now apply includes_one_app_false.
Qed.

Lemma remote_credentials_and_suffix_stripped_witness :
  findUrlFromGitConfig
    (Resolved (("https:" ++ "//" ++ "jane:secret" ++ "@" ++ "github.com/acme/widget" ++ ".git")
                 ++ LF ++ ""))
    = VString ("https:" ++ "//" ++ "github.com/acme/widget").
Proof.
  apply remote_credentials_and_suffix_stripped; reflexivity.
Defined.

(** A remote URL without credentials, one that holds no [//] (as
    git@HOST:PATH) or no [@], is kept as it is, but for a final .git,
    which is removed. *)
Theorem remote_without_credentials (line more : string) :
  Str.includes "//" line = false \/ Str.includes "@" line = false ->
  Str.includes LF line = false ->
  blank line = false ->
  (ends_with ".git" line = false ->
   findUrlFromGitConfig (Resolved (line ++ LF ++ more)) = VString line) /\
  (forall t, line = t ++ ".git" ->
   findUrlFromGitConfig (Resolved (line ++ LF ++ more)) = VString t).
Proof.
  intros H N B. rewrite (findUrlFromGitConfig_first_line _ _ N B).
  rewrite (replace_userinfo_none _ H). split.
  - intros E. now rewrite remove_git_suffix_none.
  - intros t ->. now rewrite remove_git_suffix.
Qed.

Lemma remote_without_credentials_witness :
  findUrlFromGitConfig (Resolved ("https://gitlab.com/acme/widget" ++ LF ++ ""))
    = VString "https://gitlab.com/acme/widget" /\
  findUrlFromGitConfig (Resolved ("git@github.com:acme/widget.git" ++ LF ++ ""))
    = VString "git@github.com:acme/widget".
Proof.
  split.
  - apply (proj1 (remote_without_credentials "https://gitlab.com/acme/widget" ""
                    (or_intror eq_refl) eq_refl eq_refl)).
    reflexivity.
  - apply (proj2 (remote_without_credentials "git@github.com:acme/widget.git" ""
                    (or_introl eq_refl) eq_refl eq_refl)
                 "git@github.com:acme/widget").
    reflexivity.
Defined.

(** ** Blank output *)

Ltac bools :=
  repeat match goal with
         | H : _ && _ = true |- _ => apply andb_true_iff in H; destruct H
         | H : _ || _ = true |- _ => apply orb_true_iff in H; destruct H
         | H : (_ =? _) = true |- _ => apply Nat.eqb_eq in H
         | H : (_ <=? _) = true |- _ => apply Nat.leb_le in H
         end.

(** The width of the white space at the head of a string is read off
    its first bytes, and the bytes after the first are not ASCII. *)
Lemma whitespace_width_cases (c : ascii) (r : string) :
  match whitespace_width (String c r) with
  | 0 => True
  | 1 => forall r', whitespace_width (String c r') = 1
  | 2 => (nat_of_ascii c =? 10) = false /\
         exists c1 r1, r = String c1 r1 /\ high 1 r = true /\
                       forall x, whitespace_width (String c (String c1 x)) = 2
  | 3 => (nat_of_ascii c =? 10) = false /\
         exists c1 c2 r2, r = String c1 (String c2 r2) /\ high 2 r = true /\
                          forall x, whitespace_width (String c (String c1 (String c2 x))) = 3
  | _ => False
  end.
Proof.
  unfold whitespace_width. cbv zeta.
  destruct (((9 <=? nat_of_ascii c) && (nat_of_ascii c <=? 13))
            || (nat_of_ascii c =? 32)) eqn:E0; [ reflexivity | ].
  assert (N : (nat_of_ascii c =? 10) = false).
  { apply Nat.eqb_neq. intros E. rewrite E in E0. discriminate. }
  destruct r as [ | c1 r1]; [ exact I | ].
  destruct ((nat_of_ascii c =? 194) && (nat_of_ascii c1 =? 160)) eqn:E1.
  { split; [ exact N | ]. exists c1, r1. split; [ reflexivity | ]. split.
    - cbn [high]. bools. apply andb_true_iff. split; [ apply Nat.leb_le; lia | reflexivity ].
    - intros x. now rewrite E1. }
  destruct r1 as [ | c2 r2]; [ exact I | ].
  assert (three : forall cond : bool,
             cond = true ->
             128 <= nat_of_ascii c1 -> 128 <= nat_of_ascii c2 ->
             (nat_of_ascii c =? 10) = false /\
             exists d1 d2 r3,
               String c1 (String c2 r2) = String d1 (String d2 r3) /\
               high 2 (String c1 (String c2 r2)) = true /\
               True).
  { intros cond _ H1 H2. split; [ exact N | ].
    exists c1, c2, r2. split; [ reflexivity | ]. split; [ | exact I ].
    cbn [high]. apply andb_true_iff. split; [ now apply Nat.leb_le | ].
    apply andb_true_iff. split; [ now apply Nat.leb_le | reflexivity ]. }
  repeat match goal with
         | |- context [ if ?b then 3 else _ ] =>
             let E := fresh "E" in destruct b eqn:E
         end;
    try exact I;
    (split; [ exact N | ]; exists c1, c2, r2; split; [ reflexivity | ]; split;
     [ cbn [high]; bools; subst;
       repeat (apply andb_true_iff; split); try reflexivity; apply Nat.leb_le; lia
     | intros x;
       repeat match goal with
              | H : _ = true |- _ => rewrite H
              | H : _ = false |- _ => rewrite H
              end; reflexivity ]).
Qed.

Lemma split_lines_cons (s : string) : exists line lines, split_lines s = line :: lines.
Proof.
  induction s as [ | c s [line [lines IH]]]; cbn [split_lines].
  - eexists. eexists. reflexivity.
  - destruct (nat_of_ascii c =? 10); [ eexists; eexists; reflexivity | ].
    rewrite IH. eexists. eexists. reflexivity.
Qed.

Lemma split_lines_high (c : ascii) (s : string) :
  (nat_of_ascii c =? 10) = false ->
  exists line lines,
    split_lines s = line :: lines /\
    split_lines (String c s) = String c line :: lines.
Proof.
  intros N. destruct (split_lines_cons s) as [line [lines E]].
  exists line, lines. split; [ exact E | ]. cbn [split_lines]. now rewrite N, E.
Qed.

Lemma high_not_line_feed (c : ascii) :
  (128 <=? nat_of_ascii c) = true -> (nat_of_ascii c =? 10) = false.
Proof. intros H. apply Nat.leb_le in H. apply Nat.eqb_neq. lia. Qed.

(** All the lines of a blank string are blank. *)
Lemma blank_lines (s : string) : forall k,
  high k s = true ->
  blank_from k s = true ->
  exists line lines,
    split_lines s = line :: lines /\
    blank_from k line = true /\
    forallb blank lines = true.
Proof.
  induction s as [ | c s IH]; intros k H B.
  - exists "", []. repeat split.
  - destruct k as [ | k].
    + cbn [blank_from] in B.
      pose proof (whitespace_width_cases c s) as W.
      destruct (whitespace_width (String c s)) as [ | [ | [ | [ | w]]]] eqn:E;
        try discriminate; try contradiction.
      * destruct (IH 0 eq_refl B) as [line [lines [S [Bl Bs]]]].
        destruct (nat_of_ascii c =? 10) eqn:N.
        -- exists "", (line :: lines). cbn [split_lines]. rewrite N, S.
           repeat split. cbn [forallb]. unfold blank at 1. now rewrite Bl.
        -- exists (String c line), lines. cbn [split_lines]. rewrite N, S.
           repeat split; [ | exact Bs ]. cbn [blank_from]. now rewrite (W line).
      * destruct W as [N [c1 [r1 [-> [Hh W]]]]].
        destruct (IH 1 Hh B) as [line [lines [S [Bl Bs]]]].
        cbn [high] in Hh. apply andb_true_iff in Hh. destruct Hh as [H1 _].
        destruct (split_lines_high c1 r1 (high_not_line_feed _ H1))
          as [l1 [ls1 [S1 S1']]].
        rewrite S1' in S. injection S as <- <-.
        exists (String c (String c1 l1)), ls1. cbn [split_lines] in *.
        rewrite N. rewrite S1'. repeat split; [ | exact Bs ].
        cbn [blank_from]. now rewrite (W l1).
      * destruct W as [N [c1 [c2 [r2 [-> [Hh W]]]]]].
        destruct (IH 2 Hh B) as [line [lines [S [Bl Bs]]]].
        cbn [high] in Hh. apply andb_true_iff in Hh. destruct Hh as [H1 Hh].
        apply andb_true_iff in Hh. destruct Hh as [H2 _].
        destruct (split_lines_high c2 r2 (high_not_line_feed _ H2))
          as [l2 [ls2 [S2 S2']]].
        destruct (split_lines_high c1 (String c2 r2) (high_not_line_feed _ H1))
          as [l1 [ls1 [S1 S1']]].
        rewrite S2' in S1. injection S1 as <- <-.
        rewrite S1' in S. injection S as <- <-.
        exists (String c (String c1 (String c2 l2))), ls2.
        split; [ cbn [split_lines]; cbn [split_lines] in S1'; now rewrite N, S1' | ].
        split; [ | exact Bs ].
        cbn [blank_from]. now rewrite (W l2).
    + cbn [high] in H. apply andb_true_iff in H. destruct H as [H1 H].
      cbn [blank_from] in B.
      destruct (IH k H B) as [line [lines [S [Bl Bs]]]].
      exists (String c line), lines. cbn [split_lines].
      rewrite (high_not_line_feed _ H1), S. repeat split; assumption.
Qed.

(** When the command fails, or prints nothing but white space, there is
    no remote URL: the function returns null. *)
Theorem no_remote_url_without_output (stdout : string) :
  findUrlFromGitConfig Rejected = VNull /\
  (blank stdout = true -> findUrlFromGitConfig (Resolved stdout) = VNull).
Proof.
  split; [ reflexivity | ]. intros B. unfold findUrlFromGitConfig.
  destruct (blank_lines stdout 0 eq_refl B) as [line [lines [-> [Bl Bs]]]].
  assert (A : forallb blank (line :: lines) = true).
  { cbn [forallb]. unfold blank at 1. now rewrite Bl. }
  clear Bl Bs. induction (line :: lines) as [ | l ls IH]; [ reflexivity | ].
  cbn [forallb] in A. apply andb_true_iff in A. destruct A as [A1 A2].
  cbn [find]. rewrite A1. cbn [negb]. now apply IH.
Qed.

Lemma no_remote_url_without_output_witness :
  findUrlFromGitConfig Rejected = VNull /\
  findUrlFromGitConfig (Resolved (LF ++ "  " ++ LF)) = VNull.
Proof.
  split.
  - apply (proj1 (no_remote_url_without_output "")).
  - apply (proj2 (no_remote_url_without_output (LF ++ "  " ++ LF))). reflexivity.
Defined.

(** * The earlier version and the current one *)

Lemma part000_getFromUrlProperty (packageJson : json) (key : string) :
  Part000.getFromUrlProperty packageJson key = getFromUrlProperty packageJson key.
Proof.
  unfold Part000.getFromUrlProperty, getFromUrlProperty.
  destruct (get packageJson key) as [field | e]; cbn [bind]; [ | reflexivity ].
  destruct field as [[ | b | x | s | items | o] | ];
    cbn [json_truthy get_url_opt get bind negb]; try reflexivity.
  - destruct b; reflexivity.
  - destruct (Qeq_bool x 0); reflexivity.
  - destruct (prop "url" o) as [[ | b | x | s | items | o'] | ];
      cbn [json_truthy bind negb]; try reflexivity.
    + destruct b; reflexivity.
    + destruct (Qeq_bool x 0) eqn:E; cbn; rewrite ?E; reflexivity.
    + destruct s; reflexivity.
Qed.

Lemma part000_findUrls (packageJson : json) :
  Part000.findUrls packageJson = findUrlsFromPackageJson packageJson.
Proof.
  unfold Part000.findUrls, findUrlsFromPackageJson,
    Part000.author_of, author_of, Part000.repository_of, repository_of.
  now rewrite !part000_getFromUrlProperty.
Qed.

(** The extractor of the earlier version and the current one return the
    same record, or throw alike, on every manifest: testing the field
    and its url for truthiness one after the other, and reading the url
    with [?.], come to the same. *)
Theorem part000_findUrls_is_findUrlsFromPackageJson (packageJson : json) :
  Part000.findUrls packageJson = findUrlsFromPackageJson packageJson.
Proof. apply part000_findUrls. Qed.

Lemma part000_push_url (choices : list choice) (field : string * jsv) :
  String.eqb (fst field) "gitRemoteUrl" = false ->
  Part000.push_url choices field = push_url choices field.
Proof.
  destruct field as [key url]. cbn [fst]. intros K.
  unfold Part000.push_url, push_url. now rewrite K.
Qed.

Lemma part000_fold_push_url (urls : object jsv) : forall choices,
  forallb (fun k => negb (String.eqb k "gitRemoteUrl")) (map fst urls) = true ->
  fold_left Part000.push_url urls choices = fold_left push_url urls choices.
Proof.
  induction urls as [ | field urls IH]; intros choices; cbn [map forallb fold_left];
    [ reflexivity | ].
  intros H. apply andb_true_iff in H. destruct H as [K H].
  apply negb_true_iff in K. rewrite (part000_push_url _ _ K). now apply IH.
Qed.

Lemma part000_makeChoicesUrl (urls : object jsv) (g : inference) :
  forallb (fun k => negb (String.eqb k "gitRemoteUrl")) (map fst urls) = true ->
  Part000.makeChoicesUrl urls g = makeChoices urls g.
Proof.
  intros H. unfold Part000.makeChoicesUrl, makeChoices. cbv zeta.
  now rewrite (part000_fold_push_url urls _ H).
Qed.

(** On a record without a gitRemoteUrl field the choice builder of the
    earlier version makes the list of the current one. *)
Theorem part000_makeChoicesUrl_is_makeChoices (urls : object jsv) (g : inference) :
  forallb (fun k => negb (String.eqb k "gitRemoteUrl")) (map fst urls) = true ->
  Part000.makeChoicesUrl urls g = makeChoices urls g.
Proof. apply part000_makeChoicesUrl. Qed.

Lemma part000_makeChoicesUrl_is_makeChoices_witness :
  Part000.makeChoicesUrl [("homepage", VString "https://github.com/acme/widget")]
    (detectGitHubUrls [("homepage", VString "https://github.com/acme/widget")])
    = makeChoices [("homepage", VString "https://github.com/acme/widget")]
        (detectGitHubUrls [("homepage", VString "https://github.com/acme/widget")]).
Proof.
  apply part000_makeChoicesUrl_is_makeChoices. reflexivity.
Defined.

(** On every manifest the earlier version offers the choices that the
    current version offers when git gives no remote URL, and it fails
    when the current version fails. *)
Theorem part000_is_current_without_remote (packageJson : json) :
  Part000.choices_of packageJson = choices_of packageJson VNull.
Proof.
  unfold Part000.choices_of, choices_of. rewrite part000_findUrls.
  destruct (findUrlsFromPackageJson packageJson) as [urls | e] eqn:E; cbn [bind];
    [ | reflexivity ].
  unfold mergeGitRemoteUrl. cbn [truthy]. f_equal.
  apply part000_makeChoicesUrl.
  now rewrite (proj1 (findUrlsFromPackageJson_shape _ _ E)).
Qed.

(** * The names of a github.com URL *)

Lemma prefix_append (t x : string) : prefix t (t ++ x) = true.
Proof.
  induction t as [ | c t IH]; cbn [append prefix]; [ apply prefix_nil | ].
  destruct (ascii_dec c c); [ exact IH | contradiction ].
Qed.

Lemma includes_append (t a x : string) :
  prefix t x = true -> Str.includes t (a ++ x) = true.
Proof.
  intros P. induction a as [ | c a IH]; cbn [append].
  - destruct x; cbn [Str.includes]; now rewrite P.
  - cbn [Str.includes]. rewrite IH. apply orb_true_r.
Qed.

Lemma prefix_other (a c : ascii) (t x : string) :
  Ascii.eqb c a = false -> prefix (String a t) (String c x) = false.
Proof.
  intros E. cbn [prefix]. destruct (ascii_dec a c) as [-> | ]; [ | reflexivity ].
  now rewrite Ascii.eqb_refl in E.
Qed.

Lemma delimiter_char_prefixes (c : ascii) (x : string) :
  delimiter_char c = false ->
  prefix "/" (String c x) = false /\
  prefix "?" (String c x) = false /\
  prefix "#" (String c x) = false.
Proof.
  unfold delimiter_char. intros H.
  apply orb_false_iff in H. destruct H as [H H3].
  apply orb_false_iff in H. destruct H as [H1 H2].
  repeat split; now apply prefix_other.
Qed.

(** The group of the delimiters matches nothing at a character that is
    none of them. *)
Lemma delimiter_fails (n p : nat) (c : ascii) (x : string)
      (cs : list (nat * (nat * nat))) (k : Regex.cont) :
  delimiter_char c = false ->
  Regex.run (Regex.Group n Re.delimiter) k (Regex.mkState p (String c x) cs) = None.
Proof.
  intros H. destruct (delimiter_char_prefixes c x H) as [H1 [H2 H3]].
  unfold Re.delimiter.
  cbn [Regex.run Regex.pos Regex.rest Regex.caps Str.is_empty].
  rewrite H1, H2, H3. reflexivity.
Qed.

(** It matches at the end of the input and at each of them. *)
Lemma delimiter_matches (n p : nat) (tail : string) (cs : list (nat * (nat * nat))) :
  delimited tail = true ->
  exists q r,
    Regex.run (Regex.Group n Re.delimiter) Some (Regex.mkState p tail cs)
      = Some (Regex.mkState q r ((n, (p, q)) :: cs)).
Proof.
  destruct tail as [ | c x]; [ intros _; eexists; eexists; reflexivity | ].
  cbn [delimited]. unfold delimiter_char. intros H.
  unfold Re.delimiter.
  cbn [Regex.run Regex.pos Regex.rest Regex.caps Str.is_empty].
  destruct (Ascii.eqb c "/") eqn:E1.
  { apply Ascii.eqb_eq in E1. subst c. cbn [prefix].
    destruct (ascii_dec "/" "/"); [ | contradiction ]. rewrite prefix_nil.
    eexists. eexists. reflexivity. }
  rewrite (prefix_other "/" c "" x E1). cbn [Regex.orelse].
  destruct (Ascii.eqb c "?") eqn:E2.
  { apply Ascii.eqb_eq in E2. subst c. cbn [prefix].
    destruct (ascii_dec "?" "?"); [ | contradiction ]. rewrite prefix_nil.
    eexists. eexists. reflexivity. }
  rewrite (prefix_other "?" c "" x E2). cbn [Regex.orelse].
  cbn [orb] in H. apply Ascii.eqb_eq in H. subst c. cbn [prefix].
  destruct (ascii_dec "#" "#"); [ | contradiction ]. rewrite prefix_nil.
  eexists. eexists. reflexivity.
Qed.

Lemma delimiter_char_ascii (c : ascii) :
  delimiter_char c = true -> nat_of_ascii c < 128.
Proof.
  unfold delimiter_char. intros H.
  apply orb_true_iff in H. destruct H as [H | H];
    [ apply orb_true_iff in H; destruct H as [H | H] | ];
    apply Ascii.eqb_eq in H; subst c; cbn; lia.
Qed.

Lemma line_terminator_before (c : ascii) (u v : string) :
  delimited v = true ->
  Str.line_terminator_at (String c u) = false ->
  Str.line_terminator_at (String c (u ++ v)) = false.
Proof.
  destruct v as [ | d v]; [ now rewrite append_nil_r | ].
  cbn [delimited]. intros D. apply line_terminator_at_append.
  now apply delimiter_char_ascii.
Qed.

(** The lazy dot goes over a name, at no character of which the rest can
    be matched. *)
Lemma lazy_any_over (k : Regex.cont) (cs : list (nat * (nat * nat)))
      (v : string) (u : string) : forall p,
  (forall q c x, delimiter_char c = false ->
                 k (Regex.mkState q (String c x) cs) = None) ->
  delimited v = true ->
  single_line u = true ->
  no_delimiter u = true ->
  Regex.lazy_any k cs p (u ++ v) = Regex.lazy_any k cs (p + String.length u) v.
Proof.
  induction u as [ | c u IH]; intros p K D L N.
  - cbn [append String.length]. now rewrite Nat.add_0_r.
  - destruct (single_line_cons _ _ L) as [T L'].
    cbn [no_delimiter] in N. apply andb_true_iff in N. destruct N as [Nc N].
    apply negb_true_iff in Nc.
    cbn [append Regex.lazy_any]. rewrite (K p c (u ++ v) Nc). cbn [Regex.orelse].
    rewrite (line_terminator_before c u v D T).
    rewrite (IH (S p) K D L' N). cbn [String.length]. now rewrite Nat.add_succ_r.
Qed.

Lemma lazy_any_here (k : Regex.cont) (cs : list (nat * (nat * nat)))
      (p : nat) (v : string) (res : Regex.state) :
  k (Regex.mkState p v cs) = Some res -> Regex.lazy_any k cs p v = Some res.
Proof. intros H. destruct v; cbn [Regex.lazy_any]; now rewrite H. Qed.

Lemma search_skip (r : Regex.t) (t : string) (a : ascii) (pre x : string) : forall p,
  Str.includes (String a "") pre = false ->
  Regex.search_from (Regex.Seq (Regex.Lit (String a t)) r) p (pre ++ x)
    = Regex.search_from (Regex.Seq (Regex.Lit (String a t)) r) (p + String.length pre) x.
Proof.
  induction pre as [ | c pre IH]; intros p I.
  - cbn [append String.length]. now rewrite Nat.add_0_r.
  - destruct (includes_one_cons _ _ _ I) as [P I'].
    cbn [append Regex.search_from Regex.run Regex.rest].
    rewrite (prefix_cons_split a t), (P (pre ++ x)). cbn [andb].
    rewrite (IH (S p) I'). cbn [String.length]. now rewrite Nat.add_succ_r.
Qed.

Lemma search_from_here (r : Regex.t) (p : nat) (x : string) (st : Regex.state) :
  Regex.run r Some (Regex.mkState p x []) = Some st ->
  Regex.search_from r p x = Some (Regex.mkFound p (Regex.pos st) (Regex.caps st)).
Proof. intros H. destruct x; cbn [Regex.search_from]; now rewrite H. Qed.

Lemma segment_inv (s : string) :
  segment s = true ->
  Str.is_empty s = false /\ single_line s = true /\ no_delimiter s = true.
Proof.
  unfold segment. intros H.
  apply andb_true_iff in H. destruct H as [H N].
  apply andb_true_iff in H. destruct H as [E L].
  apply negb_true_iff in E. auto.
Qed.

Lemma slice_append (a m b : string) (i j : nat) :
  i = String.length a -> j = String.length a + String.length m ->
  Str.slice i j (a ++ m ++ b) = m.
Proof. intros -> ->. apply slice_middle. Qed.

(** The user name of PRE github.com/USER TAIL. *)
Lemma exec_user_name (pre user tail : string) :
  Str.includes "g" pre = false ->
  segment user = true ->
  delimited tail = true ->
  exists m,
    Regex.exec Re.user_name (pre ++ "github.com/" ++ user ++ tail) = Some m /\
    capture (pre ++ "github.com/" ++ user ++ tail) m 1 = VString user.
Proof.
  intros G S D. destruct (segment_inv _ S) as [_ [L N]].
  unfold Regex.exec, Re.user_name. rewrite (search_skip _ _ _ _ _ 0 G).
  cbn [Nat.add].
  set (p := String.length pre).
  destruct (delimiter_matches 2 (p + 11 + String.length user) tail
              [(1, (p + 11, p + 11 + String.length user))] D) as [q [r E]].
  exists (Regex.mkFound p q [(2, (p + 11 + String.length user, q));
                              (1, (p + 11, p + 11 + String.length user))]).
  split.
  - apply (search_from_here _ _ _
             (Regex.mkState q r [(2, (p + 11 + String.length user, q));
                                 (1, (p + 11, p + 11 + String.length user))])).
    cbn [Regex.run Regex.pos Regex.rest Regex.caps String.length Regex.any_star].
    rewrite prefix_append.
    replace (Str.drop 11 ("github.com/" ++ user ++ tail)) with (user ++ tail)
      by reflexivity.
    rewrite lazy_any_over; try assumption.
    + apply lazy_any_here. cbn [Regex.set_cap Regex.pos Regex.rest Regex.caps].
      exact E.
    + intros q' c x Hc. cbn [Regex.set_cap Regex.pos Regex.rest Regex.caps].
      now apply delimiter_fails.
  - unfold capture, Regex.group. cbn [Regex.groups Regex.lookup Nat.eqb].
    f_equal.
    replace (pre ++ "github.com/" ++ user ++ tail)
      with ((pre ++ "github.com/") ++ user ++ tail) by (now rewrite append_assoc).
    apply slice_append; rewrite length_append; reflexivity.
Qed.

(** The repository name of PRE github.com/USER/REPOSITORY TAIL. *)
Lemma exec_repository_name (pre user repo tail : string) :
  Str.includes "g" pre = false ->
  segment user = true ->
  segment repo = true ->
  delimited tail = true ->
  exists m,
    Regex.exec Re.repository_name (pre ++ "github.com/" ++ user ++ "/" ++ repo ++ tail)
      = Some m /\
    capture (pre ++ "github.com/" ++ user ++ "/" ++ repo ++ tail) m 2 = VString repo.
Proof.
  intros G Su Sr D.
  destruct (segment_inv _ Su) as [_ [Lu Nu]].
  destruct (segment_inv _ Sr) as [_ [Lr Nr]].
  unfold Regex.exec, Re.repository_name. rewrite (search_skip _ _ _ _ _ 0 G).
  cbn [Nat.add].
  set (p := String.length pre).
  set (p1 := p + 11 + String.length user + 1).
  destruct (delimiter_matches 3 (p1 + String.length repo) tail
              [(2, (p1, p1 + String.length repo));
               (1, (p + 11, p + 11 + String.length user))] D) as [q [r E]].
  exists (Regex.mkFound p q [(3, (p1 + String.length repo, q));
                              (2, (p1, p1 + String.length repo));
                              (1, (p + 11, p + 11 + String.length user))]).
  split.
  - apply (search_from_here _ _ _
             (Regex.mkState q r [(3, (p1 + String.length repo, q));
                                 (2, (p1, p1 + String.length repo));
                                 (1, (p + 11, p + 11 + String.length user))])).
    cbn [Regex.run Regex.pos Regex.rest Regex.caps String.length Regex.any_star].
    rewrite prefix_append.
    replace (Str.drop 11 ("github.com/" ++ user ++ "/" ++ repo ++ tail))
      with (user ++ "/" ++ repo ++ tail) by reflexivity.
    rewrite lazy_any_over; try assumption; try reflexivity.
    + apply lazy_any_here.
      cbn [Regex.set_cap Regex.pos Regex.rest Regex.caps append prefix Str.drop].
      destruct (ascii_dec "/" "/"); [ | contradiction ]. rewrite prefix_nil.
      fold p1.
      rewrite lazy_any_over; try assumption.
      * apply lazy_any_here. cbn [Regex.set_cap Regex.pos Regex.rest Regex.caps].
        exact E.
      * intros q' c x Hc. cbn [Regex.set_cap Regex.pos Regex.rest Regex.caps].
        now apply delimiter_fails.
    + intros q' c x Hc. cbn [Regex.set_cap Regex.pos Regex.rest Regex.caps].
      destruct (delimiter_char_prefixes c x Hc) as [H1 _]. now rewrite H1.
  - unfold capture, Regex.group. cbn [Regex.groups Regex.lookup Nat.eqb].
    f_equal.
    replace (pre ++ "github.com/" ++ user ++ "/" ++ repo ++ tail)
      with ((pre ++ "github.com/" ++ user ++ "/") ++ repo ++ tail)
      by (now rewrite !append_assoc).
    apply slice_append; subst p1 p; rewrite !length_append; cbn [String.length]; lia.
Qed.

Lemma fold_scan_irrelevant (before : object jsv) : forall st,
  forallb (fun field => negb (relevant field)) before = true ->
  fold_left scan_url (values before) st = st.
Proof.
  induction before as [ | field before IH]; intros st; cbn [forallb values map fold_left];
    [ reflexivity | ].
  intros H. apply andb_true_iff in H. destruct H as [R H].
  apply negb_true_iff in R. rewrite (scan_url_irrelevant st field R). now apply IH.
Qed.

Lemma scan_github_com_url (pre user repo tail : string) :
  Str.includes "g" pre = false ->
  segment user = true ->
  segment repo = true ->
  delimited tail = true ->
  scan_url scan0 (VString (pre ++ "github.com/" ++ user ++ "/" ++ repo ++ tail))
    = mkScan (VString user) (VString repo) false VNull.
Proof.
  intros G Su Sr D.
  destruct (segment_inv _ Su) as [Eu _]. destruct (segment_inv _ Sr) as [Er _].
  unfold scan_url. cbn [truthy to_string].
  rewrite is_empty_app_r by reflexivity. cbn [negb].
  rewrite (includes_append "github.com" pre) by reflexivity.
  unfold scan_github_com. cbn [s_userName scan0 truthy negb].
  assert (D' : delimited ("/" ++ repo ++ tail) = true) by reflexivity.
  destruct (exec_user_name pre user ("/" ++ repo ++ tail) G Su D') as [m [-> ->]].
  cbn [is_empty_string]. rewrite Eu. cbn [negb s_repositoryName with_userName truthy].
  destruct (exec_repository_name pre user repo tail G Su Sr D) as [m' [-> ->]].
  cbn [is_empty_string]. rewrite Er. reflexivity.
Qed.

(** The usual case.  The first field of the record that mentions GitHub
    being a URL of github.com followed by a user segment, a slash and a
    repository segment, and then nothing or [/], [?] or [#], the
    inference gives these two names, and the user URL and repository URL
    made of them, whatever the later fields are.  (Before github.com the
    URL has no letter g, as in https://.) *)
Theorem github_com_url_gives_names
        (before more : object jsv) (key pre user repo tail : string) :
  forallb (fun field => negb (relevant field)) before = true ->
  Str.includes "g" pre = false ->
  segment user = true ->
  segment repo = true ->
  delimited tail = true ->
  exists flag pages,
    detectGitHubUrls
      (before ++ (key, VString (pre ++ "github.com/" ++ user ++ "/" ++ repo ++ tail))
              :: more)%list
      = mkInference (VString user) (VString repo)
          (VString ("https://github.com/" ++ user))
          (VString ("https://github.com/" ++ user ++ "/" ++ repo))
          flag pages.
Proof.
  intros B G Su Sr D.
  destruct (segment_inv _ Su) as [Eu _]. destruct (segment_inv _ Sr) as [Er _].
  unfold detectGitHubUrls, scan_urls, values.
  rewrite map_app, fold_left_app. cbn [map snd fold_left].
  change (map snd before) with (values before).
  rewrite (fold_scan_irrelevant before scan0 B).
  rewrite (scan_github_com_url pre user repo tail G Su Sr D).
  set (st := mkScan (VString user) (VString repo) false VNull).
  destruct (fold_scan_keeps (map snd more) st) as [Ku [Kr _]].
  assert (Tu : truthy (s_userName st) = true) by (cbn; now rewrite Eu).
  assert (Tr : truthy (s_repositoryName st) = true) by (cbn; now rewrite Er).
  specialize (Ku Tu). specialize (Kr Tr).
  unfold derive. rewrite Ku, Kr. cbn [s_userName s_repositoryName st truthy to_string].
  rewrite Eu, Er. cbn [negb andb].
  eexists. eexists. reflexivity.
Qed.

Lemma github_com_url_gives_names_witness :
  exists flag pages,
    detectGitHubUrls
      ([("homepage", VString "https://example.com"); ("author", VNull)]
         ++ ("repository", VString ("https://" ++ "github.com/" ++ "acme" ++ "/" ++ "widget" ++ "/issues"))
         :: [("bugs", VString "https://github.com/other/gadget/issues")])%list
      = mkInference (VString "acme") (VString "widget")
          (VString ("https://github.com/" ++ "acme"))
          (VString ("https://github.com/" ++ "acme" ++ "/" ++ "widget"))
          flag pages.
Proof.
  apply (github_com_url_gives_names
           [("homepage", VString "https://example.com"); ("author", VNull)]
           [("bugs", VString "https://github.com/other/gadget/issues")]
           "repository" "https://" "acme" "widget" "/issues"); reflexivity.
Defined.

(** * The names of a github.io URL *)

Lemma lazy_any_skip (bad : ascii -> bool) (k : Regex.cont)
      (cs : list (nat * (nat * nat))) (v : string) (u : string) : forall p,
  (forall q c x, bad c = false -> k (Regex.mkState q (String c x) cs) = None) ->
  ascii_head v = true ->
  single_line u = true ->
  none_of bad u = true ->
  Regex.lazy_any k cs p (u ++ v) = Regex.lazy_any k cs (p + String.length u) v.
Proof.
  induction u as [ | c u IH]; intros p K A L N.
  - cbn [append String.length]. now rewrite Nat.add_0_r.
  - destruct (single_line_cons _ _ L) as [T L'].
    cbn [none_of] in N. apply andb_true_iff in N. destruct N as [Nc N].
    apply negb_true_iff in Nc.
    cbn [append Regex.lazy_any]. rewrite (K p c (u ++ v) Nc). cbn [Regex.orelse].
    assert (T' : Str.line_terminator_at (String c (u ++ v)) = false).
    { destruct v as [ | d v]; [ now rewrite append_nil_r | ].
      apply line_terminator_at_append; [ | exact T ].
      cbn [ascii_head] in A. now apply Nat.ltb_lt. }
    rewrite T'. rewrite (IH (S p) K A L' N).
    cbn [String.length]. now rewrite Nat.add_succ_r.
Qed.

Lemma includes_one_none_of (a : ascii) (s : string) :
  Str.includes (String a "") s = false -> none_of (fun c => Ascii.eqb c a) s = true.
Proof.
  induction s as [ | c s IH]; [ reflexivity | ].
  intros I. destruct (includes_one_cons _ _ _ I) as [P I'].
  cbn [none_of]. rewrite (IH I'), andb_true_r. apply negb_true_iff.
  destruct (Ascii.eqb c a) eqn:E; [ | reflexivity ].
  apply Ascii.eqb_eq in E. subst c. specialize (P "").
  cbn [prefix] in P. now destruct (ascii_dec a a).
Qed.

Lemma subdomain_inv (s : string) :
  subdomain s = true ->
  Str.is_empty s = false /\ single_line s = true /\ Str.includes "." s = false.
Proof.
  unfold subdomain. intros H.
  apply andb_true_iff in H. destruct H as [H N].
  apply andb_true_iff in H. destruct H as [E L].
  apply negb_true_iff in E. apply negb_true_iff in N. auto.
Qed.


(** The match of PRE://USER.github.io followed by what the continuation
    [after] of the host matches. *)
Lemma run_github_pages_host (user rest : string) (p : nat) (res : Regex.state) :
  subdomain user = true ->
  Regex.run
    (Regex.Seq (Regex.Opt (Regex.Group 2 (Regex.Seq (Regex.Lit "/") (Regex.AnyStar false))))
               (Regex.Group 3 Re.delimiter))
    Some
    (Regex.mkState (p + 3 + String.length user + 10) rest
                   [(1, (p + 3, p + 3 + String.length user))])
    = Some res ->
  Regex.run Re.github_pages Some
    (Regex.mkState p ("://" ++ user ++ ".github.io" ++ rest) [])
    = Some res.
Proof.
  intros Sd H. destruct (subdomain_inv _ Sd) as [E [L N]].
  unfold Re.github_pages.
  cbn [Regex.run Regex.pos Regex.rest Regex.caps String.length].
  rewrite prefix_append.
  replace (Str.drop 3 ("://" ++ user ++ ".github.io" ++ rest))
    with (user ++ ".github.io" ++ rest) by reflexivity.
  set (v := ".github.io" ++ rest).
  destruct user as [ | c user]; [ discriminate | ].
  destruct (single_line_cons _ _ L) as [T L'].
  destruct (includes_one_cons _ _ _ N) as [_ N'].
  unfold Regex.any_one. cbn [Regex.rest Regex.pos Regex.caps append].
  assert (T' : Str.line_terminator_at (String c (user ++ v)) = false).
  { apply (line_terminator_at_append c "." user ("github.io" ++ rest));
      [ cbn; lia | exact T ]. }
  rewrite T'. unfold Regex.any_star. cbn [Regex.rest Regex.pos Regex.caps].
  rewrite (lazy_any_skip (fun c => Ascii.eqb c ".")); try reflexivity; try assumption.
  - apply lazy_any_here.
    cbn [Regex.set_cap Regex.pos Regex.rest Regex.caps].
    unfold v. rewrite prefix_append.
    replace (Str.drop (String.length ".github.io") (".github.io" ++ rest))
      with rest by reflexivity.
    cbn [String.length] in *.
    replace (S (p + 3) + String.length user + 10)
      with (p + 3 + S (String.length user) + 10) by lia.
    replace (S (p + 3) + String.length user)
      with (p + 3 + S (String.length user)) by lia.
    exact H.
  - intros q d x Hd. cbn [Regex.set_cap Regex.pos Regex.rest Regex.caps].
    rewrite (prefix_other "." d "github.io" x Hd). reflexivity.
  - now apply includes_one_none_of.
Qed.


Lemma run_pages_slash (tail : string) (q : nat) (cs : list (nat * (nat * nat))) :
  delimited tail = true ->
  exists q' r,
    Regex.run
      (Regex.Seq (Regex.Opt (Regex.Group 2 (Regex.Seq (Regex.Lit "/") (Regex.AnyStar false))))
                 (Regex.Group 3 Re.delimiter))
      Some (Regex.mkState q ("/" ++ tail) cs)
    = Some (Regex.mkState q' r ((3, (q + 1, q')) :: (2, (q, q + 1)) :: cs)).
Proof.
  intros D.
  destruct (delimiter_matches 3 (q + 1) tail ((2, (q, q + 1)) :: cs) D) as [q' [r E]].
  exists q', r.
  cbn [Regex.run Regex.pos Regex.rest Regex.caps String.length Regex.any_star
         append prefix Str.drop].
  destruct (ascii_dec "/" "/"); [ | contradiction ]. rewrite prefix_nil.
  match goal with
  | |- context [ Regex.lazy_any ?k ?c ?i ?x ] =>
      assert (H : Regex.lazy_any k c i x
                  = Some (Regex.mkState q' r ((3, (q + 1, q')) :: (2, (q, q + 1)) :: cs)))
  end.
  { apply lazy_any_here. exact E. }
  rewrite H. reflexivity.
Qed.

Lemma capture_slice (url a m b : string) (f : Regex.found) (n i j : nat) :
  Regex.lookup n (Regex.groups f) = Some (i, j) ->
  url = a ++ m ++ b ->
  i = String.length a ->
  j = String.length a + String.length m ->
  capture url f n = VString m.
Proof.
  intros H -> -> ->. unfold capture, Regex.group. rewrite H.
  now rewrite slice_middle.
Qed.


(** The groups of PRE://USER.github.io and of PRE://USER.github.io/ TAIL. *)
Lemma exec_github_pages_root (pre user tail : string) :
  Str.includes ":" pre = false ->
  subdomain user = true ->
  delimited tail = true ->
  (exists m,
     Regex.exec Re.github_pages (pre ++ "://" ++ user ++ ".github.io" ++ "") = Some m /\
     capture (pre ++ "://" ++ user ++ ".github.io" ++ "") m 1 = VString user /\
     capture (pre ++ "://" ++ user ++ ".github.io" ++ "") m 2 = VUndefined) /\
  (exists m,
     Regex.exec Re.github_pages (pre ++ "://" ++ user ++ ".github.io" ++ "/" ++ tail)
       = Some m /\
     capture (pre ++ "://" ++ user ++ ".github.io" ++ "/" ++ tail) m 1 = VString user /\
     capture (pre ++ "://" ++ user ++ ".github.io" ++ "/" ++ tail) m 2 = VString "/").
Proof.
  intros C Su D.
  set (p := String.length pre). split.
  - pose proof (run_github_pages_host user "" p _ Su eq_refl) as R.
    eexists. split; [ | split ].
    + unfold Regex.exec, Re.github_pages. rewrite (search_skip _ _ _ _ _ 0 C).
      apply (search_from_here _ _ _ _ R).
    + eapply (capture_slice _ (pre ++ "://") user); cbn [Regex.groups Regex.caps].
      * reflexivity.
      * now rewrite !append_assoc.
      * rewrite length_append. reflexivity.
      * rewrite length_append. reflexivity.
    + reflexivity.
  - destruct (run_pages_slash tail (p + 3 + String.length user + 10)
                [(1, (p + 3, p + 3 + String.length user))] D) as [q' [r E]].
    pose proof (run_github_pages_host user ("/" ++ tail) p _ Su E) as R.
    eexists. split; [ | split ].
    + unfold Regex.exec, Re.github_pages. rewrite (search_skip _ _ _ _ _ 0 C).
      apply (search_from_here _ _ _ _ R).
    + eapply (capture_slice _ (pre ++ "://") user); cbn [Regex.groups Regex.caps].
      * reflexivity.
      * now rewrite !append_assoc.
      * rewrite length_append. reflexivity.
      * rewrite length_append. reflexivity.
    + eapply (capture_slice _ (pre ++ "://" ++ user ++ ".github.io") "/");
        cbn [Regex.groups Regex.caps].
      * reflexivity.
      * now rewrite !append_assoc.
      * rewrite !length_append. cbn [String.length]. subst p. lia.
      * rewrite !length_append. cbn [String.length]. subst p. lia.
Qed.

Lemma fold_scan_flag_kept (l : list jsv) : forall st,
  s_hasGitHubPages st = true ->
  s_hasGitHubPages (fold_left scan_url l st) = true.
Proof.
  induction l as [ | url l IH]; intros st F; cbn [fold_left]; [ exact F | ].
  apply IH. unfold scan_url.
  destruct (negb (truthy url)); [ exact F | ].
  destruct (Str.includes "github.com" (to_string url)).
  - now rewrite (proj1 (scan_github_com_pages (to_string url) st)).
  - destruct (_ && _); [ apply scan_github_io_flag | exact F ].
Qed.

(** What the inference is once the scan has found both names and a
    Pages URL. *)
Lemma detect_after_pages (before more : object jsv) (key url user repo pages : string) :
  forallb (fun field => negb (relevant field)) before = true ->
  Str.is_empty user = false ->
  Str.is_empty repo = false ->
  Str.is_empty pages = false ->
  scan_url scan0 (VString url)
    = mkScan (VString user) (VString repo) true (VString pages) ->
  detectGitHubUrls (before ++ (key, VString url) :: more)%list
    = mkInference (VString user) (VString repo)
        (VString ("https://github.com/" ++ user))
        (VString ("https://github.com/" ++ user ++ "/" ++ repo))
        true (VString pages).
Proof.
  intros B Eu Er Ep H.
  unfold detectGitHubUrls, scan_urls, values.
  rewrite map_app, fold_left_app. cbn [map snd fold_left].
  change (map snd before) with (values before).
  rewrite (fold_scan_irrelevant before scan0 B), H.
  set (st := mkScan (VString user) (VString repo) true (VString pages)).
  destruct (fold_scan_keeps (map snd more) st) as [Ku [Kr Kp]].
  pose proof (fold_scan_flag_kept (map snd more) st eq_refl) as Kf.
  assert (Tu : truthy (s_userName st) = true) by (cbn; now rewrite Eu).
  assert (Tr : truthy (s_repositoryName st) = true) by (cbn; now rewrite Er).
  assert (Tp : truthy (s_gitHubPagesUrl st) = true) by (cbn; now rewrite Ep).
  specialize (Ku Tu). specialize (Kr Tr). specialize (Kp Tp).
  unfold derive. rewrite Ku, Kr, Kp, Kf.
  cbn [s_userName s_repositoryName s_gitHubPagesUrl st truthy to_string].
  rewrite Eu, Er, Ep. reflexivity.
Qed.

Lemma includes_github_io (pre user rest : string) :
  Str.includes "github.io" (pre ++ "://" ++ user ++ ".github.io" ++ rest) = true.
Proof.
  replace (pre ++ "://" ++ user ++ ".github.io" ++ rest)
    with ((pre ++ "://" ++ user ++ ".") ++ "github.io" ++ rest)
    by (now rewrite !append_assoc).
  apply includes_append, prefix_append.
Qed.



(** A user site.  The first field of the record that mentions GitHub
    being PRE://USER.github.io, alone or followed by a slash and then by
    nothing or by [/], [?] or [#], where PRE holds no colon, USER is
    not empty, on one line and without a dot, and the URL does not
    contain github.com (such a URL is scanned by the github.com branch
    instead), the whole inference is determined: the user name is USER,
    the repository is taken to be USER.github.io, the Pages site counts
    as observed, the Pages URL is https://USER.github.io, and the user
    and repository URLs are made of these two names. *)
Theorem github_io_user_site
        (before more : object jsv) (key pre user rest : string) :
  forallb (fun field => negb (relevant field)) before = true ->
  Str.includes ":" pre = false ->
  subdomain user = true ->
  rest = "" \/ (exists tail, rest = "/" ++ tail /\ delimited tail = true) ->
  Str.includes "github.com" (pre ++ "://" ++ user ++ ".github.io" ++ rest) = false ->
  detectGitHubUrls
    (before ++ (key, VString (pre ++ "://" ++ user ++ ".github.io" ++ rest)) :: more)%list
    = mkInference (VString user) (VString (user ++ ".github.io"))
        (VString ("https://github.com/" ++ user))
        (VString ("https://github.com/" ++ user ++ "/" ++ user ++ ".github.io"))
        true (VString ("https://" ++ user ++ ".github.io")).
Proof.
  intros B C Su R G.
  destruct (subdomain_inv _ Su) as [Eu _].
  apply detect_after_pages; try assumption;
    [ now apply is_empty_app_r | reflexivity | ].
  unfold scan_url. cbn [truthy to_string].
  rewrite is_empty_app_r by reflexivity. cbn [negb].
  rewrite G, includes_github_io. cbn [andb scan0 s_gitHubPagesUrl truthy negb].
  unfold scan_github_io.
  destruct R as [-> | [tail [-> D]]].
  - destruct (proj1 (exec_github_pages_root pre user "" C Su eq_refl))
      as [m [-> [-> ->]]].
    cbn [truthy to_string]. rewrite Eu. reflexivity.
  - destruct (proj2 (exec_github_pages_root pre user tail C Su D))
      as [m [-> [-> ->]]].
    cbn [truthy to_string]. rewrite Eu. reflexivity.
Qed.

Lemma github_io_user_site_witness :
  detectGitHubUrls
    ([] ++ ("homepage", VString ("https" ++ "://" ++ "acme" ++ ".github.io" ++ "/")) :: [])%list
    = mkInference (VString "acme") (VString ("acme" ++ ".github.io"))
        (VString ("https://github.com/" ++ "acme"))
        (VString ("https://github.com/" ++ "acme" ++ "/" ++ "acme" ++ ".github.io"))
        true (VString ("https://" ++ "acme" ++ ".github.io")).
Proof.
  apply (github_io_user_site [] [] "homepage" "https" "acme" "/"); try reflexivity.
  right. exists "". split; reflexivity.
Defined.

(** * No fragment is left *)

Lemma includes_one_split (a : ascii) (s : string) :
  Str.includes (String a "") s = true ->
  exists t f, s = t ++ String a f /\ Str.includes (String a "") t = false.
Proof.
  induction s as [ | c s IH]; [ discriminate | ].
  destruct (ascii_dec a c) as [<- | N].
  - intros _. exists "", s. split; reflexivity.
  - cbn [Str.includes prefix]. destruct (ascii_dec a c); [ contradiction | ].
    cbn [orb]. intros H. destruct (IH H) as [t [f [-> I]]].
    exists (String c t), f. split; [ reflexivity | ].
    cbn [Str.includes prefix]. destruct (ascii_dec a c); [ contradiction | exact I ].
Qed.

Lemma ends_with_split (u s : string) :
  ends_with u s = true -> exists t, s = t ++ u.
Proof.
  induction s as [ | c s IH]; cbn [ends_with].
  - intros H. apply orb_true_iff in H. destruct H as [H | H]; [ | discriminate ].
    apply String.eqb_eq in H. subst u. now exists "".
  - intros H. apply orb_true_iff in H. destruct H as [H | H].
    + apply String.eqb_eq in H. subst u. now exists "".
    + destruct (IH H) as [t ->]. now exists (String c t).
Qed.

Lemma includes_one_app_l (a : ascii) (x y : string) :
  Str.includes (String a "") (x ++ y) = false ->
  Str.includes (String a "") x = false.
Proof.
  induction x as [ | c x IH]; [ reflexivity | ].
  cbn [append]. intros H. destruct (includes_one_cons _ _ _ H) as [P I].
  cbn [Str.includes]. now rewrite (P x), (IH I).
Qed.

Lemma line_rest_append (a b : string) :
  line_rest (a ++ b) = "" -> line_rest b = "".
Proof.
  induction a as [ | c a IH]; [ trivial | ].
  cbn [append line_rest].
  destruct (Str.line_terminator_at (String c (a ++ b))); [ discriminate | exact IH ].
Qed.

(** Of a field that holds no line terminator nothing from the first [#]
    on is left: the value extracted contains no [#]. *)
Theorem extracted_field_has_no_fragment
        (props : object json) (key s : string) (v : jsv) :
  holds_string (prop key props) s ->
  single_line s = true ->
  getFromUrlProperty (JObject props) key = Ok v ->
  Str.includes "#" (to_string v) = false.
Proof.
  intros H L. rewrite (getFromUrlProperty_holds _ _ _ H). unfold normalized.
  destruct (Str.is_empty s); intros [= <-]; [ reflexivity | ]. cbn [to_string].
  destruct (Str.includes "#" s) eqn:I.
  - destruct (includes_one_split _ _ I) as [t [f [-> It]]].
    change (t ++ String "#" f) with (t ++ "#" ++ f).
    rewrite (remove_fragment_or_git_fragment t f It).
    unfold single_line in L.
    assert (R : line_rest f = "").
    { apply (line_rest_append (t ++ "#")). rewrite append_assoc.
      change (t ++ "#" ++ f) with (t ++ String "#" f).
      destruct (line_rest (t ++ String "#" f)); [ reflexivity | discriminate ]. }
    now rewrite R, append_nil_r.
  - destruct (ends_with ".git" s) eqn:E.
    + destruct (ends_with_split _ _ E) as [t ->].
      pose proof (includes_one_app_l _ _ _ I) as It.
      now rewrite (remove_fragment_or_git_suffix t It).
    + now rewrite (remove_fragment_or_git_none s I E).
Qed.

Lemma extracted_field_has_no_fragment_witness :
  Str.includes "#" (to_string (VString "https://github.com/acme/widget")) = false.
Proof.
  apply (extracted_field_has_no_fragment
           [("homepage", JString "https://github.com/acme/widget#readme")]
           "homepage" "https://github.com/acme/widget#readme"
           (VString "https://github.com/acme/widget")); try reflexivity.
  left. reflexivity.
Defined.
